(** * Composite process identifiers on macOS: a model of [cpid_macos.c]

    The development embeds [src/macos/cpid_macos.c] in Rocq.  Memory is an
    explicit heap of objects addressed by locations, every C function is a
    state transformer over that heap that may also run into undefined
    behaviour ([Fault]), and the collaborators the file calls into (libc,
    OpenSSL, IOKit / CoreFoundation, [sysctl], libuuid) are gathered in one
    interface so that every statement quantifies over their behaviour. *)

From Stdlib Require Import ZArith List Strings.Byte Lia Bool.
From stdpp Require Import base option list vector gmap.

Local Open Scope Z_scope.

(** ** Bytes and fixed-size arrays *)

Module Bytes.

Definition Z_of_byte (b : byte) : Z := Z.of_N (Byte.to_N b).

(** Conversion of an [int] to [uint8_t] / [char]: reduction modulo 256. *)
Definition byte_of_Z (z : Z) : byte :=
  match Byte.of_N (Z.to_N (z mod 256)) with
  | Some b => b
  | None => x00
  end.

(** A C array [uint8_t a[n]] (or [char a[n]]). *)
Abbreviation array n := (vec byte n).

(** All-zero array, as handed out by [calloc] or written by [= {0}]. *)
Definition zeroed (n : nat) : array n := vreplicate n x00.

(** [memcpy(dst, src, min(len src, n))]: the bytes of [src] overwrite a
    prefix of the [n]-byte array, the rest of the array keeps its value. *)
Fixpoint memcpy {n : nat} (src : list byte) (dst : array n) : array n :=
  match dst in Vector.t _ k return array k with
  | vnil => vnil
  | vcons d dst' =>
      match src with
      | [] => vcons d dst'
      | s :: src' => vcons s (memcpy src' dst')
      end
  end.

(** Unsigned 64-bit integer as it lies in memory on macOS hardware
    (x86-64 and arm64 are both little-endian): eight bytes, least
    significant first.  The value is taken modulo [2^64]. *)
Definition le64 (z : Z) : list byte :=
  map (fun i : Z => byte_of_Z (Z.shiftr z (8 * i))) [0; 1; 2; 3; 4; 5; 6; 7].

(** Unsigned integer, most significant byte first, on [n] bytes. *)
Fixpoint be_bytes (n : nat) (z : Z) : list byte :=
  match n with
  | O => []
  | S n' => be_bytes n' (Z.shiftr z 8) ++ [byte_of_Z z]
  end.

Definition be_word (bs : list byte) : Z :=
  fold_left (fun acc b => Z.lor (Z.shiftl acc 8) (Z_of_byte b)) bs 0.

#[global] Instance byte_inhabited : Inhabited byte := populate x00.

End Bytes.
Import Bytes.

(** ** SHA-256 (FIPS 180-4), the function OpenSSL provides under the name
  ["SHA256"] *)

Module SHA256.

Definition wrap32 (x : Z) : Z := x mod 2 ^ 32.
Definition add32 (x y : Z) : Z := wrap32 (x + y).
Definition rotr (n x : Z) : Z :=
  Z.lor (Z.shiftr x n) (wrap32 (Z.shiftl x (32 - n))).
Definition not32 (x : Z) : Z := Z.lxor x 0xffffffff.

Definition Ch (x y z : Z) : Z := Z.lxor (Z.land x y) (Z.land (not32 x) z).
Definition Maj (x y z : Z) : Z :=
  Z.lxor (Z.lxor (Z.land x y) (Z.land x z)) (Z.land y z).
Definition Sigma0 (x : Z) : Z := Z.lxor (Z.lxor (rotr 2 x) (rotr 13 x)) (rotr 22 x).
Definition Sigma1 (x : Z) : Z := Z.lxor (Z.lxor (rotr 6 x) (rotr 11 x)) (rotr 25 x).
Definition sigma0 (x : Z) : Z := Z.lxor (Z.lxor (rotr 7 x) (rotr 18 x)) (Z.shiftr x 3).
Definition sigma1 (x : Z) : Z := Z.lxor (Z.lxor (rotr 17 x) (rotr 19 x)) (Z.shiftr x 10).

(** The largest [r] below [2 ^ bits] with [r ^ k <= x], found bit by bit
    from the top. *)
Fixpoint root (k x : Z) (bits : nat) (r : Z) : Z :=
  match bits with
  | O => r
  | S bits' =>
      let r' := r + 2 ^ Z.of_nat bits' in
      if r' ^ k <=? x then root k x bits' r' else root k x bits' r
  end.

Definition is_prime (n : Z) : bool :=
  forallb (fun d => negb (n mod d =? 0)) (seqZ 2 (n - 2)).

Definition primes : list Z := filter (fun n => is_prime n = true) (seqZ 2 310).

(** The first 32 bits of the fractional part of the [k]-th root of [p]. *)
Definition fractional_root (k p : Z) : Z :=
  wrap32 (root k (p * 2 ^ (32 * k)) 40 0).

(** The round constants: from the cube roots of the first 64 primes. *)
Definition K : list Z := Eval vm_compute in map (fractional_root 3) (take 64 primes).

(** Padding: a one bit, zero bits up to 56 modulo 64 bytes, and the
    message length in bits on eight bytes. *)
Definition pad (msg : list byte) : list byte :=
  let len := Z.of_nat (length msg) in
  let zeros := Z.to_nat ((55 - len) mod 64) in
  msg ++ [x80] ++ replicate zeros x00 ++ be_bytes 8 (8 * len).

Fixpoint chunks (count size : nat) (l : list byte) : list (list byte) :=
  match count with
  | O => []
  | S count' => take size l :: chunks count' size (drop size l)
  end.

(** The message schedule, held most recent word first: [extend k ws]
    appends [k] further words to the sixteen words of the block. *)
Fixpoint extend (k : nat) (rev_ws : list Z) : list Z :=
  match k with
  | O => rev_ws
  | S k' =>
      let w i := nth i rev_ws 0 in
      let next := add32 (add32 (sigma1 (w 1%nat)) (w 6%nat))
                        (add32 (sigma0 (w 14%nat)) (w 15%nat)) in
      extend k' (next :: rev_ws)
  end.

Definition schedule (block : list byte) : list Z :=
  rev (extend 48 (rev (map be_word (chunks 16 4 block)))).

Record regs := Regs { ra : Z; rb : Z; rc : Z; rd : Z; re : Z; rf : Z; rg : Z; rh : Z }.

Definition round (s : regs) (kw : Z * Z) : regs :=
  let t1 := add32 (add32 (add32 (rh s) (Sigma1 (re s)))
                         (add32 (Ch (re s) (rf s) (rg s)) kw.1)) kw.2 in
  let t2 := add32 (Sigma0 (ra s)) (Maj (ra s) (rb s) (rc s)) in
  Regs (add32 t1 t2) (ra s) (rb s) (rc s) (add32 (rd s) t1) (re s) (rf s) (rg s).

Definition compress (h : regs) (block : list byte) : regs :=
  let s := fold_left round (combine K (schedule block)) h in
  Regs (add32 (ra h) (ra s)) (add32 (rb h) (rb s)) (add32 (rc h) (rc s))
       (add32 (rd h) (rd s)) (add32 (re h) (re s)) (add32 (rf h) (rf s))
       (add32 (rg h) (rg s)) (add32 (rh h) (rh s)).

(** The initial hash value: from the square roots of the first 8 primes. *)
Definition initial_words : list Z := Eval vm_compute in map (fractional_root 2) (take 8 primes).

Definition initial : regs :=
  match initial_words with
  | [a; b; c; d; e; f; g; h] => Regs a b c d e f g h
  | _ => Regs 0 0 0 0 0 0 0 0
  end.

Definition sha256 (msg : list byte) : list byte :=
  let padded := pad msg in
  let h := fold_left compress (chunks (length padded / 64)%nat 64 padded) initial in
  concat (map (be_bytes 4) [ra h; rb h; rc h; rd h; re h; rf h; rg h; rh h]).

End SHA256.

(** ** Constants

    [constants.h] is not among the sources.  The return codes and the PID
    bound are kept as parameters of the development; the statements that
    need the two return codes to differ say so. *)

Class Constants := {
  RETURN_SUCCESS : Z;
  RETURN_ERROR : Z;
  MAX_PID : Z
}.

(** Modelled from the spec: [SHA256_BUFFER_SIZE] is defined in
    [constants.h], which is missing; the spec gives the expected digest
    length as exactly 32 bytes, the width of SHA-256. *)
Definition SHA256_BUFFER_SIZE : Z := 32.

Definition KERNEL_TASK_PID : Z := 0.
Definition LAUNCHD_PID : Z := 1.
Definition MACOS_SERIAL_NUMBER_BUFFER_SIZE : nat := 16.
Definition MACOS_EXPECTED_DIGEST_INPUT_CONTENT_SIZE : nat := 88.
Definition MAX_MICROS_OFFSET : Z := 999999.
Definition OPEN_SSL_SUCCESS : Z := 1.

(** From the system headers: [EVP_MAX_MD_SIZE] of OpenSSL, and the sizes of
    [uuid_t] and [uuid_string_t] of libuuid. *)
Definition EVP_MAX_MD_SIZE : nat := 64.
Definition sizeof_uuid_t : nat := 16.
Definition sizeof_uuid_string_t : nat := 37.

Abbreviation uuid_t := (array sizeof_uuid_t).
Abbreviation uuid_string_t := (array sizeof_uuid_string_t).

(** ** The digest input record *)

Record process_creation_time_t := {
  unix_epoch_seconds : Z;   (* uint64_t *)
  micros_offset : Z         (* uint64_t *)
}.

Record digest_input_content_t := {
  serial_number : array MACOS_SERIAL_NUMBER_BUFFER_SIZE;
  hardware_uuid : uuid_t;
  kernel_task_creation_time : process_creation_time_t;
  launchd_creation_time : process_creation_time_t;
  process_creation_time : process_creation_time_t;
  pid : Z                   (* uint64_t *)
}.

(** The object representation under [#pragma pack(push, 1)]: the members
    in declaration order with nothing between them.  This is the byte
    string [EVP_DigestUpdate] reads through
    [&library_handle->digest_input_content]. *)
Definition process_creation_time_bytes (t : process_creation_time_t) : list byte :=
  le64 (unix_epoch_seconds t) ++ le64 (micros_offset t).

Definition digest_input_content_bytes (r : digest_input_content_t) : list byte :=
  vec_to_list (serial_number r)
  ++ vec_to_list (hardware_uuid r)
  ++ process_creation_time_bytes (kernel_task_creation_time r)
  ++ process_creation_time_bytes (launchd_creation_time r)
  ++ process_creation_time_bytes (process_creation_time r)
  ++ le64 (pid r).

Definition sizeof_digest_input_content_t : nat :=
  (MACOS_SERIAL_NUMBER_BUFFER_SIZE + sizeof_uuid_t + 3 * (8 + 8) + 8)%nat.

(** ** Pointers and the handle *)

Definition loc := positive.

(** A pointer is [NULL] ([None]) or the address of a heap object. *)
Definition ptr := option loc.

Definition is_null (p : ptr) : bool :=
  match p with None => true | Some _ => false end.

(** An output parameter of array type ([uuid_t uuid],
    [uuid_string_t uuid_string], ...): the functions below never read what
    the caller's array holds, so the model keeps only whether the pointer is
    [NULL], and returns what was written, if anything. *)
Inductive out_ptr := OutNull | OutArray.

Definition is_null_out (p : out_ptr) : bool :=
  match p with OutNull => true | OutArray => false end.

Record cpid_struct := {
  digest_context : ptr;     (* EVP_MD_CTX * *)
  sha256 : ptr;             (* EVP_MD * *)
  digest_destination_buffer : array EVP_MAX_MD_SIZE;
  digest_input_content : digest_input_content_t
}.

Definition zeroed_time : process_creation_time_t :=
  {| unix_epoch_seconds := 0; micros_offset := 0 |}.

(** [calloc(1, sizeof(struct cpid_struct))]: all bits zero. *)
Definition zeroed_cpid_struct : cpid_struct :=
  {| digest_context := None;
     sha256 := None;
     digest_destination_buffer := zeroed EVP_MAX_MD_SIZE;
     digest_input_content :=
       {| serial_number := zeroed MACOS_SERIAL_NUMBER_BUFFER_SIZE;
          hardware_uuid := zeroed sizeof_uuid_t;
          kernel_task_creation_time := zeroed_time;
          launchd_creation_time := zeroed_time;
          process_creation_time := zeroed_time;
          pid := 0 |} |}.

Definition set_digest_context (p : ptr) (s : cpid_struct) : cpid_struct :=
  {| digest_context := p; sha256 := sha256 s;
     digest_destination_buffer := digest_destination_buffer s;
     digest_input_content := digest_input_content s |}.

Definition set_sha256 (p : ptr) (s : cpid_struct) : cpid_struct :=
  {| digest_context := digest_context s; sha256 := p;
     digest_destination_buffer := digest_destination_buffer s;
     digest_input_content := digest_input_content s |}.

Definition set_digest_destination_buffer (b : array EVP_MAX_MD_SIZE)
    (s : cpid_struct) : cpid_struct :=
  {| digest_context := digest_context s; sha256 := sha256 s;
     digest_destination_buffer := b;
     digest_input_content := digest_input_content s |}.

Definition set_digest_input_content (r : digest_input_content_t)
    (s : cpid_struct) : cpid_struct :=
  {| digest_context := digest_context s; sha256 := sha256 s;
     digest_destination_buffer := digest_destination_buffer s;
     digest_input_content := r |}.

Definition set_serial_number (a : array MACOS_SERIAL_NUMBER_BUFFER_SIZE)
    (r : digest_input_content_t) : digest_input_content_t :=
  {| serial_number := a; hardware_uuid := hardware_uuid r;
     kernel_task_creation_time := kernel_task_creation_time r;
     launchd_creation_time := launchd_creation_time r;
     process_creation_time := process_creation_time r; pid := pid r |}.

Definition set_hardware_uuid (a : uuid_t)
    (r : digest_input_content_t) : digest_input_content_t :=
  {| serial_number := serial_number r; hardware_uuid := a;
     kernel_task_creation_time := kernel_task_creation_time r;
     launchd_creation_time := launchd_creation_time r;
     process_creation_time := process_creation_time r; pid := pid r |}.

Definition set_kernel_task_creation_time (t : process_creation_time_t)
    (r : digest_input_content_t) : digest_input_content_t :=
  {| serial_number := serial_number r; hardware_uuid := hardware_uuid r;
     kernel_task_creation_time := t;
     launchd_creation_time := launchd_creation_time r;
     process_creation_time := process_creation_time r; pid := pid r |}.

Definition set_launchd_creation_time (t : process_creation_time_t)
    (r : digest_input_content_t) : digest_input_content_t :=
  {| serial_number := serial_number r; hardware_uuid := hardware_uuid r;
     kernel_task_creation_time := kernel_task_creation_time r;
     launchd_creation_time := t;
     process_creation_time := process_creation_time r; pid := pid r |}.

(** The three assignments at the head of [cpid_make_uuid]. *)
Definition set_process (pid' seconds micros : Z)
    (r : digest_input_content_t) : digest_input_content_t :=
  {| serial_number := serial_number r; hardware_uuid := hardware_uuid r;
     kernel_task_creation_time := kernel_task_creation_time r;
     launchd_creation_time := launchd_creation_time r;
     process_creation_time :=
       {| unix_epoch_seconds := seconds; micros_offset := micros |};
     pid := pid' |}.

(** ** The collaborators

    Everything the file obtains from outside itself.  A field gives the
    answer of the corresponding call; the calls themselves, with their effect
    on the heap, are defined further down.  The state of an [EVP_MD_CTX] is
    abstract: the three digest calls take it to a status and a new state. *)

Record kinfo_proc := {
  p_pid : Z;                 (* pid_t, signed *)
  p_starttime_tv_sec : Z;    (* time_t, signed *)
  p_starttime_tv_usec : Z    (* suseconds_t, signed *)
}.

Class Platform := {
  (* libc *)
  calloc_ok : bool;
  (* OpenSSL *)
  evp_ctx : Type;
  md_fetch_ok : bool;
  md_ctx_new : option evp_ctx;
  digest_init : evp_ctx -> Z * evp_ctx;
  digest_update : evp_ctx -> list byte -> Z * evp_ctx;
  digest_final : evp_ctx -> Z * evp_ctx * list byte;
  (* IOKit and CoreFoundation *)
  platform_expert_ok : bool;
  platform_serial_number : option (list byte);
  registry_root_ok : bool;
  platform_uuid : option (list byte);
  (* sysctl on { CTL_KERN, KERN_PROC, KERN_PROC_PID, pid }: the return code
     and [process_info] after the call *)
  process_table : Z -> Z * kinfo_proc;
  (* libuuid: whether [uuid_unparse] prints upper-case digits *)
  unparse_upper_case : bool
}.

(** ** libuuid and <ctype.h> *)

Module Text.

Definition hyphen : byte := "-"%byte.

(** The characters of a C string: the bytes before the first NUL. *)
Fixpoint c_string (buf : list byte) : list byte :=
  match buf with
  | [] => []
  | b :: buf' => if Byte.eqb b x00 then [] else b :: c_string buf'
  end.

(** [tolower] in the "C" locale. *)
Definition tolower (c : byte) : byte :=
  let z := Z_of_byte c in
  if (65 <=? z) && (z <=? 90) then byte_of_Z (z + 32) else c.

Definition hex_digit (upper : bool) (v : Z) : byte :=
  if v <? 10 then byte_of_Z (48 + v)
  else byte_of_Z ((if upper then 65 else 97) + (v - 10)).

(** [%02X] or [%02x] of one byte. *)
Definition hex_byte (upper : bool) (b : byte) : list byte :=
  [hex_digit upper (Z.shiftr (Z_of_byte b) 4); hex_digit upper (Z.land (Z_of_byte b) 15)].

Definition hex_bytes (upper : bool) (bs : list byte) : list byte :=
  concat (map (hex_byte upper) bs).

(** [uuid_unparse]: 36 characters in the groups 8-4-4-4-12 and the
    terminating NUL. *)
Definition uuid_text (upper : bool) (u : list byte) : list byte :=
  hex_bytes upper (take 4 u) ++ [hyphen]
  ++ hex_bytes upper (take 2 (drop 4 u)) ++ [hyphen]
  ++ hex_bytes upper (take 2 (drop 6 u)) ++ [hyphen]
  ++ hex_bytes upper (take 2 (drop 8 u)) ++ [hyphen]
  ++ hex_bytes upper (drop 10 u).

Definition uuid_unparse (upper : bool) (u : uuid_t) : uuid_string_t :=
  memcpy (uuid_text upper (vec_to_list u) ++ [x00]) (zeroed sizeof_uuid_string_t).

Definition hex_value (c : byte) : option Z :=
  let z := Z_of_byte c in
  if (48 <=? z) && (z <=? 57) then Some (z - 48)
  else if (97 <=? z) && (z <=? 102) then Some (z - 87)
  else if (65 <=? z) && (z <=? 70) then Some (z - 55)
  else None.

Fixpoint parse_hex_bytes (s : list byte) : option (list byte) :=
  match s with
  | [] => Some []
  | hi :: lo :: s' =>
      match hex_value hi, hex_value lo, parse_hex_bytes s' with
      | Some h, Some l, Some bs => Some (byte_of_Z (16 * h + l) :: bs)
      | _, _, _ => None
      end
  | _ => None
  end.

Definition is_hyphen (o : option byte) : bool :=
  match o with Some c => Byte.eqb c hyphen | None => false end.

(** [uuid_parse]: the text must be 36 characters long with hyphens at 8, 13,
    18 and 23 and hexadecimal digits of either case elsewhere. *)
Definition uuid_parse (text : list byte) : option uuid_t :=
  let s := c_string text in
  if (length s =? 36)%nat
     && is_hyphen (s !! 8%nat) && is_hyphen (s !! 13%nat)
     && is_hyphen (s !! 18%nat) && is_hyphen (s !! 23%nat)
  then
    match parse_hex_bytes (take 8 s ++ take 4 (drop 9 s) ++ take 4 (drop 14 s)
                           ++ take 4 (drop 19 s) ++ drop 24 s) with
    | Some bs => Some (memcpy bs (zeroed sizeof_uuid_t))
    | None => None
    end
  else None.

(** The grammar
    [[0-9a-f]{8}-[0-9a-f]{4}-[0-9a-f]{4}-[0-9a-f]{4}-[0-9a-f]{12}]. *)
Definition is_lower_hex (c : byte) : bool :=
  let z := Z_of_byte c in
  ((48 <=? z) && (z <=? 57)) || ((97 <=? z) && (z <=? 102)).

(** Consume exactly [n] lower-case hexadecimal digits. *)
Fixpoint lower_hex_run (n : nat) (s : list byte) : option (list byte) :=
  match n with
  | O => Some s
  | S n' =>
      match s with
      | c :: s' => if is_lower_hex c then lower_hex_run n' s' else None
      | [] => None
      end
  end.

Definition one_hyphen (s : list byte) : option (list byte) :=
  match s with
  | c :: s' => if Byte.eqb c hyphen then Some s' else None
  | [] => None
  end.

Inductive token := Hex (n : nat) | Hyphen.

Fixpoint matches (grammar : list token) (s : list byte) : bool :=
  match grammar with
  | [] => match s with [] => true | _ :: _ => false end
  | Hex n :: grammar' =>
      match lower_hex_run n s with
      | Some s' => matches grammar' s'
      | None => false
      end
  | Hyphen :: grammar' =>
      match one_hyphen s with
      | Some s' => matches grammar' s'
      | None => false
      end
  end.

Definition uuid_grammar : list token :=
  [Hex 8; Hyphen; Hex 4; Hyphen; Hex 4; Hyphen; Hex 4; Hyphen; Hex 12].

Definition matches_uuid_grammar (s : list byte) : bool := matches uuid_grammar s.

End Text.
Import Text.

(** ** Memory, observable calls and the execution monad *)

Section Model.

Context {constants : Constants} {platform : Platform}.

Inductive object :=
  | Handle (s : cpid_struct)        (* the block behind a [cpid_handle_t] *)
  | EvpMd                           (* an [EVP_MD] from [EVP_MD_fetch] *)
  | EvpMdCtx (c : evp_ctx)          (* an [EVP_MD_CTX] *)
  | IoObject                        (* an IOKit object reference *)
  | CfString (s : list byte).       (* a [CFStringRef] and its characters *)

(** Queries of the process table and digest computations, in call order. *)
Inductive event :=
  | SysctlProc (pid : Z)
  | DigestInit
  | DigestUpdate (data : list byte)
  | DigestFinal.

Record world := World {
  heap : gmap loc object;
  trace : list event
}.

(** A computation returns a value and a new world, or steps outside what C
    defines: a read or a release through a pointer that is [NULL] or does not
    point to a live object of the expected kind. *)
Inductive outcome (A : Type) :=
  | Ret (a : A) (w : world)
  | Fault.

Arguments Ret {A} a w.
Arguments Fault {A}.

Definition M (A : Type) : Type := world -> outcome A.

Definition ret {A : Type} (a : A) : M A := fun w => Ret a w.

Definition fault {A : Type} : M A := fun _ => Fault.

Definition bind {A B : Type} (m : M A) (k : A -> M B) : M B :=
  fun w => match m w with
           | Ret a w' => k a w'
           | Fault => Fault
           end.

Notation "'let*' x ':=' m 'in' k" := (bind m (fun x => k))
  (at level 10, x name, m at level 100, k at level 200).
Notation "'let*' ' p ':=' m 'in' k" := (bind m (fun x => match x with p => k end))
  (at level 10, p pattern, m at level 100, k at level 200).
Notation "m ;; k" := (bind m (fun _ => k))
  (at level 100, k at level 200, right associativity).

Definition emit (e : event) : M unit :=
  fun w => Ret tt (World (heap w) (trace w ++ [e])).

Definition alloc (o : object) : M loc :=
  fun w => let l := fresh (dom (heap w)) in
           Ret l (World (<[l := o]> (heap w)) (trace w)).

Definition load (l : loc) : M object :=
  fun w => match heap w !! l with
           | Some o => Ret o w
           | None => Fault
           end.

Definition store (l : loc) (o : object) : M unit :=
  fun w => Ret tt (World (<[l := o]> (heap w)) (trace w)).

Definition release (l : loc) : M unit :=
  fun w => Ret tt (World (delete l (heap w)) (trace w)).

(** *** libc *)

Definition calloc_cpid_struct : M ptr :=
  if calloc_ok then let* l := alloc (Handle zeroed_cpid_struct) in ret (Some l)
  else ret None.

Definition load_handle (l : loc) : M cpid_struct :=
  let* o := load l in
  match o with Handle s => ret s | _ => fault end.

(** A write through [library_handle->...]. *)
Definition update_handle (l : loc) (f : cpid_struct -> cpid_struct) : M unit :=
  let* s := load_handle l in store l (Handle (f s)).

Definition free (l : loc) : M unit :=
  load_handle l ;; release l.

(** *** OpenSSL *)

Definition EVP_MD_fetch : M ptr :=
  if md_fetch_ok then let* l := alloc EvpMd in ret (Some l) else ret None.

Definition EVP_MD_CTX_new : M ptr :=
  match md_ctx_new with
  | Some c => let* l := alloc (EvpMdCtx c) in ret (Some l)
  | None => ret None
  end.

Definition load_ctx (p : ptr) : M (loc * evp_ctx) :=
  match p with
  | Some l => let* o := load l in match o with EvpMdCtx c => ret (l, c) | _ => fault end
  | None => fault
  end.

Definition check_md (p : ptr) : M unit :=
  match p with
  | Some l => let* o := load l in match o with EvpMd => ret tt | _ => fault end
  | None => fault
  end.

Definition EVP_MD_CTX_free (l : loc) : M unit :=
  load_ctx (Some l) ;; release l.

Definition EVP_MD_free (l : loc) : M unit :=
  check_md (Some l) ;; release l.

Definition EVP_DigestInit_ex2 (ctx md : ptr) : M Z :=
  let* '(l, c) := load_ctx ctx in
  check_md md ;;
  emit DigestInit ;;
  store l (EvpMdCtx (digest_init c).2) ;;
  ret (digest_init c).1.

Definition EVP_DigestUpdate (ctx : ptr) (data : list byte) : M Z :=
  let* '(l, c) := load_ctx ctx in
  emit (DigestUpdate data) ;;
  store l (EvpMdCtx (digest_update c data).2) ;;
  ret (digest_update c data).1.

(** Returns the status and the digest written to [md]; the length reported
    through the third argument is the number of bytes written. *)
Definition EVP_DigestFinal_ex (ctx : ptr) : M (Z * list byte) :=
  let* '(l, c) := load_ctx ctx in
  emit DigestFinal ;;
  store l (EvpMdCtx (digest_final c).1.2) ;;
  ret ((digest_final c).1.1, (digest_final c).2).

(** *** IOKit and CoreFoundation *)

Definition IOServiceGetMatchingService : M ptr :=
  if platform_expert_ok then let* l := alloc IoObject in ret (Some l) else ret None.

Definition IORegistryEntryFromPath : M ptr :=
  if registry_root_ok then let* l := alloc IoObject in ret (Some l) else ret None.

Definition IORegistryEntryCreateCFProperty (entry : loc)
    (property : option (list byte)) : M ptr :=
  let* o := load entry in
  match o, property with
  | IoObject, Some s => let* l := alloc (CfString s) in ret (Some l)
  | IoObject, None => ret None
  | _, _ => fault
  end.

Definition IOObjectRelease (l : loc) : M unit :=
  let* o := load l in match o with IoObject => release l | _ => fault end.

Definition CFRelease (l : loc) : M unit :=
  let* o := load l in match o with CfString _ => release l | _ => fault end.

(** Succeeds when the characters and the terminating NUL fit the buffer. *)
Definition CFStringGetCString {n : nat} (cf : loc) (buffer : array n)
    : M (bool * array n) :=
  let* o := load cf in
  match o with
  | CfString s =>
      if (length s + 1 <=? n)%nat then ret (true, memcpy (s ++ [x00]) buffer)
      else ret (false, buffer)
  | _ => fault
  end.

(** *** sysctl *)

Definition sysctl_kern_proc_pid (pid : Z) : M (Z * kinfo_proc) :=
  emit (SysctlProc pid) ;; ret (process_table pid).

(** ** The functions of [cpid_macos.c] *)

Definition cpid_get_serial_number {n : nat} (serial_number : option (array n))
    : M (Z * option (array n)) :=
  match serial_number with
  | None => ret (RETURN_ERROR, None)
  | Some buffer =>
      if (n =? 0)%nat then ret (RETURN_ERROR, None) else
      let* platformExpert := IOServiceGetMatchingService in
      match platformExpert with
      | None => ret (RETURN_ERROR, None)
      | Some expert =>
          let* serialNumberAsCFString :=
            IORegistryEntryCreateCFProperty expert platform_serial_number in
          IOObjectRelease expert ;;
          match serialNumberAsCFString with
          | None => ret (RETURN_ERROR, None)
          | Some cf =>
              let* '(get_cstring_succeeded, written) := CFStringGetCString cf buffer in
              CFRelease cf ;;
              if negb get_cstring_succeeded then ret (RETURN_ERROR, Some written)
              else ret (RETURN_SUCCESS, Some written)
          end
      end
  end.

Definition cpid_get_hardware_uuid (hardware_uuid : out_ptr) : M (Z * option uuid_t) :=
  if is_null_out hardware_uuid then ret (RETURN_ERROR, None) else
  let uuid_receive_text_buffer := zeroed sizeof_uuid_string_t in
  let* ioRegistryRoot := IORegistryEntryFromPath in
  match ioRegistryRoot with
  | None => ret (RETURN_ERROR, None)
  | Some root =>
      let* uuidCf := IORegistryEntryCreateCFProperty root platform_uuid in
      IOObjectRelease root ;;
      match uuidCf with
      | None => ret (RETURN_ERROR, None)
      | Some cf =>
          let* '(get_cstring_succeeded, text) :=
            CFStringGetCString cf uuid_receive_text_buffer in
          CFRelease cf ;;
          if negb get_cstring_succeeded then ret (RETURN_ERROR, None) else
          match uuid_parse (vec_to_list text) with
          | None => ret (RETURN_ERROR, None)
          | Some parsed => ret (RETURN_SUCCESS, Some parsed)
          end
      end
  end.

(** [(int) pid] for a [uint32_t]. *)
Definition int_of_uint32 (x : Z) : Z := if x <? 2 ^ 31 then x else x - 2 ^ 32.

(** Conversion to [uint32_t]. *)
Definition uint32_of (x : Z) : Z := x mod 2 ^ 32.

Definition cpid_get_process_creation_time (pid : Z) (process_creation_time : out_ptr)
    : M (Z * option process_creation_time_t) :=
  if (MAX_PID <? pid) || is_null_out process_creation_time
  then ret (RETURN_ERROR, None) else
  let* '(return_code, process_info) := sysctl_kern_proc_pid (int_of_uint32 pid) in
  if negb (return_code =? 0) then ret (RETURN_ERROR, None) else
  if p_pid process_info <? 0 then ret (RETURN_ERROR, None) else
  let returned_pid := uint32_of (p_pid process_info) in
  if negb (returned_pid =? pid) || (p_starttime_tv_sec process_info =? 0)
  then ret (RETURN_ERROR, None) else
  if (p_starttime_tv_sec process_info <? 0) || (p_starttime_tv_usec process_info <? 0)
  then ret (RETURN_ERROR, None) else
  ret (RETURN_SUCCESS,
       Some {| unix_epoch_seconds := p_starttime_tv_sec process_info;
               micros_offset := p_starttime_tv_usec process_info |}).

Definition cpid_finalize (library_handle : ptr) : M unit :=
  match library_handle with
  | None => ret tt
  | Some h =>
      let* s := load_handle h in
      (match digest_context s with
       | Some c => EVP_MD_CTX_free c
       | None => ret tt
       end) ;;
      let* s := load_handle h in
      (match sha256 s with
       | Some m => EVP_MD_free m
       | None => ret tt
       end) ;;
      free h
  end.

(** Store what a helper wrote through a pointer into the handle. *)
Definition write_back {A : Type} (h : loc) (written : option A)
    (set : A -> digest_input_content_t -> digest_input_content_t) : M unit :=
  match written with
  | Some a =>
      update_handle h (fun s =>
        set_digest_input_content (set a (digest_input_content s)) s)
  | None => ret tt
  end.

(** The body of the [do { ... } while(0)] block: the value of [return_code]
    when the block is left, by [break] or at its end. *)
Definition cpid_initialize_block (h : loc) : M Z :=
  let* md := EVP_MD_fetch in
  update_handle h (set_sha256 md) ;;
  if is_null md then ret RETURN_ERROR else
  let* ctx := EVP_MD_CTX_new in
  update_handle h (set_digest_context ctx) ;;
  if is_null ctx then ret RETURN_ERROR else
  let* s := load_handle h in
  let* '(return_code, written) :=
    cpid_get_serial_number (Some (serial_number (digest_input_content s))) in
  write_back h written set_serial_number ;;
  if negb (RETURN_SUCCESS =? return_code) then ret return_code else
  let* '(return_code, written) := cpid_get_hardware_uuid OutArray in
  write_back h written set_hardware_uuid ;;
  if negb (RETURN_SUCCESS =? return_code) then ret return_code else
  let* '(return_code, written) :=
    cpid_get_process_creation_time KERNEL_TASK_PID OutArray in
  write_back h written set_kernel_task_creation_time ;;
  if negb (RETURN_SUCCESS =? return_code) then ret return_code else
  let* '(return_code, written) :=
    cpid_get_process_creation_time LAUNCHD_PID OutArray in
  write_back h written set_launchd_creation_time ;;
  ret return_code.

Definition cpid_initialize : M ptr :=
  let* library_handle := calloc_cpid_struct in
  match library_handle with
  | None => ret None
  | Some h =>
      let* return_code := cpid_initialize_block h in
      if negb (RETURN_SUCCESS =? return_code)
      then cpid_finalize (Some h) ;; ret None
      else ret (Some h)
  end.

(** The two imprints of [cpid_make_uuid]. *)
Definition version_byte (b : byte) : byte :=
  byte_of_Z (Z.lor (Z.land (Z_of_byte b) 0x0F) 0x80).

Definition variant_byte (b : byte) : byte :=
  byte_of_Z (Z.lor (Z.land (Z_of_byte b) 0x3F) 0x80).

Definition cpid_make_uuid (library_handle : ptr)
    (pid creation_time_unix_epoch_seconds creation_time_micros_offset : Z)
    (uuid : out_ptr) : M (Z * option uuid_t) :=
  match library_handle with
  | None => ret (RETURN_ERROR, None)
  | Some h =>
      if (MAX_PID <? pid) || (MAX_MICROS_OFFSET <? creation_time_micros_offset)
         || is_null_out uuid
      then ret (RETURN_ERROR, None) else
      update_handle h (fun s =>
        set_digest_input_content
          (set_process pid creation_time_unix_epoch_seconds
             creation_time_micros_offset (digest_input_content s)) s) ;;
      let* s := load_handle h in
      let* status := EVP_DigestInit_ex2 (digest_context s) (sha256 s) in
      if negb (OPEN_SSL_SUCCESS =? status) then ret (RETURN_ERROR, None) else
      let* s := load_handle h in
      let* status :=
        EVP_DigestUpdate (digest_context s)
          (digest_input_content_bytes (digest_input_content s)) in
      if negb (OPEN_SSL_SUCCESS =? status) then ret (RETURN_ERROR, None) else
      let* s := load_handle h in
      let* '(status, digest) := EVP_DigestFinal_ex (digest_context s) in
      update_handle h (fun s =>
        set_digest_destination_buffer
          (memcpy digest (digest_destination_buffer s)) s) ;;
      let digest_size := Z.of_nat (length digest) in
      if negb (OPEN_SSL_SUCCESS =? status) then ret (RETURN_ERROR, None) else
      if negb (SHA256_BUFFER_SIZE =? digest_size) then ret (RETURN_ERROR, None) else
      update_handle h (fun s =>
        let b := digest_destination_buffer s in
        set_digest_destination_buffer (vinsert 6%fin (version_byte (b !!! 6%fin)) b) s) ;;
      update_handle h (fun s =>
        let b := digest_destination_buffer s in
        set_digest_destination_buffer (vinsert 8%fin (variant_byte (b !!! 8%fin)) b) s) ;;
      let* s := load_handle h in
      ret (RETURN_SUCCESS,
           Some (memcpy (take sizeof_uuid_t (vec_to_list (digest_destination_buffer s)))
                        (zeroed sizeof_uuid_t)))
  end.

Definition cpid_get_uuid (library_handle : ptr) (pid : Z) (uuid : out_ptr)
    : M (Z * option uuid_t) :=
  if is_null library_handle || is_null_out uuid then ret (RETURN_ERROR, None) else
  let* '(return_code, process_creation_time) :=
    cpid_get_process_creation_time pid OutArray in
  match process_creation_time with
  | Some t =>
      if negb (RETURN_SUCCESS =? return_code) then ret (RETURN_ERROR, None) else
      let* '(return_code, written) :=
        cpid_make_uuid library_handle pid (unix_epoch_seconds t)
          (uint32_of (micros_offset t)) uuid in
      if negb (RETURN_SUCCESS =? return_code) then ret (RETURN_ERROR, written)
      else ret (RETURN_SUCCESS, written)
  | None =>
      if negb (RETURN_SUCCESS =? return_code) then ret (RETURN_ERROR, None)
      else fault
  end.

Definition cpid_get_uuid_string (library_handle : ptr) (pid : Z)
    (uuid_string : out_ptr) : M (Z * option uuid_string_t) :=
  if is_null library_handle || is_null_out uuid_string
  then ret (RETURN_ERROR, None) else
  let* '(return_code, uuid) := cpid_get_uuid library_handle pid OutArray in
  if negb (RETURN_SUCCESS =? return_code) then ret (RETURN_ERROR, None) else
  match uuid with
  | Some u => ret (RETURN_SUCCESS, Some (vmap tolower (uuid_unparse unparse_upper_case u)))
  | None => fault
  end.

(** ** Derived notions used in the statements *)

(** A fully initialized handle: the block is live and its two OpenSSL
    pointers point to a live digest context and a live algorithm object. *)
Definition ready (w : world) (h : loc) (s : cpid_struct) (c : loc)
    (st : evp_ctx) (m : loc) : Prop :=
  heap w !! h = Some (Handle s)
  /\ digest_context s = Some c /\ heap w !! c = Some (EvpMdCtx st)
  /\ sha256 s = Some m /\ heap w !! m = Some EvpMd.

(** The two assignments to [digest_destination_buffer[6]] and
    [digest_destination_buffer[8]], and the final [memcpy] into [uuid]. *)
Definition imprint (b : array EVP_MAX_MD_SIZE) : array EVP_MAX_MD_SIZE :=
  let b6 := vinsert 6%fin (version_byte (b !!! 6%fin)) b in
  vinsert 8%fin (variant_byte (b6 !!! 8%fin)) b6.

Definition copy_out (b : array EVP_MAX_MD_SIZE) : uuid_t :=
  memcpy (take sizeof_uuid_t (vec_to_list b)) (zeroed sizeof_uuid_t).

(** Steps 5 to 7 of the specification, in its own words: take the first
    16 bytes of the digest, overwrite the high nibble of byte 6 with binary
    1000 keeping its low nibble, overwrite the two high bits of byte 8 with
    binary 10 keeping the remaining six bits. *)
Definition spec_version_imprint (b : byte) : byte :=
  byte_of_Z (8 * 16 + Z_of_byte b mod 16).

Definition spec_variant_imprint (b : byte) : byte :=
  byte_of_Z (2 * 64 + Z_of_byte b mod 64).

Definition spec_identifier (digest : list byte) : list byte :=
  <[8%nat := spec_variant_imprint (digest !!! 8%nat)]>
    (<[6%nat := spec_version_imprint (digest !!! 6%nat)]> (take 16 digest)).

(** What OpenSSL delivers for [data] when the three digest calls are made
    in a row on a context in state [st]: the digest, provided each call
    reports success. *)
Definition openssl_digest (st : evp_ctx) (data : list byte) : option (list byte) :=
  let i := digest_init st in
  if negb (OPEN_SSL_SUCCESS =? i.1) then None else
  let u := digest_update i.2 data in
  if negb (OPEN_SSL_SUCCESS =? u.1) then None else
  let f := digest_final u.2 in
  if negb (OPEN_SSL_SUCCESS =? f.1.1) then None else Some f.2.

(** OpenSSL computes the function [f]: whenever the three calls report
    success, the digest delivered for [data] is [f data], whatever the
    context held before. *)
Definition openssl_computes (f : list byte -> list byte) : Prop :=
  forall st data digest, openssl_digest st data = Some digest -> digest = f data.

(** The digest calls that reach OpenSSL, in order. *)
Definition digest_events (st : evp_ctx) (data : list byte) : list event :=
  let i := digest_init st in
  DigestInit ::
  if negb (OPEN_SSL_SUCCESS =? i.1) then [] else
  DigestUpdate data ::
  if negb (OPEN_SSL_SUCCESS =? (digest_update i.2 data).1) then [] else [DigestFinal].

(** The value [cpid_make_uuid] returns, and what it writes to [uuid], on a
    ready handle with valid arguments. *)
Definition make_uuid_answer (st : evp_ctx) (buffer : array EVP_MAX_MD_SIZE)
    (data : list byte) : Z * option uuid_t :=
  match openssl_digest st data with
  | Some digest =>
      if SHA256_BUFFER_SIZE =? Z.of_nat (length digest)
      then (RETURN_SUCCESS, Some (copy_out (imprint (memcpy digest buffer))))
      else (RETURN_ERROR, None)
  | None => (RETURN_ERROR, None)
  end.

(** The fields of the record that are set once, by [cpid_initialize]. *)
Definition constant_fields (r : digest_input_content_t)
    : array MACOS_SERIAL_NUMBER_BUFFER_SIZE * uuid_t
      * process_creation_time_t * process_creation_time_t :=
  (serial_number r, hardware_uuid r, kernel_task_creation_time r,
   launchd_creation_time r).

(** A caller making one derivation after another on the same handle. *)
Fixpoint make_uuid_calls (h : loc) (calls : list (Z * Z * Z * out_ptr))
    : M (list (Z * option uuid_t)) :=
  match calls with
  | [] => ret []
  | (pid, seconds, micros, uuid) :: calls' =>
      let* result := cpid_make_uuid (Some h) pid seconds micros uuid in
      let* results := make_uuid_calls h calls' in
      ret (result :: results)
  end.

(** The state a call leaves behind: only the handle's block and its digest
    context may differ from the state before, and in the block only the
    per-call fields of the record and the scratch buffer. *)
Definition make_uuid_post (w : world) (h : loc) (s : cpid_struct) (c : loc)
    (pid seconds micros : Z) (w' : world) : Prop :=
  exists s' st',
    heap w' = <[h := Handle s']> (<[c := EvpMdCtx st']> (heap w))
    /\ digest_context s' = digest_context s
    /\ sha256 s' = sha256 s
    /\ digest_input_content s'
       = set_process pid seconds micros (digest_input_content s).

(** ** Notions used in the statements about the handle's life cycle *)

(** The heap after releasing the object behind a pointer, if any. *)
Definition release_ptr (p : ptr) (objects : gmap loc object) : gmap loc object :=
  match p with
  | Some l => delete l objects
  | None => objects
  end.

(** Each OpenSSL pointer of the block is [NULL] or points to a live object
    of its kind: a handle as [cpid_initialize] builds it, at any stage. *)
Definition pointers_live (w : world) (s : cpid_struct) : Prop :=
  (forall c, digest_context s = Some c -> exists st, heap w !! c = Some (EvpMdCtx st))
  /\ (forall m, sha256 s = Some m -> heap w !! m = Some EvpMd).

(** The objects a handle under construction has acquired on top of the
    heap [before]: its own block, then the algorithm object, then the digest
    context. *)
Definition owned (before : gmap loc object) (h : loc) (s : cpid_struct)
    (now : gmap loc object) : Prop :=
  before !! h = None
  /\ ((sha256 s = None /\ digest_context s = None
       /\ now = <[h := Handle s]> before)
      \/ (exists m, sha256 s = Some m /\ digest_context s = None
                    /\ before !! m = None /\ m <> h
                    /\ now = <[h := Handle s]> (<[m := EvpMd]> before))
      \/ (exists m c st, sha256 s = Some m /\ digest_context s = Some c
                         /\ before !! m = None /\ before !! c = None
                         /\ m <> h /\ c <> h /\ c <> m
                         /\ md_ctx_new = Some st
                         /\ now = <[h := Handle s]>
                                   (<[c := EvpMdCtx st]> (<[m := EvpMd]> before)))).

(** The answers of the collaborators under which a step of
    [cpid_initialize] succeeds. *)
Definition serial_number_available (sn : list byte) : Prop :=
  platform_expert_ok = true /\ platform_serial_number = Some sn
  /\ (length sn < MACOS_SERIAL_NUMBER_BUFFER_SIZE)%nat.

Definition hardware_uuid_available (text : list byte) (u : uuid_t) : Prop :=
  registry_root_ok = true /\ platform_uuid = Some text
  /\ (length text < sizeof_uuid_string_t)%nat
  /\ uuid_parse (vec_to_list (memcpy (text ++ [x00]) (zeroed sizeof_uuid_string_t)))
     = Some u.

Definition creation_time_available (pid : Z) (t : process_creation_time_t) : Prop :=
  pid <= MAX_PID
  /\ (process_table (int_of_uint32 pid)).1 = 0
  /\ 0 <= p_pid (process_table (int_of_uint32 pid)).2
  /\ uint32_of (p_pid (process_table (int_of_uint32 pid)).2) = pid
  /\ 0 < p_starttime_tv_sec (process_table (int_of_uint32 pid)).2
  /\ 0 <= p_starttime_tv_usec (process_table (int_of_uint32 pid)).2
  /\ t = {| unix_epoch_seconds := p_starttime_tv_sec (process_table (int_of_uint32 pid)).2;
            micros_offset := p_starttime_tv_usec (process_table (int_of_uint32 pid)).2 |}.

(** A handle with every field set by [cpid_initialize] in place. *)
Definition fully_populated (s : cpid_struct) : Prop :=
  exists c m st sn text,
    digest_context s = Some c /\ sha256 s = Some m
    /\ md_fetch_ok = true /\ md_ctx_new = Some st
    /\ serial_number_available sn
    /\ serial_number (digest_input_content s)
       = memcpy (sn ++ [x00]) (zeroed MACOS_SERIAL_NUMBER_BUFFER_SIZE)
    /\ hardware_uuid_available text (hardware_uuid (digest_input_content s))
    /\ creation_time_available KERNEL_TASK_PID
         (kernel_task_creation_time (digest_input_content s))
    /\ creation_time_available LAUNCHD_PID
         (launchd_creation_time (digest_input_content s)).

End Model.

Arguments Ret {platform A} a w.
Arguments Fault {platform A}.

(** * Notions used in the further statements *)

(** The unsigned integer a little-endian byte string stands for: the
    inverse of [le64]. *)
Definition le_value (bs : list byte) : Z :=
  fold_right (fun b acc => Z_of_byte b + 256 * acc) 0 bs.

(** The values of a [uint64_t]. *)
Definition is_uint64 (z : Z) : Prop := 0 <= z < 2 ^ 64.

Definition time_in_range (t : process_creation_time_t) : Prop :=
  is_uint64 (unix_epoch_seconds t) /\ is_uint64 (micros_offset t).

(** A record whose integer members hold values of their C type. *)
Definition record_in_range (r : digest_input_content_t) : Prop :=
  time_in_range (kernel_task_creation_time r)
  /\ time_in_range (launchd_creation_time r)
  /\ time_in_range (process_creation_time r)
  /\ is_uint64 (pid r).

Section Lifecycle.

Context {platform : Platform}.

(** The heap [now] is the heap [before] and, on top of it, a complete
    handle: its block, its algorithm object and its digest context, in
    whatever state the derivations made so far have left the block and the
    context. *)
Definition in_use (before : gmap loc object) (h : loc) (now : gmap loc object) : Prop :=
  exists s c st m,
    before !! h = None /\ before !! c = None /\ before !! m = None
    /\ m <> h /\ c <> h /\ c <> m
    /\ digest_context s = Some c /\ sha256 s = Some m
    /\ now = <[h := Handle s]> (<[c := EvpMdCtx st]> (<[m := EvpMd]> before)).

End Lifecycle.

(** * A reference instantiation

    Concrete values for the parameters, used to run the model: return codes
    0 and -1, the largest [int] as [MAX_PID], and collaborators that always
    answer, with OpenSSL as the SHA-256 function above.  The host has serial
    number ["ABC123"], its kernel task started at (1, 0), launchd at (2, 0),
    and process 4321 at (1700000000, 500000). *)

Definition example_constants : Constants :=
  {| RETURN_SUCCESS := 0; RETURN_ERROR := -1; MAX_PID := 2147483647 |}.

Definition example_process_table (pid : Z) : Z * kinfo_proc :=
  if pid =? 0 then
    (0, {| p_pid := 0; p_starttime_tv_sec := 1; p_starttime_tv_usec := 0 |})
  else if pid =? 1 then
    (0, {| p_pid := 1; p_starttime_tv_sec := 2; p_starttime_tv_usec := 0 |})
  else if pid =? 4321 then
    (0, {| p_pid := 4321; p_starttime_tv_sec := 1700000000;
           p_starttime_tv_usec := 500000 |})
  else
    (0, {| p_pid := 0; p_starttime_tv_sec := 0; p_starttime_tv_usec := 0 |}).

Definition example_serial_number : list byte :=
  ["A"; "B"; "C"; "1"; "2"; "3"]%byte.

Definition example_uuid : list byte :=
  [x01; x23; x45; x67; x89; xab; xcd; xef; x01; x23; x45; x67; x89; xab; xcd; xef].

(** 01234567-89AB-CDEF-0123-456789ABCDEF *)
Definition example_uuid_text : list byte := uuid_text true example_uuid.

(** The digest context holds the bytes fed to it since it was last reset. *)
Definition example_platform : Platform :=
  {| calloc_ok := true;
     evp_ctx := list byte;
     md_fetch_ok := true;
     md_ctx_new := Some [];
     digest_init := fun _ => (1, []);
     digest_update := fun c data => (1, c ++ data);
     digest_final := fun c => (1, c, SHA256.sha256 c);
     platform_expert_ok := true;
     platform_serial_number := Some example_serial_number;
     registry_root_ok := true;
     platform_uuid := Some example_uuid_text;
     process_table := example_process_table;
     unparse_upper_case := true |}.

(** The same host with an OpenSSL whose digest is 20 bytes long. *)
Definition short_digest_platform : Platform :=
  {| calloc_ok := true;
     evp_ctx := list byte;
     md_fetch_ok := true;
     md_ctx_new := Some [];
     digest_init := fun _ => (1, []);
     digest_update := fun c data => (1, c ++ data);
     digest_final := fun c => (1, c, take 20 (SHA256.sha256 c));
     platform_expert_ok := true;
     platform_serial_number := Some example_serial_number;
     registry_root_ok := true;
     platform_uuid := Some example_uuid_text;
     process_table := example_process_table;
     unparse_upper_case := true |}.

(** The same host without a hardware UUID in the registry. *)
Definition no_uuid_platform : Platform :=
  {| calloc_ok := true;
     evp_ctx := list byte;
     md_fetch_ok := true;
     md_ctx_new := Some [];
     digest_init := fun _ => (1, []);
     digest_update := fun c data => (1, c ++ data);
     digest_final := fun c => (1, c, SHA256.sha256 c);
     platform_expert_ok := true;
     platform_serial_number := Some example_serial_number;
     registry_root_ok := true;
     platform_uuid := None;
     process_table := example_process_table;
     unparse_upper_case := true |}.

Definition example_record : digest_input_content_t :=
  {| serial_number := memcpy (example_serial_number ++ [x00])
                        (zeroed MACOS_SERIAL_NUMBER_BUFFER_SIZE);
     hardware_uuid :=
       memcpy example_uuid (zeroed sizeof_uuid_t);
     kernel_task_creation_time := {| unix_epoch_seconds := 1; micros_offset := 0 |};
     launchd_creation_time := {| unix_epoch_seconds := 2; micros_offset := 0 |};
     process_creation_time := zeroed_time;
     pid := 0 |}.

(** The handle [cpid_initialize] builds on an empty heap: the block at 1,
    the algorithm object at 2 and the digest context at 3. *)
Definition example_handle : cpid_struct :=
  {| digest_context := Some 3%positive;
     sha256 := Some 2%positive;
     digest_destination_buffer := zeroed EVP_MAX_MD_SIZE;
     digest_input_content := example_record |}.

Definition example_heap (platform : Platform) (st : evp_ctx)
    : gmap loc (@object platform) :=
  <[1%positive := Handle example_handle]>
    (<[3%positive := EvpMdCtx st]> (<[2%positive := EvpMd]> ∅)).

Definition empty_world (platform : Platform) : @world platform := World ∅ [].

Definition example_world : @world example_platform :=
  World (example_heap example_platform []) [SysctlProc 0; SysctlProc 1].

Definition short_digest_world : @world short_digest_platform :=
  World (example_heap short_digest_platform []) [SysctlProc 0; SysctlProc 1].


(** What a caller sees of a derivation: the return code and the bytes
    written, if any. *)
Definition observe {platform : Platform}
    (o : @outcome platform (Z * option uuid_t)) : option (Z * option (list byte)) :=
  match o with
  | Ret (r, out) _ => Some (r, option_map vec_to_list out)
  | Fault => None
  end.

Definition example_calls : list (Z * Z * Z * out_ptr) :=
  [ (4321, 1700000000, 500000, OutArray);
    (4294967295, 0, 0, OutArray);
    (7, 1700000001, 1000000, OutArray);
    (7, 1700000001, 999999, OutNull);
    (7, 1700000001, 999999, OutArray) ].

(** What a caller sees of [cpid_get_uuid_string]: the return code and the
    C string written, if any. *)
Definition observe_string {platform : Platform}
    (o : @outcome platform (Z * option uuid_string_t))
    : option (Z * option (list byte)) :=
  match o with
  | Ret (r, out) _ => Some (r, option_map (fun s => c_string (vec_to_list s)) out)
  | Fault => None
  end.

Definition example_start : process_creation_time_t :=
  {| unix_epoch_seconds := 1700000000; micros_offset := 500000 |}.

(** The same host with a hardware UUID cut short by one character in the
    registry. *)
Definition short_uuid_platform : Platform :=
  {| calloc_ok := true;
     evp_ctx := list byte;
     md_fetch_ok := true;
     md_ctx_new := Some [];
     digest_init := fun _ => (1, []);
     digest_update := fun c data => (1, c ++ data);
     digest_final := fun c => (1, c, SHA256.sha256 c);
     platform_expert_ok := true;
     platform_serial_number := Some example_serial_number;
     registry_root_ok := true;
     platform_uuid := Some (take 35 example_uuid_text);
     process_table := example_process_table;
     unparse_upper_case := true |}.

(** The record of process 4321 on the reference host. *)
Definition example_process_record : digest_input_content_t :=
  set_process 4321 1700000000 500000 example_record.

(** * Properties *)

Section Properties.

Context {constants : Constants} {platform : Platform}.

(** ** Arrays and bytes: basic facts *)

Lemma memcpy_to_list {n} (src : list byte) (dst : array n) :
  vec_to_list (memcpy src dst) = take n src ++ drop (length src) (vec_to_list dst).
Proof.
  revert src. induction dst as [|d n dst IH]; intros [|x src]; simpl; auto.
  f_equal. apply IH.
Qed.

(** ** Running the primitives *)

Lemma bind_run {A B : Type} (m : M A) (k : A -> M B) w a w' :
  m w = Ret a w' -> bind m k w = k a w'.
Proof. unfold bind. by intros ->. Qed.

Lemma bind_fault {A B : Type} (m : M A) (k : A -> M B) w :
  m w = Fault -> bind m k w = Fault.
Proof. unfold bind. by intros ->. Qed.

Lemma load_handle_run w l s :
  heap w !! l = Some (Handle s) -> load_handle l w = Ret s w.
Proof. intros E. unfold load_handle, load, bind. by rewrite E. Qed.

Lemma update_handle_run w l s f :
  heap w !! l = Some (Handle s) ->
  update_handle l f w = Ret tt (World (<[l := Handle (f s)]> (heap w)) (trace w)).
Proof. intros E. unfold update_handle. by rewrite (bind_run _ _ _ _ _ (load_handle_run _ _ _ E)). Qed.

Lemma EVP_DigestInit_ex2_run w c st m :
  heap w !! c = Some (EvpMdCtx st) -> heap w !! m = Some EvpMd ->
  EVP_DigestInit_ex2 (Some c) (Some m) w
  = Ret (digest_init st).1
        (World (<[c := EvpMdCtx (digest_init st).2]> (heap w)) (trace w ++ [DigestInit])).
Proof.
  intros Ec Em. unfold EVP_DigestInit_ex2, load_ctx, check_md, load, emit, store, bind, ret.
  rewrite Ec. simpl. by rewrite Em.
Qed.

Lemma EVP_DigestUpdate_run w c st data :
  heap w !! c = Some (EvpMdCtx st) ->
  EVP_DigestUpdate (Some c) data w
  = Ret (digest_update st data).1
        (World (<[c := EvpMdCtx (digest_update st data).2]> (heap w))
               (trace w ++ [DigestUpdate data])).
Proof.
  intros Ec. unfold EVP_DigestUpdate, load_ctx, load, emit, store, bind, ret.
  by rewrite Ec.
Qed.

Lemma EVP_DigestFinal_ex_run w c st :
  heap w !! c = Some (EvpMdCtx st) ->
  EVP_DigestFinal_ex (Some c) w
  = Ret ((digest_final st).1.1, (digest_final st).2)
        (World (<[c := EvpMdCtx (digest_final st).1.2]> (heap w))
               (trace w ++ [DigestFinal])).
Proof.
  intros Ec. unfold EVP_DigestFinal_ex, load_ctx, load, emit, store, bind, ret.
  by rewrite Ec.
Qed.

Tactic Notation "simp" :=
  cbn [heap trace fst snd digest_context sha256 digest_destination_buffer
       digest_input_content set_digest_input_content
       set_digest_destination_buffer set_sha256 set_digest_context
       is_null is_null_out negb orb andb].

Tactic Notation "simp" "in" hyp(H) :=
  cbn [heap trace fst snd digest_context sha256 digest_destination_buffer
       digest_input_content set_digest_input_content
       set_digest_destination_buffer set_sha256 set_digest_context
       is_null is_null_out negb orb andb] in H.

Ltac heap_lookup :=
  simp;
  repeat first [ rewrite lookup_insert_eq
               | rewrite lookup_insert_ne by done
               | rewrite lookup_delete_ne by done ];
  first [ eassumption | reflexivity ].

Ltac run lem := erewrite bind_run; [ | eapply lem; heap_lookup ]; simp.

Ltac branch :=
  match goal with
  | |- context [if negb ?b then _ else _] => destruct b eqn:?; simp
  end.

(** ** [cpid_make_uuid] on a ready handle *)

(** Bring a heap written at [h] and [c] several times to the form
    [<[h := _]> (<[c := _]> _)]. *)
Ltac heap_norm h c :=
  repeat first [ rewrite insert_insert_eq
               | rewrite (insert_insert_ne _ c h) by done ].

Ltac finish h c :=
  eexists; split; [ reflexivity | split; [ solve [ eauto ] | ] ];
  eexists _, _; simp; heap_norm h c; eauto.

Lemma cpid_make_uuid_run w h s c st m pid seconds micros :
  ready w h s c st m -> pid <= MAX_PID -> micros <= MAX_MICROS_OFFSET ->
  let data := digest_input_content_bytes
                (set_process pid seconds micros (digest_input_content s)) in
  exists w',
    cpid_make_uuid (Some h) pid seconds micros OutArray w
    = Ret (make_uuid_answer st (digest_destination_buffer s) data) w'
    /\ trace w' = trace w ++ digest_events st data
    /\ make_uuid_post w h s c pid seconds micros w'.
Proof.
  intros (Hh & Hc & Hcl & Hm & Hml) Hp Hmi data.
  assert (h <> c) by congruence.
  assert (h <> m) by congruence.
  assert (c <> m) by congruence.
  unfold cpid_make_uuid, make_uuid_answer, openssl_digest, digest_events, make_uuid_post.
  replace (MAX_PID <? pid) with false by (symmetry; apply Z.ltb_ge; lia).
  replace (MAX_MICROS_OFFSET <? micros) with false by (symmetry; apply Z.ltb_ge; lia).
  simp.
  run update_handle_run. run load_handle_run. rewrite Hc, Hm.
  run EVP_DigestInit_ex2_run. fold data.
  assert (Htr : forall t : list event,
             ((t ++ [DigestInit]) ++ [DigestUpdate data]) ++ [DigestFinal]
             = t ++ [DigestInit; DigestUpdate data; DigestFinal])
    by (intros t; by rewrite <- !app_assoc).
  assert (Htr' : forall t : list event,
             (t ++ [DigestInit]) ++ [DigestUpdate data]
             = t ++ [DigestInit; DigestUpdate data])
    by (intros t; by rewrite <- !app_assoc).
  branch; [ | finish h c ].
  run load_handle_run. rewrite Hc. run EVP_DigestUpdate_run. fold data.
  branch; [ | finish h c ].
  run load_handle_run. rewrite Hc. run EVP_DigestFinal_ex_run.
  run update_handle_run.
  branch; [ | finish h c ].
  destruct (SHA256_BUFFER_SIZE =? _) eqn:Hlen; simp; [ | finish h c ].
  run update_handle_run. run update_handle_run. run load_handle_run.
  finish h c.
Qed.

(** ** Inversion: what a call that returned must have found *)

Lemma bind_inv {A B : Type} (m : M A) (k : A -> M B) w b w' :
  bind m k w = Ret b w' -> exists a w1, m w = Ret a w1 /\ k a w1 = Ret b w'.
Proof. unfold bind. destruct (m w) as [a w1|]; [eauto | discriminate]. Qed.

Lemma load_handle_inv l w s w1 :
  load_handle l w = Ret s w1 -> heap w !! l = Some (Handle s) /\ w1 = w.
Proof.
  unfold load_handle, load, bind, ret, fault.
  destruct (heap w !! l) as [[]|]; intros; simplify_eq; auto.
Qed.

Lemma update_handle_inv l f w u w1 :
  update_handle l f w = Ret u w1 ->
  exists s, heap w !! l = Some (Handle s)
            /\ w1 = World (<[l := Handle (f s)]> (heap w)) (trace w).
Proof.
  unfold update_handle. intros (s & w0 & Hl & Hs)%bind_inv.
  apply load_handle_inv in Hl as [Hl ->]. unfold store in Hs. simplify_eq. eauto.
Qed.

Lemma load_ctx_inv p w l c w1 :
  load_ctx p w = Ret (l, c) w1 ->
  p = Some l /\ heap w !! l = Some (EvpMdCtx c) /\ w1 = w.
Proof.
  unfold load_ctx, load, bind, ret, fault. destruct p as [l'|]; [ | discriminate].
  destruct (heap w !! l') as [[]|] eqn:E; intros; simplify_eq; auto.
Qed.

Lemma check_md_inv p w u w1 :
  check_md p w = Ret u w1 -> exists m, p = Some m /\ heap w !! m = Some EvpMd /\ w1 = w.
Proof.
  unfold check_md, load, bind, ret, fault. destruct p as [l'|]; [ | discriminate].
  destruct (heap w !! l') as [[]|] eqn:E; intros; simplify_eq; eauto.
Qed.

Lemma EVP_DigestInit_ex2_inv ctx md w r w1 :
  EVP_DigestInit_ex2 ctx md w = Ret r w1 ->
  exists c st m, ctx = Some c /\ md = Some m
                 /\ heap w !! c = Some (EvpMdCtx st) /\ heap w !! m = Some EvpMd.
Proof.
  unfold EVP_DigestInit_ex2. intros ([l c] & w0 & Hl & Hk)%bind_inv.
  apply load_ctx_inv in Hl as (-> & Hl & ->).
  apply bind_inv in Hk as (u & w2 & Hm & _).
  apply check_md_inv in Hm as (m & -> & Hm & ->). eauto 10.
Qed.

Lemma Z_eqb_neq_false (a b : Z) : a <> b -> (a =? b) = false.
Proof. intros. by apply Z.eqb_neq. Qed.

(** A call with a non-null handle and output pointer and arguments in
    range returns only if the handle is ready. *)
Lemma cpid_make_uuid_inv_valid h pid seconds micros w result w' :
  cpid_make_uuid (Some h) pid seconds micros OutArray w = Ret result w' ->
  pid <= MAX_PID -> micros <= MAX_MICROS_OFFSET ->
  exists s c st m, ready w h s c st m.
Proof.
  unfold cpid_make_uuid. intros Hrun Hp Hm.
  apply Z.ltb_ge in Hp. apply Z.ltb_ge in Hm. rewrite Hp, Hm in Hrun.
  cbn [orb is_null_out] in Hrun.
  apply bind_inv in Hrun as (u & w1 & Hup & Hrun).
  apply update_handle_inv in Hup as (s & Hs & ->).
  apply bind_inv in Hrun as (s1 & w1 & Hl & Hrun).
  apply load_handle_inv in Hl as [Hl ->]. simp in Hl.
  rewrite lookup_insert_eq in Hl. injection Hl as Hl. subst s1.
  apply bind_inv in Hrun as (status & w1 & Hi & _). simp in Hi.
  apply EVP_DigestInit_ex2_inv in Hi as (c & st & m & Hc & Hmd & Hcl & Hml).
  simp in Hcl. simp in Hml.
  assert (h <> c) by (intros ->; rewrite lookup_insert_eq in Hcl; discriminate).
  assert (h <> m) by (intros ->; rewrite lookup_insert_eq in Hml; discriminate).
  rewrite lookup_insert_ne in Hcl by done. rewrite lookup_insert_ne in Hml by done.
  exists s, c, st, m. unfold ready. auto 10.
Qed.

(** Every other call returns at once, leaving the world as it was. *)
Lemma cpid_make_uuid_invalid lh pid seconds micros uuid w :
  lh = None \/ MAX_PID < pid \/ MAX_MICROS_OFFSET < micros \/ uuid = OutNull ->
  cpid_make_uuid lh pid seconds micros uuid w = Ret (RETURN_ERROR, None) w.
Proof.
  unfold cpid_make_uuid. intros Hbad.
  destruct lh as [h|]; [ | done ].
  destruct (MAX_PID <? pid) eqn:Hp; [ done | ].
  destruct (MAX_MICROS_OFFSET <? micros) eqn:Hm; [ done | ].
  destruct uuid; [ done | ].
  apply Z.ltb_ge in Hp. apply Z.ltb_ge in Hm.
  destruct Hbad as [? | [? | [? | ?]]]; [ done | lia | lia | done ].
Qed.

Lemma cpid_make_uuid_valid_or_not (lh : ptr) (pid micros : Z) (uuid : out_ptr) :
  (exists h, lh = Some h /\ uuid = OutArray
             /\ pid <= MAX_PID /\ micros <= MAX_MICROS_OFFSET)
  \/ (lh = None \/ MAX_PID < pid \/ MAX_MICROS_OFFSET < micros \/ uuid = OutNull).
Proof.
  destruct lh as [h|]; [ | auto ]. destruct uuid; [ auto 6 | ].
  destruct (decide (pid <= MAX_PID)); [ | right; lia ].
  destruct (decide (micros <= MAX_MICROS_OFFSET)); [ | right; lia ].
  left. eauto.
Qed.

(** A call that does not end in an error was made with a non-null handle
    and output pointer and with arguments in range, on a ready handle. *)
Lemma cpid_make_uuid_inv lh pid seconds micros uuid w r out w' :
  cpid_make_uuid lh pid seconds micros uuid w = Ret (r, out) w' ->
  r <> RETURN_ERROR ->
  exists h s c st m,
    lh = Some h /\ uuid = OutArray /\ pid <= MAX_PID /\ micros <= MAX_MICROS_OFFSET
    /\ ready w h s c st m.
Proof.
  intros Hrun Hr.
  destruct (cpid_make_uuid_valid_or_not lh pid micros uuid)
    as [(h & -> & -> & Hp & Hm) | Hbad].
  - destruct (cpid_make_uuid_inv_valid _ _ _ _ _ _ _ Hrun Hp Hm) as (s & c & st & m & ?).
    eauto 10.
  - rewrite (cpid_make_uuid_invalid _ _ _ _ _ _ Hbad) in Hrun. congruence.
Qed.

(** ** The identifier as a function of the digest *)

Lemma version_byte_spec b : version_byte b = spec_version_imprint b.
Proof. by destruct b. Qed.

Lemma variant_byte_spec b : variant_byte b = spec_variant_imprint b.
Proof. by destruct b. Qed.

Lemma version_byte_bits b :
  Z.shiftr (Z_of_byte (version_byte b)) 4 = 8
  /\ Z.land (Z_of_byte (version_byte b)) 15 = Z.land (Z_of_byte b) 15.
Proof. by destruct b. Qed.

Lemma variant_byte_bits b :
  Z.shiftr (Z_of_byte (variant_byte b)) 6 = 2
  /\ Z.land (Z_of_byte (variant_byte b)) 63 = Z.land (Z_of_byte b) 63.
Proof. by destruct b. Qed.

Lemma vlookup_total_list {n} (v : array n) (i : fin n) :
  v !!! i = vec_to_list v !!! fin_to_nat i.
Proof.
  symmetry. apply list_lookup_total_correct. by apply vlookup_lookup.
Qed.

Lemma vlookup_total_as_list {n} (v : array n) (i : fin n) (l : list byte) :
  vec_to_list v = l -> v !!! i = l !!! fin_to_nat i.
Proof. intros <-. apply vlookup_total_list. Qed.

Lemma memcpy_full {n} (src : list byte) (dst : array n) :
  length src = n -> vec_to_list (memcpy src dst) = src.
Proof.
  intros Hn. rewrite memcpy_to_list.
  rewrite take_ge by lia. rewrite drop_ge by (rewrite length_vec_to_list; lia).
  apply app_nil_r.
Qed.

Lemma copy_out_imprint_list (b : array EVP_MAX_MD_SIZE) (digest rest : list byte) :
  vec_to_list b = digest ++ rest -> length digest = 32%nat ->
  vec_to_list (copy_out (imprint b)) = spec_identifier digest.
Proof.
  unfold copy_out, imprint, spec_identifier, sizeof_uuid_t, EVP_MAX_MD_SIZE in *.
  intros Hb Hd.
  rewrite memcpy_full by (rewrite length_take, length_vec_to_list; lia).
  rewrite !vec_to_list_insert.
  rewrite vlookup_insert_ne by done.
  rewrite !vlookup_total_list. cbn [fin_to_nat]. rewrite Hb.
  rewrite !lookup_total_app_l by lia.
  rewrite <- version_byte_spec, <- variant_byte_spec.
  rewrite !take_insert_lt by lia.
  by rewrite take_app_le by lia.
Qed.

(** With a 32-byte digest in the scratch buffer, the 16 bytes handed to the
    caller are the identifier of the specification; what the buffer held
    before does not matter. *)
Lemma copy_out_imprint (digest : list byte) (buffer : array EVP_MAX_MD_SIZE) :
  length digest = 32%nat ->
  vec_to_list (copy_out (imprint (memcpy digest buffer))) = spec_identifier digest.
Proof.
  intros Hd. apply copy_out_imprint_list with (rest := drop 32 (vec_to_list buffer)); [ | done ].
  rewrite memcpy_to_list, Hd. f_equal. apply take_ge. unfold EVP_MAX_MD_SIZE. lia.
Qed.
(** ** The serialized record *)

Lemma le64_length z : length (le64 z) = 8%nat.
Proof. reflexivity. Qed.

Lemma digest_input_content_bytes_length r :
  length (digest_input_content_bytes r) = 88%nat.
Proof.
  unfold digest_input_content_bytes, process_creation_time_bytes.
  rewrite !length_app, !length_vec_to_list, !le64_length. reflexivity.
Qed.

(** ** Statements that hold whatever the return codes are *)

(** C3: a call with a null handle, a pid above [MAX_PID] or a microsecond
    offset above 999999 (or a null output pointer) returns [RETURN_ERROR]
    and leaves everything as it found it: no digest call is made, no byte
    of the handle or of the digest context changes, and nothing is written
    to the output. *)
Theorem cpid_make_uuid_invalid_argument lh pid seconds micros uuid w :
  lh = None \/ MAX_PID < pid \/ MAX_MICROS_OFFSET < micros \/ uuid = OutNull ->
  cpid_make_uuid lh pid seconds micros uuid w = Ret (RETURN_ERROR, None) w.
Proof.
  unfold cpid_make_uuid. intros Hbad.
  destruct lh as [h|]; [ | reflexivity ].
  destruct (MAX_PID <? pid) eqn:Hpid; [ reflexivity | ].
  destruct (MAX_MICROS_OFFSET <? micros) eqn:Hmicros; [ reflexivity | ].
  destruct uuid; [ reflexivity | ].
  apply Z.ltb_ge in Hpid. apply Z.ltb_ge in Hmicros.
  destruct Hbad as [Hnull | [Hlarge | [Hlarge | Hout]]];
    [ discriminate Hnull | lia | lia | discriminate Hout ].
Qed.

(** ** The frame of a derivation *)

Lemma make_uuid_post_ready w h s c st m pid seconds micros w' :
  ready w h s c st m -> make_uuid_post w h s c pid seconds micros w' ->
  exists s' st',
    ready w' h s' c st' m
    /\ digest_context s' = digest_context s /\ sha256 s' = sha256 s
    /\ constant_fields (digest_input_content s')
       = constant_fields (digest_input_content s)
    /\ (forall l, l <> h -> l <> c -> heap w' !! l = heap w !! l)
    /\ dom (heap w') = dom (heap w).
Proof.
  intros (Hh & Hc & Hcl & Hm & Hml) (s' & st' & Hheap & Hc' & Hm' & Hrecord).
  assert (h <> c) by congruence.
  assert (h <> m) by congruence.
  assert (c <> m) by congruence.
  exists s', st'. unfold ready. rewrite Hheap, Hc', Hm', Hrecord.
  split_and!; try done.
  - by rewrite lookup_insert_eq.
  - by rewrite lookup_insert_ne, lookup_insert_eq.
  - by rewrite !lookup_insert_ne.
  - intros l ? ?. by rewrite !lookup_insert_ne.
  - rewrite !dom_insert_lookup_L; [ done | by eexists | ].
    rewrite lookup_insert_ne by done. by eexists.
Qed.

Lemma cpid_make_uuid_step w h s c st m pid seconds micros uuid :
  ready w h s c st m ->
  exists result w' s' st',
    cpid_make_uuid (Some h) pid seconds micros uuid w = Ret result w'
    /\ ready w' h s' c st' m
    /\ digest_context s' = digest_context s /\ sha256 s' = sha256 s
    /\ constant_fields (digest_input_content s')
       = constant_fields (digest_input_content s)
    /\ (forall l, l <> h -> l <> c -> heap w' !! l = heap w !! l)
    /\ dom (heap w') = dom (heap w).
Proof.
  intros Hready.
  destruct (cpid_make_uuid_valid_or_not (Some h) pid micros uuid)
    as [(h' & [= <-] & -> & Hp & Hm) | Hbad].
  - destruct (cpid_make_uuid_run _ _ _ _ _ _ _ seconds _ Hready Hp Hm)
      as (w' & Hrun & _ & Hpost).
    destruct (make_uuid_post_ready _ _ _ _ _ _ _ _ _ _ Hready Hpost)
      as (s' & st' & ?).
    eauto 10.
  - rewrite (cpid_make_uuid_invalid _ _ seconds _ _ w Hbad).
    exists (RETURN_ERROR, None), w, s, st. auto 10.
Qed.

(** C8: on a fully initialized handle every derivation call returns, and
    after any number of calls, with any arguments, the handle is still fully
    initialized with the same digest context and algorithm pointers and the
    same serial number, hardware UUID, kernel-task and launchd creation
    times; in the handle only the per-call fields of the record and the
    scratch buffer may have changed, and apart from the handle's block and
    the state of its digest context no object in memory has changed, been
    allocated or been released. *)
Theorem cpid_make_uuid_constant_fields calls w h s c st m :
  ready w h s c st m ->
  exists results w' s' st',
    make_uuid_calls h calls w = Ret results w'
    /\ length results = length calls
    /\ ready w' h s' c st' m
    /\ digest_context s' = digest_context s /\ sha256 s' = sha256 s
    /\ serial_number (digest_input_content s')
       = serial_number (digest_input_content s)
    /\ hardware_uuid (digest_input_content s')
       = hardware_uuid (digest_input_content s)
    /\ kernel_task_creation_time (digest_input_content s')
       = kernel_task_creation_time (digest_input_content s)
    /\ launchd_creation_time (digest_input_content s')
       = launchd_creation_time (digest_input_content s)
    /\ (forall l, l <> h -> l <> c -> heap w' !! l = heap w !! l)
    /\ dom (heap w') = dom (heap w).
Proof.
  revert w s st. induction calls as [ | [[[pid seconds] micros] uuid] calls IH ];
    intros w s st Hready.
  - exists [], w, s, st. cbn. auto 12.
  - destruct (cpid_make_uuid_step _ _ _ _ _ _ pid seconds micros uuid Hready)
      as (result & w1 & s1 & st1 & Hrun & Hready1 & Hc1 & Hm1 & Hf1 & Hframe1 & Hdom1).
    destruct (IH _ _ _ Hready1)
      as (results & w' & s' & st' & Hruns & Hlen & Hready' & Hc' & Hm' & Hsn & Hhw
          & Hk & Hl & Hframe' & Hdom').
    exists (result :: results), w', s', st'.
    cbn [make_uuid_calls]. rewrite (bind_run _ _ _ _ _ Hrun), (bind_run _ _ _ _ _ Hruns).
    unfold constant_fields in Hf1. injection Hf1 as Hsn1 Hhw1 Hk1 Hl1.
    split; [ done | ]. split; [ cbn; by rewrite Hlen | ]. split; [ done | ].
    split; [ congruence | ]. split; [ congruence | ].
    split; [ congruence | ]. split; [ congruence | ].
    split; [ congruence | ]. split; [ congruence | ].
    split; [ | congruence ].
    intros l ? ?. rewrite Hframe' by done. by apply Hframe1.
Qed.

(** C5: the byte string read from a [digest_input_content_t] is exactly 88
    bytes long, the sum of the sizes of its members, and holds, with nothing
    in between: the serial number at offset 0, the hardware UUID at 16, the
    seconds and microseconds of the kernel-task, launchd and process
    creation times at 32, 40, 48, 56, 64 and 72, and the pid at 80. *)
Theorem digest_input_content_serialized_size (r : digest_input_content_t) :
  let bytes := digest_input_content_bytes r in
  length bytes = MACOS_EXPECTED_DIGEST_INPUT_CONTENT_SIZE
  /\ sizeof_digest_input_content_t = MACOS_EXPECTED_DIGEST_INPUT_CONTENT_SIZE
  /\ take 16 bytes = vec_to_list (serial_number r)
  /\ take 16 (drop 16 bytes) = vec_to_list (hardware_uuid r)
  /\ take 8 (drop 32 bytes) = le64 (unix_epoch_seconds (kernel_task_creation_time r))
  /\ take 8 (drop 40 bytes) = le64 (micros_offset (kernel_task_creation_time r))
  /\ take 8 (drop 48 bytes) = le64 (unix_epoch_seconds (launchd_creation_time r))
  /\ take 8 (drop 56 bytes) = le64 (micros_offset (launchd_creation_time r))
  /\ take 8 (drop 64 bytes) = le64 (unix_epoch_seconds (process_creation_time r))
  /\ take 8 (drop 72 bytes) = le64 (micros_offset (process_creation_time r))
  /\ drop 80 bytes = le64 (pid r).
Proof.
  split; [ apply digest_input_content_bytes_length | ].
  split; [ reflexivity | ].
  destruct r as [sn hw [ks km] [ls lm] [ps pm] p].
  unfold MACOS_SERIAL_NUMBER_BUFFER_SIZE, sizeof_uuid_t in sn, hw.
  inv_vec sn; intros. inv_vec hw; intros.
  repeat split; reflexivity.
Qed.
(** ** The process-time lookup and the two convenience entry points *)

Lemma world_eta w : World (heap w) (trace w) = w.
Proof. by destruct w. Qed.

Lemma cpid_get_process_creation_time_large pid out w :
  MAX_PID < pid ->
  cpid_get_process_creation_time pid out w = Ret (RETURN_ERROR, None) w.
Proof.
  intros Hp. unfold cpid_get_process_creation_time.
  apply Z.ltb_lt in Hp. by rewrite Hp.
Qed.

Lemma cpid_get_process_creation_time_run pid w :
  exists result,
    cpid_get_process_creation_time pid OutArray w
    = Ret result
        (World (heap w)
           (trace w ++ if MAX_PID <? pid then [] else [SysctlProc (int_of_uint32 pid)]))
    /\ (result = (RETURN_ERROR, None)
        \/ exists t, result = (RETURN_SUCCESS, Some t) /\ creation_time_available pid t).
Proof.
  unfold cpid_get_process_creation_time, creation_time_available, sysctl_kern_proc_pid,
    emit, bind, ret.
  destruct (MAX_PID <? pid) eqn:Hp; cbn [orb is_null_out].
  { rewrite app_nil_r, world_eta. eauto. }
  cbn [heap trace].
  destruct (process_table (int_of_uint32 pid)) as [rc info]. cbn [fst snd].
  destruct (rc =? 0) eqn:Hrc; cbn [negb]; [ | eauto ].
  destruct (p_pid info <? 0) eqn:Hneg; [ eauto | ].
  destruct (uint32_of (p_pid info) =? pid) eqn:Hsame; cbn [negb orb]; [ | eauto ].
  destruct (p_starttime_tv_sec info =? 0) eqn:Hzero; [ eauto | ].
  destruct (p_starttime_tv_sec info <? 0) eqn:Hs; cbn [orb]; [ eauto | ].
  destruct (p_starttime_tv_usec info <? 0) eqn:Hu; [ eauto | ].
  eexists; split; [ reflexivity | right ].
  eexists; split; [ reflexivity | ].
  apply Z.ltb_ge in Hp, Hneg, Hs, Hu. apply Z.eqb_eq in Hrc, Hsame.
  apply Z.eqb_neq in Hzero. split_and!; try done; lia.
Qed.


(** ** Success paths *)

Lemma be_bytes_length n z : length (be_bytes n z) = n.
Proof.
  revert z. induction n as [ | n IH ]; intros z; [ done | ].
  cbn [be_bytes]. rewrite length_app, IH. cbn. lia.
Qed.

Lemma sha256_length msg : length (SHA256.sha256 msg) = 32%nat.
Proof.
  unfold SHA256.sha256. cbn [map concat].
  rewrite !length_app, !be_bytes_length. reflexivity.
Qed.

(** With a ready handle, arguments in range and a 32-byte digest from
    OpenSSL, [cpid_make_uuid] succeeds. *)
Lemma cpid_make_uuid_succeeds w h s c st m pid seconds micros digest :
  ready w h s c st m -> pid <= MAX_PID -> micros <= MAX_MICROS_OFFSET ->
  openssl_digest st
    (digest_input_content_bytes (set_process pid seconds micros (digest_input_content s)))
  = Some digest ->
  length digest = 32%nat ->
  exists u w',
    cpid_make_uuid (Some h) pid seconds micros OutArray w
    = Ret (RETURN_SUCCESS, Some u) w'
    /\ vec_to_list u = spec_identifier digest
    /\ make_uuid_post w h s c pid seconds micros w'.
Proof.
  intros Hready Hp Hm Hdigest Hlen.
  destruct (cpid_make_uuid_run _ _ _ _ _ _ _ seconds _ Hready Hp Hm)
    as (w' & Hrun & _ & Hpost).
  unfold make_uuid_answer, SHA256_BUFFER_SIZE in Hrun.
  rewrite Hdigest, Hlen in Hrun. cbn [Z.of_nat Pos.of_succ_nat] in Hrun.
  eexists _, w'. split; [ exact Hrun | ]. split; [ by apply copy_out_imprint | done ].
Qed.

(** With a ready handle, a process whose creation time the process table
    reports, and a 32-byte digest from OpenSSL, [cpid_get_uuid] succeeds. *)
Lemma cpid_get_uuid_succeeds w h s c st m pid t digest :
  ready w h s c st m -> creation_time_available pid t ->
  uint32_of (micros_offset t) <= MAX_MICROS_OFFSET ->
  openssl_digest st
    (digest_input_content_bytes
       (set_process pid (unix_epoch_seconds t) (uint32_of (micros_offset t))
          (digest_input_content s)))
  = Some digest ->
  length digest = 32%nat ->
  exists u w',
    cpid_get_uuid (Some h) pid OutArray w = Ret (RETURN_SUCCESS, Some u) w'
    /\ vec_to_list u = spec_identifier digest.
Proof.
  intros Hready Havailable Hmicros Hdigest Hlen. unfold cpid_get_uuid.
  cbn [is_null is_null_out orb].
  destruct (cpid_get_process_creation_time_run pid w) as (result & Hrun & Hcases).
  rewrite (bind_run _ _ _ _ _ Hrun).
  pose proof Havailable as (Hp & Hrc & Hpid & Hsame & Hsec & Husec & Ht).
  assert (result = (RETURN_SUCCESS, Some t)) as ->.
  { unfold cpid_get_process_creation_time, sysctl_kern_proc_pid, emit, bind, ret in Hrun.
    replace (MAX_PID <? pid) with false in Hrun by (symmetry; apply Z.ltb_ge; lia).
    cbn [orb is_null_out] in Hrun.
    destruct (process_table (int_of_uint32 pid)) as [rc info]. cbn [fst snd] in *.
    subst rc. cbn [Z.eqb negb] in Hrun.
    replace (p_pid info <? 0) with false in Hrun by (symmetry; apply Z.ltb_ge; lia).
    rewrite Hsame, Z.eqb_refl in Hrun. cbn [negb orb] in Hrun.
    replace (p_starttime_tv_sec info =? 0) with false in Hrun
      by (symmetry; apply Z.eqb_neq; lia).
    replace (p_starttime_tv_sec info <? 0) with false in Hrun
      by (symmetry; apply Z.ltb_ge; lia).
    replace (p_starttime_tv_usec info <? 0) with false in Hrun
      by (symmetry; apply Z.ltb_ge; lia).
    cbn [orb] in Hrun. injection Hrun as <-. by rewrite Ht. }
  rewrite Z.eqb_refl. cbn [negb].
  destruct (cpid_make_uuid_succeeds
              (World (heap w)
                 (trace w ++ if MAX_PID <? pid then []
                             else [SysctlProc (int_of_uint32 pid)]))
              h s c st m pid (unix_epoch_seconds t) (uint32_of (micros_offset t)) digest
              Hready Hp Hmicros Hdigest Hlen)
    as (u & w' & Hmake & Hu & _).
  rewrite (bind_run _ _ _ _ _ Hmake), Z.eqb_refl. cbn [negb].
  exists u, w'. done.
Qed.

(** ** The textual form *)

Lemma tolower_hex_byte upper b : map tolower (hex_byte upper b) = hex_byte false b.
Proof. by destruct upper, b. Qed.

Lemma tolower_hex_bytes upper bs : map tolower (hex_bytes upper bs) = hex_bytes false bs.
Proof.
  unfold hex_bytes. induction bs as [ | b bs IH ]; [ done | ].
  cbn [map concat]. by rewrite map_app, tolower_hex_byte, IH.
Qed.

Lemma tolower_uuid_text upper u :
  map tolower (uuid_text upper u ++ [x00]) = uuid_text false u ++ [x00].
Proof.
  unfold uuid_text. rewrite !map_app, !tolower_hex_bytes. reflexivity.
Qed.

Lemma hex_byte_lower b :
  exists hi lo, hex_byte false b = [hi; lo]
                /\ is_lower_hex hi = true /\ is_lower_hex lo = true
                /\ Byte.eqb hi x00 = false /\ Byte.eqb lo x00 = false.
Proof. destruct b; by eexists _, _. Qed.

Lemma lower_hex_run_hex_bytes bs rest :
  lower_hex_run (2 * length bs) (hex_bytes false bs ++ rest) = Some rest.
Proof.
  unfold hex_bytes. induction bs as [ | b bs IH ]; [ done | ].
  destruct (hex_byte_lower b) as (hi & lo & Hb & Hhi & Hlo & _).
  cbn [map concat length]. rewrite Hb.
  replace (2 * S (length bs))%nat with (S (S (2 * length bs))) by lia.
  cbn [lower_hex_run app]. by rewrite Hhi, Hlo.
Qed.

Lemma lower_hex_run_hex_bytes_end bs :
  lower_hex_run (2 * length bs) (hex_bytes false bs) = Some [].
Proof.
  rewrite <- (app_nil_r (hex_bytes false bs)) at 1. apply lower_hex_run_hex_bytes.
Qed.

Lemma c_string_hex_bytes bs rest :
  c_string (hex_bytes false bs ++ rest) = hex_bytes false bs ++ c_string rest.
Proof.
  unfold hex_bytes. induction bs as [ | b bs IH ]; [ done | ].
  destruct (hex_byte_lower b) as (hi & lo & Hb & _ & _ & Hhi & Hlo).
  cbn [map concat]. rewrite Hb. cbn [c_string app]. by rewrite Hhi, Hlo, IH.
Qed.

Lemma one_hyphen_hyphen s : one_hyphen (hyphen :: s) = Some s.
Proof. reflexivity. Qed.

Lemma c_string_hyphen s : c_string (hyphen :: s) = hyphen :: c_string s.
Proof. reflexivity. Qed.

Lemma uuid_text_length upper (u : uuid_t) :
  length (uuid_text upper (vec_to_list u)) = 36%nat.
Proof.
  unfold sizeof_uuid_t in u. inv_vec u; intros. reflexivity.
Qed.

(** The text of a 16-byte value in lower case matches the grammar and
    contains no NUL. *)
Lemma uuid_text_lower (u : uuid_t) :
  matches_uuid_grammar (uuid_text false (vec_to_list u)) = true
  /\ c_string (uuid_text false (vec_to_list u) ++ [x00]) = uuid_text false (vec_to_list u).
Proof.
  unfold sizeof_uuid_t in u. inv_vec u; intros.
  unfold matches_uuid_grammar, uuid_grammar, uuid_text.
  cbn [vec_to_list take drop].
  split.
  - cbn [matches app].
    rewrite (lower_hex_run_hex_bytes [_; _; _; _]), one_hyphen_hyphen.
    do 3 rewrite (lower_hex_run_hex_bytes [_; _]), one_hyphen_hyphen.
    by rewrite (lower_hex_run_hex_bytes_end [_; _; _; _; _; _]).
  - rewrite <- !app_assoc. cbn [app].
    do 4 rewrite c_string_hex_bytes, c_string_hyphen.
    rewrite c_string_hex_bytes. cbn [c_string Byte.eqb].
    by rewrite app_nil_r.
Qed.

Lemma lowercase_uuid_unparse upper (u : uuid_t) :
  vec_to_list (vmap tolower (uuid_unparse upper u))
  = uuid_text false (vec_to_list u) ++ [x00].
Proof.
  rewrite vec_to_list_map. unfold uuid_unparse.
  rewrite memcpy_full
    by (rewrite length_app, uuid_text_length; reflexivity).
  apply tolower_uuid_text.
Qed.

(** ** Release *)

Lemma ret_run {A B : Type} (a : A) (k : A -> M B) w : bind (ret a) k w = k a w.
Proof. reflexivity. Qed.

Lemma EVP_MD_CTX_free_run w c st :
  heap w !! c = Some (EvpMdCtx st) ->
  EVP_MD_CTX_free c w = Ret tt (World (delete c (heap w)) (trace w)).
Proof.
  intros Hc. unfold EVP_MD_CTX_free, load_ctx, load, release, bind, ret. by rewrite Hc.
Qed.

Lemma EVP_MD_free_run w m :
  heap w !! m = Some EvpMd ->
  EVP_MD_free m w = Ret tt (World (delete m (heap w)) (trace w)).
Proof.
  intros Hm. unfold EVP_MD_free, check_md, load, release, bind, ret. by rewrite Hm.
Qed.

Lemma free_run w h s :
  heap w !! h = Some (Handle s) ->
  free h w = Ret tt (World (delete h (heap w)) (trace w)).
Proof.
  intros Hh. unfold free. by rewrite (bind_run _ _ _ _ _ (load_handle_run _ _ _ Hh)).
Qed.

Lemma cpid_finalize_run w h s :
  heap w !! h = Some (Handle s) -> pointers_live w s ->
  cpid_finalize (Some h) w
  = Ret tt (World (delete h (release_ptr (sha256 s)
                               (release_ptr (digest_context s) (heap w))))
                  (trace w)).
Proof.
  intros Hh [Hctx Hmd]. unfold cpid_finalize.
  run load_handle_run.
  destruct (digest_context s) as [c|] eqn:Hc, (sha256 s) as [m|] eqn:Hm;
    cbn [release_ptr].
  - destruct (Hctx c eq_refl) as [st Hcl]. pose proof (Hmd m eq_refl) as Hml.
    assert (h <> c) by congruence. assert (h <> m) by congruence.
    assert (c <> m) by congruence.
    run EVP_MD_CTX_free_run. run load_handle_run. rewrite Hm.
    run EVP_MD_free_run. erewrite free_run by heap_lookup; reflexivity.
  - destruct (Hctx c eq_refl) as [st Hcl]. assert (h <> c) by congruence.
    run EVP_MD_CTX_free_run. run load_handle_run. rewrite Hm, ret_run.
    erewrite free_run by heap_lookup; reflexivity.
  - pose proof (Hmd m eq_refl) as Hml. assert (h <> m) by congruence.
    rewrite ret_run. run load_handle_run. rewrite Hm.
    run EVP_MD_free_run. erewrite free_run by heap_lookup; reflexivity.
  - rewrite ret_run. run load_handle_run. rewrite Hm, ret_run.
    erewrite free_run by heap_lookup; reflexivity.
Qed.

Lemma cpid_finalize_dead w h : heap w !! h = None -> cpid_finalize (Some h) w = Fault.
Proof.
  intros Hh. unfold cpid_finalize, load_handle, load, bind. by rewrite Hh.
Qed.

Lemma cpid_finalize_inv w h u w' :
  cpid_finalize (Some h) w = Ret u w' ->
  exists s, heap w !! h = Some (Handle s) /\ pointers_live w s.
Proof.
  unfold cpid_finalize. intros (s & w1 & Hl & Hrun)%bind_inv.
  apply load_handle_inv in Hl as [Hh ->].
  exists s. split; [ done | ].
  apply bind_inv in Hrun as (u1 & w1 & Hfree & Hrun).
  assert (Hctx : forall c, digest_context s = Some c ->
                           exists st, heap w !! c = Some (EvpMdCtx st)
                                      /\ w1 = World (delete c (heap w)) (trace w)).
  { intros c Hc. rewrite Hc in Hfree. unfold EVP_MD_CTX_free in Hfree.
    apply bind_inv in Hfree as ([l st] & w2 & Hload & Hrel).
    apply load_ctx_inv in Hload as ([= <-] & Hcl & ->).
    unfold release in Hrel. injection Hrel as <-. eauto. }
  split; [ intros c Hc; destruct (Hctx c Hc) as (st & ? & _); eauto | ].
  intros m Hm.
  apply bind_inv in Hrun as (s' & w2 & Hl & Hrun).
  apply load_handle_inv in Hl as [Hh' ->].
  assert (s' = s) as ->.
  { destruct (digest_context s) as [c|] eqn:Hc.
    - destruct (Hctx c eq_refl) as (st & Hcl & ->). cbn [heap] in Hh'.
      apply lookup_delete_Some in Hh' as [_ Hh']. congruence.
    - unfold ret in Hfree. injection Hfree as _ <-. congruence. }
  rewrite Hm in Hrun. apply bind_inv in Hrun as (u2 & w3 & Hmdfree & _).
  unfold EVP_MD_free in Hmdfree. apply bind_inv in Hmdfree as (u3 & w4 & Hcheck & _).
  apply check_md_inv in Hcheck as (m' & [= <-] & Hml & _).
  destruct (digest_context s) as [c|] eqn:Hc.
  - destruct (Hctx c eq_refl) as (st & Hcl & ->). cbn [heap] in Hml.
    by apply lookup_delete_Some in Hml as [_ Hml].
  - unfold ret in Hfree. by injection Hfree as _ <-.
Qed.

(** C7, as the code has it: finalizing a null handle does nothing and
    returns; finalizing a live handle whose OpenSSL pointers are each null or
    live returns after releasing the digest context and the algorithm object
    that are present, and then the block itself, and nothing else; after
    that the block is gone, and a second call on the same handle reads
    released memory: it is undefined behaviour, not a no-op. *)
Theorem cpid_finalize_releases_once :
  (forall w, cpid_finalize None w = Ret tt w)
  /\ (forall w h s,
        heap w !! h = Some (Handle s) -> pointers_live w s ->
        cpid_finalize (Some h) w
        = Ret tt (World (delete h (release_ptr (sha256 s)
                                     (release_ptr (digest_context s) (heap w))))
                        (trace w)))
  /\ (forall w h w',
        cpid_finalize (Some h) w = Ret tt w' ->
        heap w' !! h = None /\ cpid_finalize (Some h) w' = Fault).
Proof.
  split; [ done | ]. split; [ apply cpid_finalize_run | ].
  intros w h w' Hrun.
  destruct (cpid_finalize_inv _ _ _ _ Hrun) as (s & Hh & Hlive).
  rewrite (cpid_finalize_run _ _ _ Hh Hlive) in Hrun. injection Hrun as <-.
  cbn [heap]. assert (Hgone : forall objects : gmap loc object, delete h objects !! h = None)
    by (intros; apply lookup_delete_eq).
  split; [ apply Hgone | ]. apply cpid_finalize_dead. apply Hgone.
Qed.

(** ** Acquisition: the two hardware-identity queries *)

Lemma alloc_run o w :
  exists l, heap w !! l = None
            /\ alloc o w = Ret l (World (<[l := o]> (heap w)) (trace w)).
Proof.
  exists (fresh (dom (heap w))). split; [ | done ].
  apply not_elem_of_dom. apply is_fresh.
Qed.

Lemma bind_assoc {A B C : Type} (m : M A) (k1 : A -> M B) (k2 : B -> M C) w :
  bind (bind m k1) k2 w = bind m (fun a => bind (k1 a) k2) w.
Proof. unfold bind. by destruct (m w). Qed.

Lemma load_run w l o : heap w !! l = Some o -> load l w = Ret o w.
Proof. intros Hl. unfold load. by rewrite Hl. Qed.

Lemma IOObjectRelease_run w l :
  heap w !! l = Some IoObject ->
  IOObjectRelease l w = Ret tt (World (delete l (heap w)) (trace w)).
Proof. intros Hl. unfold IOObjectRelease, load, release, bind. by rewrite Hl. Qed.

Lemma CFRelease_run w l s :
  heap w !! l = Some (CfString s) ->
  CFRelease l w = Ret tt (World (delete l (heap w)) (trace w)).
Proof. intros Hl. unfold CFRelease, load, release, bind. by rewrite Hl. Qed.

Lemma CFStringGetCString_run {n} w cf s (buffer : array n) :
  heap w !! cf = Some (CfString s) ->
  CFStringGetCString cf buffer w
  = Ret (if (length s + 1 <=? n)%nat then (true, memcpy (s ++ [x00]) buffer)
         else (false, buffer)) w.
Proof.
  intros Hl. unfold CFStringGetCString, load, bind, ret. rewrite Hl.
  by destruct (length s + 1 <=? n)%nat.
Qed.

(** Two heaps are equal when they agree at every location. *)
Ltac heap_eq :=
  apply map_eq; intros ?;
  repeat first [ rewrite lookup_delete | rewrite lookup_insert ];
  repeat case_decide; subst; congruence.

Lemma IORegistryEntryCreateCFProperty_run (property : option (list byte)) w l :
  heap w !! l = Some IoObject ->
  exists cf w2,
    IORegistryEntryCreateCFProperty l property w = Ret cf w2
    /\ trace w2 = trace w
    /\ match property with
       | None => cf = None /\ heap w2 = heap w
       | Some s => exists l', cf = Some l' /\ heap w !! l' = None
                              /\ heap w2 = <[l' := CfString s]> (heap w)
       end.
Proof.
  intros Hl. unfold IORegistryEntryCreateCFProperty.
  rewrite (bind_run _ _ _ _ _ (load_run _ _ _ Hl)).
  destruct property as [s|].
  - destruct (alloc_run (CfString s) w) as (l' & Hfresh' & Halloc).
    rewrite (bind_run _ _ _ _ _ Halloc). eexists _, _.
    split; [ reflexivity | ]. split; [ done | ]. eauto.
  - eexists _, _. split; [ reflexivity | ]. auto.
Qed.

(** Create the property from a fresh registry entry and release the entry:
    the sequence both queries start with. *)
Lemma property_run {A : Type} (property : option (list byte)) (k : ptr -> M A) w l :
  heap w !! l = None ->
  exists cf w2,
    bind (IORegistryEntryCreateCFProperty l property)
         (fun p => bind (IOObjectRelease l) (fun _ => k p))
         (World (<[l := IoObject]> (heap w)) (trace w))
    = k cf w2
    /\ trace w2 = trace w
    /\ match property with
       | None => cf = None /\ heap w2 = heap w
       | Some s => exists l', cf = Some l' /\ heap w !! l' = None
                              /\ heap w2 = <[l' := CfString s]> (heap w)
       end.
Proof.
  intros Hfresh.
  destruct (IORegistryEntryCreateCFProperty_run property
              (World (<[l := IoObject]> (heap w)) (trace w)) l)
    as (cf & w1 & Hrun & Htr & Hcf); [ apply lookup_insert_eq | ].
  rewrite (bind_run _ _ _ _ _ Hrun). cbn [heap trace] in *.
  assert (Hl : heap w1 !! l = Some IoObject).
  { destruct property as [s|].
    - destruct Hcf as (l' & _ & Hfresh' & ->).
      apply lookup_insert_None in Hfresh' as [_ Hne].
      by rewrite lookup_insert_ne, lookup_insert_eq.
    - destruct Hcf as [_ ->]. apply lookup_insert_eq. }
  rewrite (bind_run _ _ _ _ _ (IOObjectRelease_run _ _ Hl)).
  eexists _, _. split; [ reflexivity | ]. split; [ done | ]. cbn [heap].
  destruct property as [s|].
  - destruct Hcf as (l' & -> & Hfresh' & ->).
    apply lookup_insert_None in Hfresh' as [Hfresh' Hne].
    exists l'. split; [ done | ]. split; [ done | ]. heap_eq.
  - destruct Hcf as [-> ->]. split; [ done | ]. heap_eq.
Qed.

Lemma cpid_get_serial_number_run {n} (buffer : array n) w :
  exists result,
    cpid_get_serial_number (Some buffer) w = Ret result w
    /\ (result.1 = RETURN_ERROR
        \/ exists sn, result = (RETURN_SUCCESS, Some (memcpy (sn ++ [x00]) buffer))
                      /\ platform_expert_ok = true
                      /\ platform_serial_number = Some sn
                      /\ (length sn < n)%nat).
Proof.
  unfold cpid_get_serial_number.
  destruct (n =? 0)%nat; [ eexists; split; [ reflexivity | auto ] | ].
  unfold IOServiceGetMatchingService.
  destruct platform_expert_ok; [ | eexists; split; [ reflexivity | auto ] ].
  destruct (alloc_run IoObject w) as (l & Hfresh & Halloc).
  rewrite bind_assoc, (bind_run _ _ _ _ _ Halloc), ret_run.
  match goal with
  | |- context [bind _ (fun p => bind (IOObjectRelease _) (fun _ => @?k p)) _] =>
      destruct (property_run platform_serial_number k w l Hfresh)
        as (cf & w2 & Hrun & Htr & Hcf)
  end.
  rewrite Hrun. clear Hrun.
  destruct platform_serial_number as [sn|].
  - destruct Hcf as (l' & -> & Hfresh' & Hheap).
    assert (Hcf : heap w2 !! l' = Some (CfString sn))
      by (rewrite Hheap; apply lookup_insert_eq).
    assert (Hw : World (delete l' (heap w2)) (trace w2) = w).
    { rewrite Hheap, Htr, <- (world_eta w). f_equal. cbn [heap]. heap_eq. }
    rewrite (bind_run _ _ _ _ _ (CFStringGetCString_run _ _ _ buffer Hcf)).
    destruct (length sn + 1 <=? n)%nat eqn:Hfits;
      rewrite (bind_run _ _ _ _ _ (CFRelease_run _ _ _ Hcf)), Hw; cbn [negb].
    + eexists; split; [ reflexivity | right ]. exists sn.
      apply Nat.leb_le in Hfits. split_and!; try done. lia.
    + eexists; split; [ reflexivity | auto ].
  - destruct Hcf as [-> Hheap].
    assert (Hw : w2 = w) by (rewrite <- (world_eta w), <- (world_eta w2); congruence).
    rewrite Hw. eexists; split; [ reflexivity | auto ].
Qed.

Lemma cpid_get_hardware_uuid_run w :
  exists result,
    cpid_get_hardware_uuid OutArray w = Ret result w
    /\ (result = (RETURN_ERROR, None)
        \/ exists text u, result = (RETURN_SUCCESS, Some u)
                          /\ hardware_uuid_available text u).
Proof.
  unfold cpid_get_hardware_uuid, hardware_uuid_available. cbn [is_null_out].
  unfold IORegistryEntryFromPath.
  destruct registry_root_ok; [ | eexists; split; [ reflexivity | auto ] ].
  destruct (alloc_run IoObject w) as (l & Hfresh & Halloc).
  rewrite bind_assoc, (bind_run _ _ _ _ _ Halloc), ret_run.
  match goal with
  | |- context [bind _ (fun p => bind (IOObjectRelease _) (fun _ => @?k p)) _] =>
      destruct (property_run platform_uuid k w l Hfresh)
        as (cf & w2 & Hrun & Htr & Hcf)
  end.
  rewrite Hrun. clear Hrun.
  destruct platform_uuid as [text|].
  - destruct Hcf as (l' & -> & Hfresh' & Hheap).
    assert (Hcf : heap w2 !! l' = Some (CfString text))
      by (rewrite Hheap; apply lookup_insert_eq).
    assert (Hw : World (delete l' (heap w2)) (trace w2) = w).
    { rewrite Hheap, Htr, <- (world_eta w). f_equal. cbn [heap]. heap_eq. }
    rewrite (bind_run _ _ _ _ _ (CFStringGetCString_run _ _ _ _ Hcf)).
    destruct (length text + 1 <=? sizeof_uuid_string_t)%nat eqn:Hfits;
      rewrite (bind_run _ _ _ _ _ (CFRelease_run _ _ _ Hcf)), Hw; cbn [negb];
      [ | eexists; split; [ reflexivity | auto ] ].
    destruct (uuid_parse _) as [parsed|] eqn:Hparse;
      [ | eexists; split; [ reflexivity | auto ] ].
    eexists; split; [ reflexivity | right ]. exists text, parsed.
    apply Nat.leb_le in Hfits. split_and!; try done. lia.
  - destruct Hcf as [-> Hheap].
    assert (Hw : w2 = w) by (rewrite <- (world_eta w), <- (world_eta w2); congruence).
    rewrite Hw. eexists; split; [ reflexivity | auto ].
Qed.

(** ** A handle under construction *)

Lemma owned_lookup before h s now : owned before h s now -> now !! h = Some (Handle s).
Proof.
  intros (_ & [(_ & _ & ->) | [(m & _ & _ & _ & _ & ->) | (m & c & st & Hrest)]]);
    try apply lookup_insert_eq.
  destruct Hrest as (_ & _ & _ & _ & _ & _ & _ & _ & ->). apply lookup_insert_eq.
Qed.

Lemma owned_update before h s s' now :
  owned before h s now ->
  sha256 s' = sha256 s -> digest_context s' = digest_context s ->
  owned before h s' (<[h := Handle s']> now).
Proof.
  intros (Hfresh & Hcases) Hmd Hctx. split; [ done | ]. rewrite Hmd, Hctx.
  destruct Hcases as [(? & ? & ->) | [(m & ? & ? & ? & ? & ->) | (m & c & st & Hrest)]].
  - left. by rewrite insert_insert_eq.
  - right; left. exists m. by rewrite insert_insert_eq.
  - right; right. exists m, c, st.
    destruct Hrest as (? & ? & ? & ? & ? & ? & ? & ? & ->).
    by rewrite insert_insert_eq.
Qed.

Lemma owned_pointers_live before h s w : owned before h s (heap w) -> pointers_live w s.
Proof.
  intros (Hfresh & Hcases).
  destruct Hcases as [(Hm & Hc & _) | [(m & Hm & Hc & _ & ? & Hheap)
                                      | (m & c & st & Hm & Hc & _ & _ & ? & ? & ? & _ & Hheap)]].
  - split; intros l Hl; congruence.
  - split; intros l Hl; [ congruence | ].
    assert (l = m) as -> by congruence. rewrite Hheap.
    by rewrite lookup_insert_ne, lookup_insert_eq by done.
  - split; intros l Hl.
    + assert (l = c) as -> by congruence. exists st. rewrite Hheap.
      by rewrite lookup_insert_ne, lookup_insert_eq by done.
    + assert (l = m) as -> by congruence. rewrite Hheap.
      by rewrite !lookup_insert_ne, lookup_insert_eq by done.
Qed.

(** Finalizing a handle under construction gives back the heap in which
    its construction began. *)
Lemma cpid_finalize_owned before h s w :
  owned before h s (heap w) ->
  cpid_finalize (Some h) w = Ret tt (World before (trace w)).
Proof.
  intros Hown.
  rewrite (cpid_finalize_run _ _ _ (owned_lookup _ _ _ _ Hown)
             (owned_pointers_live _ _ _ _ Hown)).
  f_equal. f_equal.
  destruct Hown as (Hfresh & [(-> & -> & ->) | [(m & -> & -> & ? & ? & ->)
                              | (m & c & st & -> & -> & ? & ? & ? & ? & ? & _ & ->)]]);
    cbn [release_ptr]; heap_eq.
Qed.

Lemma write_back_owned {A : Type} before h s w (written : option A)
    (set : A -> digest_input_content_t -> digest_input_content_t) :
  owned before h s (heap w) ->
  exists s',
    write_back h written set w = Ret tt (World (<[h := Handle s']> (heap w)) (trace w))
    /\ owned before h s' (<[h := Handle s']> (heap w))
    /\ sha256 s' = sha256 s /\ digest_context s' = digest_context s
    /\ digest_input_content s'
       = match written with
         | Some a => set a (digest_input_content s)
         | None => digest_input_content s
         end.
Proof.
  intros Hown. pose proof (owned_lookup _ _ _ _ Hown) as Hh.
  destruct written as [a|]; cbn [write_back].
  - eexists. split; [ by apply update_handle_run | ].
    split; [ by eapply owned_update | done ].
  - exists s. rewrite insert_id by done. rewrite world_eta.
    split; [ done | ]. split; [ done | done ].
Qed.

(** ** Statements that need the two return codes to differ *)

Section ReturnCodes.

(** [constants.h] gives [RETURN_SUCCESS] and [RETURN_ERROR] different
    values. *)
Hypothesis return_codes_differ : RETURN_SUCCESS <> RETURN_ERROR.

Lemma make_uuid_answer_cases st buffer data :
  match openssl_digest st data with
  | Some digest =>
      if decide (length digest = 32%nat)
      then make_uuid_answer st buffer data
           = (RETURN_SUCCESS, Some (copy_out (imprint (memcpy digest buffer))))
      else make_uuid_answer st buffer data = (RETURN_ERROR, None)
  | None => make_uuid_answer st buffer data = (RETURN_ERROR, None)
  end.
Proof.
  unfold make_uuid_answer, SHA256_BUFFER_SIZE.
  destruct (openssl_digest st data) as [digest|]; [ | done ].
  case_decide as Hlen.
  - rewrite Hlen. reflexivity.
  - rewrite Z_eqb_neq_false by lia. reflexivity.
Qed.

(** Every successful call: the handle was ready, the arguments in range,
    OpenSSL delivered 32 bytes for the record, and the caller holds the
    identifier made from them. *)
Lemma cpid_make_uuid_success lh pid seconds micros uuid w out w' :
  cpid_make_uuid lh pid seconds micros uuid w = Ret (RETURN_SUCCESS, out) w' ->
  exists h s c st m u digest,
    lh = Some h /\ ready w h s c st m /\ out = Some u
    /\ openssl_digest st
         (digest_input_content_bytes
            (set_process pid seconds micros (digest_input_content s)))
       = Some digest
    /\ length digest = 32%nat
    /\ vec_to_list u = spec_identifier digest
    /\ make_uuid_post w h s c pid seconds micros w'.
Proof.
  intros Hrun.
  destruct (cpid_make_uuid_inv _ _ _ _ _ _ _ _ _ Hrun return_codes_differ)
    as (h & s & c & st & m & -> & -> & Hpid & Hmicros & Hready).
  destruct (cpid_make_uuid_run _ _ _ _ _ _ _ seconds _ Hready Hpid Hmicros)
    as (w1 & Hrun1 & _ & Hpost).
  rewrite Hrun in Hrun1. injection Hrun1 as Hanswer <-.
  pose proof (make_uuid_answer_cases st (digest_destination_buffer s)
    (digest_input_content_bytes
       (set_process pid seconds micros (digest_input_content s)))) as Hcases.
  destruct (openssl_digest st _) as [digest|] eqn:Hdigest;
    [ case_decide as Hlen | ]; rewrite Hcases in Hanswer; try congruence.
  injection Hanswer as ->.
  eexists h, s, c, st, m, _, digest.
  do 5 (split; [ done | ]). split; [ by apply copy_out_imprint | done ].
Qed.

(** C1: on a fully initialized handle and with [pid <= MAX_PID] and
    [creation_micros_offset <= 999999], the record fed to the hash is the 88
    bytes made of the constant fields followed by the per-call creation time
    and pid, and the digest calls made are a reset, one update with this
    record and the finalization; the call returns, and it succeeds exactly
    when OpenSSL delivers a digest of 32 bytes for that record; the 16 bytes
    returned are then the first 16 bytes of that digest with the version and
    variant imprints (of the SHA-256 digest of the record, when OpenSSL
    computes SHA-256); a digest of any other length makes the call fail. *)
Theorem cpid_make_uuid_digest_prefix w h s c st m pid seconds micros :
  ready w h s c st m -> pid <= MAX_PID -> micros <= MAX_MICROS_OFFSET ->
  let r := digest_input_content s in
  let data := digest_input_content_bytes (set_process pid seconds micros r) in
  length data = MACOS_EXPECTED_DIGEST_INPUT_CONTENT_SIZE
  /\ data = vec_to_list (serial_number r) ++ vec_to_list (hardware_uuid r)
            ++ process_creation_time_bytes (kernel_task_creation_time r)
            ++ process_creation_time_bytes (launchd_creation_time r)
            ++ (le64 seconds ++ le64 micros) ++ le64 pid
  /\ exists result w',
       cpid_make_uuid (Some h) pid seconds micros OutArray w = Ret result w'
       /\ trace w' = trace w ++ digest_events st data
       /\ (result.1 = RETURN_SUCCESS <->
           exists digest, openssl_digest st data = Some digest
                          /\ length digest = 32%nat)
       /\ (forall digest,
             openssl_digest st data = Some digest -> length digest = 32%nat ->
             exists u, result = (RETURN_SUCCESS, Some u)
                       /\ vec_to_list u = spec_identifier digest)
       /\ (forall digest,
             openssl_digest st data = Some digest -> length digest <> 32%nat ->
             result = (RETURN_ERROR, None))
       /\ (openssl_computes SHA256.sha256 -> result.1 = RETURN_SUCCESS ->
           exists u, result = (RETURN_SUCCESS, Some u)
                     /\ vec_to_list u = spec_identifier (SHA256.sha256 data)).
Proof.
  intros Hready Hpid Hmicros r data.
  split; [ apply digest_input_content_bytes_length | ].
  split; [ reflexivity | ].
  destruct (cpid_make_uuid_run _ _ _ _ _ _ _ seconds _ Hready Hpid Hmicros)
    as (w' & Hrun & Htrace & _).
  fold r data in Hrun, Htrace.
  exists (make_uuid_answer st (digest_destination_buffer s) data), w'.
  split; [ exact Hrun | ]. split; [ exact Htrace | ].
  pose proof (make_uuid_answer_cases st (digest_destination_buffer s) data) as Hcases.
  destruct (openssl_digest st data) as [digest|] eqn:Hdigest.
  - case_decide as Hlen; rewrite Hcases; cbn [fst].
    + split; [ split; eauto | ].
      split; [ intros d [= <-] _; eexists; split; [ reflexivity | by apply copy_out_imprint ] | ].
      split; [ intros d [= <-] Hne; done | ].
      intros Hsha _. eexists; split; [ reflexivity | ].
      rewrite <- (Hsha _ _ _ Hdigest). by apply copy_out_imprint.
    + split; [ split; [ by intros E; symmetry in E | intros (d & [= <-] & Hd); done ] | ].
      split; [ intros d [= <-] Hd; done | ].
      split; [ done | ].
      intros _ E. by symmetry in E.
  - rewrite Hcases; cbn [fst].
    split; [ split; [ by intros E; symmetry in E | intros (d & Hd & _); done ] | ].
    split; [ done | ]. split; [ done | ].
    intros _ E. by symmetry in E.
Qed.

(** C2: in the 16 bytes of every successful call, byte 6 has its high
    nibble equal to binary 1000 and its low nibble equal to that of byte 6
    of the digest, and byte 8 has its two top bits equal to binary 10 and its
    six low bits equal to those of byte 8 of the digest. *)
Theorem cpid_make_uuid_version_variant lh pid seconds micros uuid w out w' :
  cpid_make_uuid lh pid seconds micros uuid w = Ret (RETURN_SUCCESS, out) w' ->
  exists h s c st m u digest,
    lh = Some h /\ ready w h s c st m /\ out = Some u
    /\ openssl_digest st
         (digest_input_content_bytes
            (set_process pid seconds micros (digest_input_content s)))
       = Some digest
    /\ length digest = 32%nat
    /\ Z.shiftr (Z_of_byte (u !!! 6%fin)) 4 = 8
    /\ Z.land (Z_of_byte (u !!! 6%fin)) 15 = Z.land (Z_of_byte (digest !!! 6%nat)) 15
    /\ Z.shiftr (Z_of_byte (u !!! 8%fin)) 6 = 2
    /\ Z.land (Z_of_byte (u !!! 8%fin)) 63 = Z.land (Z_of_byte (digest !!! 8%nat)) 63.
Proof.
  intros Hrun.
  destruct (cpid_make_uuid_success _ _ _ _ _ _ _ _ Hrun)
    as (h & s & c & st & m & u & digest & -> & Hready & -> & Hdigest & Hlen & Hu & _).
  exists h, s, c, st, m, u, digest.
  do 5 (split; [ done | ]).
  rewrite !(vlookup_total_as_list _ _ _ Hu). cbn [fin_to_nat]. unfold spec_identifier.
  rewrite list_lookup_total_insert_ne by done.
  rewrite list_lookup_total_insert_eq
    by (rewrite length_take; lia).
  rewrite list_lookup_total_insert_eq
    by (rewrite length_insert, length_take; lia).
  rewrite <- version_byte_spec, <- variant_byte_spec.
  destruct (version_byte_bits (digest !!! 6%nat)), (variant_byte_bits (digest !!! 8%nat)).
  auto.
Qed.

Lemma set_process_constant_fields pid seconds micros r1 r2 :
  constant_fields r1 = constant_fields r2 ->
  set_process pid seconds micros r1 = set_process pid seconds micros r2.
Proof. unfold constant_fields, set_process. intros [= -> -> -> ->]. reflexivity. Qed.

(** C4: when OpenSSL computes a function of the data it is given, two
    successful calls with the same arguments on handles holding the same
    constant fields return the same 16 bytes, whatever the scratch buffer,
    the per-call fields and the digest context held before and whatever else
    is in memory; in particular a call repeated on the same handle returns
    what it returned the first time. *)
Theorem cpid_make_uuid_deterministic (f : list byte -> list byte)
    pid seconds micros :
  openssl_computes f ->
  (forall h1 h2 uuid1 uuid2 w1 w2 s1 s2 out1 out2 w1' w2',
     heap w1 !! h1 = Some (Handle s1) ->
     heap w2 !! h2 = Some (Handle s2) ->
     constant_fields (digest_input_content s1)
     = constant_fields (digest_input_content s2) ->
     cpid_make_uuid (Some h1) pid seconds micros uuid1 w1
     = Ret (RETURN_SUCCESS, out1) w1' ->
     cpid_make_uuid (Some h2) pid seconds micros uuid2 w2
     = Ret (RETURN_SUCCESS, out2) w2' ->
     out1 = out2)
  /\ (forall h uuid1 uuid2 w out1 out2 w1 w2,
       cpid_make_uuid (Some h) pid seconds micros uuid1 w
       = Ret (RETURN_SUCCESS, out1) w1 ->
       cpid_make_uuid (Some h) pid seconds micros uuid2 w1
       = Ret (RETURN_SUCCESS, out2) w2 ->
       out1 = out2).
Proof.
  intros Hf.
  assert (Hvalue : forall h uuid w s out w',
    heap w !! h = Some (Handle s) ->
    cpid_make_uuid (Some h) pid seconds micros uuid w = Ret (RETURN_SUCCESS, out) w' ->
    exists u, out = Some u
      /\ vec_to_list u
         = spec_identifier
             (f (digest_input_content_bytes
                   (set_process pid seconds micros (digest_input_content s))))
      /\ exists s', heap w' !! h = Some (Handle s')
           /\ constant_fields (digest_input_content s')
              = constant_fields (digest_input_content s)).
  { intros h uuid w s out w' Hs Hrun.
    destruct (cpid_make_uuid_success _ _ _ _ _ _ _ _ Hrun)
      as (h' & s' & c & st & m & u & digest & [= <-] & Hready & -> & Hdigest & _ & Hu
          & (s2 & st2 & Hheap & _ & _ & Hrecord)).
    assert (s' = s) as -> by (destruct Hready as [Hh _]; congruence).
    exists u. split; [ done | ]. split; [ by rewrite <- (Hf _ _ _ Hdigest) | ].
    exists s2. rewrite Hheap, lookup_insert_eq, Hrecord. done. }
  split.
  - intros h1 h2 uuid1 uuid2 w1 w2 s1 s2 out1 out2 w1' w2' Hs1 Hs2 Hsame Hrun1 Hrun2.
    destruct (Hvalue _ _ _ _ _ _ Hs1 Hrun1) as (u1 & -> & Hu1 & _).
    destruct (Hvalue _ _ _ _ _ _ Hs2 Hrun2) as (u2 & -> & Hu2 & _).
    rewrite (set_process_constant_fields _ _ _ _ _ Hsame) in Hu1.
    f_equal. apply vec_to_list_inj2. congruence.
  - intros h uuid1 uuid2 w out1 out2 w1 w2 Hrun1 Hrun2.
    destruct (cpid_make_uuid_inv _ _ _ _ _ _ _ _ _ Hrun1 return_codes_differ)
      as (h' & s & c & st & m & [= <-] & _ & _ & _ & Hs & _).
    destruct (Hvalue _ _ _ _ _ _ Hs Hrun1) as (u1 & -> & Hu1 & s' & Hs' & Hsame).
    destruct (Hvalue _ _ _ _ _ _ Hs' Hrun2) as (u2 & -> & Hu2 & _).
    rewrite (set_process_constant_fields _ _ _ _ _ Hsame) in Hu2.
    f_equal. apply vec_to_list_inj2. congruence.
Qed.

Lemma success_eqb_error : (RETURN_SUCCESS =? RETURN_ERROR) = false.
Proof. by apply Z.eqb_neq. Qed.

(** [cpid_make_uuid] returns an error and writes nothing, or succeeds and
    writes the identifier. *)
Lemma cpid_make_uuid_shape lh pid seconds micros uuid w r out w' :
  cpid_make_uuid lh pid seconds micros uuid w = Ret (r, out) w' ->
  (r = RETURN_ERROR /\ out = None) \/ (r = RETURN_SUCCESS /\ exists u, out = Some u).
Proof.
  intros Hrun.
  destruct (cpid_make_uuid_valid_or_not lh pid micros uuid)
    as [(h & -> & -> & Hp & Hm) | Hbad].
  - destruct (cpid_make_uuid_inv_valid _ _ _ _ _ _ _ Hrun Hp Hm)
      as (s & c & st & m & Hready).
    destruct (cpid_make_uuid_run _ _ _ _ _ _ _ seconds _ Hready Hp Hm)
      as (w1 & Hrun1 & _).
    rewrite Hrun in Hrun1. injection Hrun1 as Hanswer _.
    unfold make_uuid_answer in Hanswer.
    destruct (openssl_digest st _); [ destruct (SHA256_BUFFER_SIZE =? _) | ];
      injection Hanswer as -> ->; eauto.
  - rewrite (cpid_make_uuid_invalid _ _ _ _ _ _ Hbad) in Hrun.
    injection Hrun as <- <- _. auto.
Qed.

Lemma cpid_get_uuid_shape lh pid uuid w r out w' :
  cpid_get_uuid lh pid uuid w = Ret (r, out) w' ->
  (r = RETURN_ERROR /\ out = None) \/ (r = RETURN_SUCCESS /\ exists u, out = Some u).
Proof.
  unfold cpid_get_uuid.
  destruct (is_null lh || is_null_out uuid); [ intros [= <- <- _]; auto | ].
  intros ([rc t] & w1 & Htime & Hrun)%bind_inv.
  destruct (cpid_get_process_creation_time_run pid w) as (result & Hrun1 & Hcases).
  rewrite Htime in Hrun1. injection Hrun1 as <- _.
  destruct Hcases as [[= -> ->] | (t' & [= -> ->] & _)].
  - rewrite success_eqb_error in Hrun. cbn in Hrun. injection Hrun as <- <- _. auto.
  - rewrite Z.eqb_refl in Hrun. cbn [negb] in Hrun.
    apply bind_inv in Hrun as ([rc written] & w2 & Hmake & Hrun).
    apply cpid_make_uuid_shape in Hmake as [[-> ->] | [-> (u & ->)]].
    + rewrite success_eqb_error in Hrun. cbn in Hrun. injection Hrun as <- <- _. auto.
    + rewrite Z.eqb_refl in Hrun. cbn in Hrun. injection Hrun as <- <- _. eauto.
Qed.

(** C10: for a pid above [MAX_PID] the process-time lookup returns an error
    before it queries the process table, and so do [cpid_get_uuid] and
    [cpid_get_uuid_string], whatever the handle: the world is left as it
    was, with no [sysctl] query and no digest call made, and nothing is
    written to the output. *)
Theorem cpid_get_uuid_pid_out_of_range lh pid out uuid uuid_string w :
  MAX_PID < pid ->
  cpid_get_process_creation_time pid out w = Ret (RETURN_ERROR, None) w
  /\ cpid_get_uuid lh pid uuid w = Ret (RETURN_ERROR, None) w
  /\ cpid_get_uuid_string lh pid uuid_string w = Ret (RETURN_ERROR, None) w.
Proof.
  intros Hp.
  assert (Hget : forall u, cpid_get_uuid lh pid u w = Ret (RETURN_ERROR, None) w).
  { intros u. unfold cpid_get_uuid.
    destruct (is_null lh || is_null_out u); [ done | ].
    rewrite (bind_run _ _ _ _ _ (cpid_get_process_creation_time_large _ _ _ Hp)).
    by rewrite success_eqb_error. }
  split; [ by apply cpid_get_process_creation_time_large | ].
  split; [ apply Hget | ].
  unfold cpid_get_uuid_string.
  destruct (is_null lh || is_null_out uuid_string); [ done | ].
  rewrite (bind_run _ _ _ _ _ (Hget _)). by rewrite success_eqb_error.
Qed.


(** ** The textual identifier *)

(** C9: whenever [cpid_get_uuid] succeeds with 16 bytes,
    [cpid_get_uuid_string] succeeds with their text in the 8-4-4-4-12 form,
    all hexadecimal digits in lower case whichever case [uuid_unparse]
    prints, followed by the terminating NUL; every successful output of
    [cpid_get_uuid_string] arises in this way and matches the grammar; and
    when [cpid_get_uuid] fails, [cpid_get_uuid_string] returns the same
    error code and writes no string. *)
Theorem cpid_get_uuid_string_lowercase lh pid w :
  (forall u w',
     cpid_get_uuid lh pid OutArray w = Ret (RETURN_SUCCESS, Some u) w' ->
     exists str,
       cpid_get_uuid_string lh pid OutArray w = Ret (RETURN_SUCCESS, Some str) w'
       /\ vec_to_list str = uuid_text false (vec_to_list u) ++ [x00]
       /\ c_string (vec_to_list str) = uuid_text false (vec_to_list u)
       /\ matches_uuid_grammar (c_string (vec_to_list str)) = true)
  /\ (forall uuid_string out w',
        cpid_get_uuid_string lh pid uuid_string w = Ret (RETURN_SUCCESS, out) w' ->
        exists u str,
          cpid_get_uuid lh pid OutArray w = Ret (RETURN_SUCCESS, Some u) w'
          /\ out = Some str
          /\ c_string (vec_to_list str) = uuid_text false (vec_to_list u)
          /\ matches_uuid_grammar (c_string (vec_to_list str)) = true)
  /\ (forall r out w',
        cpid_get_uuid lh pid OutArray w = Ret (r, out) w' ->
        r <> RETURN_SUCCESS ->
        r = RETURN_ERROR
        /\ cpid_get_uuid_string lh pid OutArray w = Ret (r, None) w').
Proof.
  assert (Htext : forall u : uuid_t,
    let str := vmap tolower (uuid_unparse unparse_upper_case u) in
    vec_to_list str = uuid_text false (vec_to_list u) ++ [x00]
    /\ c_string (vec_to_list str) = uuid_text false (vec_to_list u)
    /\ matches_uuid_grammar (c_string (vec_to_list str)) = true).
  { intros u str. unfold str. rewrite lowercase_uuid_unparse.
    destruct (uuid_text_lower u) as [Hgrammar Hstring].
    by rewrite Hstring. }
  pose proof success_eqb_error as Hne.
  split; [ | split ].
  - intros u w' Hget. eexists. split; [ | apply Htext ].
    unfold cpid_get_uuid_string.
    destruct lh as [h|]; [ | unfold cpid_get_uuid, ret in Hget; cbn in Hget; discriminate ].
    cbn [is_null is_null_out orb].
    rewrite (bind_run _ _ _ _ _ Hget). by rewrite Z.eqb_refl.
  - intros uuid_string out w'. unfold cpid_get_uuid_string.
    destruct (is_null lh || is_null_out uuid_string); [ intros [= ? _ _]; done | ].
    intros ([rc uo] & w1 & Hget & Hrun)%bind_inv.
    destruct (cpid_get_uuid_shape _ _ _ _ _ _ _ Hget)
      as [[-> ->] | [-> (u & ->)]].
    + rewrite Hne in Hrun. cbn in Hrun. injection Hrun as ? _ _. done.
    + rewrite Z.eqb_refl in Hrun. cbn in Hrun. injection Hrun as <- <-.
      exists u, (vmap tolower (uuid_unparse unparse_upper_case u)).
      split; [ done | ]. split; [ done | ]. apply Htext.
  - intros r out w' Hget Hr.
    destruct (cpid_get_uuid_shape _ _ _ _ _ _ _ Hget)
      as [[-> ->] | [-> _]]; [ | done ].
    split; [ done | ]. unfold cpid_get_uuid_string.
    destruct lh as [h|].
    + cbn [is_null is_null_out orb]. rewrite (bind_run _ _ _ _ _ Hget). by rewrite Hne.
    + unfold cpid_get_uuid, ret in Hget. cbn in Hget. injection Hget as <-. done.
Qed.


(** ** Acquisition: [cpid_initialize] *)

(** One of the four queries of the block, its write into the handle and
    the test that follows: on an error the block is left with that code; on
    success the block goes on with the field set. *)
Lemma query_step {A : Type} before h s w (query : M (Z * option A))
    (set : A -> digest_input_content_t -> digest_input_content_t)
    (available : A -> Prop) (events : list event) :
  owned before h s (heap w) ->
  (exists result,
     query w = Ret result (World (heap w) (trace w ++ events))
     /\ (result.1 = RETURN_ERROR
         \/ exists a, result = (RETURN_SUCCESS, Some a) /\ available a)) ->
  let step (k : M Z) :=
    bind query (fun x => match x with
                         | (return_code, written) =>
                             bind (write_back h written set) (fun _ =>
                               if negb (RETURN_SUCCESS =? return_code)
                               then ret return_code else k)
                         end) in
  exists s' w',
    heap w' = <[h := Handle s']> (heap w)
    /\ owned before h s' (heap w')
    /\ sha256 s' = sha256 s /\ digest_context s' = digest_context s
    /\ ((forall k, step k w = Ret RETURN_ERROR w')
        \/ (exists a, available a
                      /\ digest_input_content s' = set a (digest_input_content s)
                      /\ forall k, step k w = k w')).
Proof.
  intros Hown ([rc written] & Hrun & Hcases) step. unfold step.
  destruct (write_back_owned before h s (World (heap w) (trace w ++ events)) written set Hown)
    as (s' & Hwrite & Hown' & Hmd & Hctx & Hrecord).
  cbn [heap trace] in *.
  exists s', (World (<[h := Handle s']> (heap w)) (trace w ++ events)).
  split; [ reflexivity | ]. split; [ exact Hown' | ].
  split; [ done | ]. split; [ done | ].
  destruct Hcases as [Hrc | (a & [= -> ->] & Ha)]; cbn [fst] in *.
  - left. intros k. rewrite (bind_run _ _ _ _ _ Hrun), (bind_run _ _ _ _ _ Hwrite).
    subst rc. by rewrite success_eqb_error.
  - right. exists a. split; [ done | ]. split; [ done | ]. intros k.
    rewrite (bind_run _ _ _ _ _ Hrun), (bind_run _ _ _ _ _ Hwrite).
    by rewrite Z.eqb_refl.
Qed.

Lemma cpid_initialize_block_run before h w :
  before !! h = None ->
  heap w = <[h := Handle zeroed_cpid_struct]> before ->
  exists rc w' s',
    cpid_initialize_block h w = Ret rc w'
    /\ owned before h s' (heap w')
    /\ (rc = RETURN_SUCCESS -> fully_populated s').
Proof.
  intros Hfresh Hheap. unfold cpid_initialize_block, EVP_MD_fetch.
  assert (Hh : heap w !! h = Some (Handle zeroed_cpid_struct))
    by (rewrite Hheap; apply lookup_insert_eq).
  destruct md_fetch_ok eqn:Hfetch.
  2:{ rewrite ret_run. erewrite bind_run by (by apply update_handle_run).
      cbn [is_null]. eexists _, _, (set_sha256 None zeroed_cpid_struct).
      split; [ reflexivity | ].
      split; [ | done ]. split; [ done | ]. left.
      cbn [heap]. rewrite Hheap. split_and!; try done. heap_eq. }
  destruct (alloc_run EvpMd w) as (m & Hm & Halloc).
  rewrite bind_assoc, (bind_run _ _ _ _ _ Halloc), ret_run.
  rewrite Hheap in Hm. apply lookup_insert_None in Hm as [Hm Hhm].
  erewrite bind_run
    by (apply update_handle_run; cbn [heap]; rewrite lookup_insert_ne by done; exact Hh).
  cbn [is_null heap trace]. unfold EVP_MD_CTX_new.
  destruct md_ctx_new as [st|] eqn:Hnew.
  2:{ rewrite ret_run.
      erewrite bind_run by (apply update_handle_run; cbn [heap]; apply lookup_insert_eq).
      cbn [is_null].
      eexists _, _, (set_digest_context None (set_sha256 (Some m) zeroed_cpid_struct)).
      split; [ reflexivity | ].
      split; [ | done ]. split; [ done | ]. right; left. exists m.
      cbn [heap]. rewrite Hheap. split_and!; try done. heap_eq. }
  match goal with
  | |- context [bind (bind (alloc _) _) _ ?w1] =>
      destruct (alloc_run (EvpMdCtx st) w1) as (c & Hc & Halloc')
  end.
  rewrite bind_assoc, (bind_run _ _ _ _ _ Halloc'), ret_run.
  cbn [heap] in Hc. rewrite Hheap in Hc.
  apply lookup_insert_None in Hc as [Hc Hhc].
  apply lookup_insert_None in Hc as [Hc Hmc].
  apply lookup_insert_None in Hc as [Hc _].
  erewrite bind_run
    by (apply update_handle_run; cbn [heap]; rewrite lookup_insert_ne by done;
        apply lookup_insert_eq).
  cbn [is_null heap trace].
  set (s2 := set_digest_context (Some c) (set_sha256 (Some m) zeroed_cpid_struct)).
  match goal with
  | |- context [bind (load_handle h) _ ?w0] => set (w2 := w0)
  end.
  assert (Hown2 : owned before h s2 (heap w2)).
  { split; [ done | ]. right; right. exists m, c, st. subst w2.
    cbn [heap]. rewrite Hheap. split_and!; try done. heap_eq. }
  rewrite (bind_run _ _ _ _ _ (load_handle_run _ _ _ (owned_lookup _ _ _ _ Hown2))).
  (* serial number *)
  edestruct (query_step before h s2 w2
               (cpid_get_serial_number (Some (serial_number (digest_input_content s2))))
               set_serial_number
               (fun a => exists sn, a = memcpy (sn ++ [x00])
                                          (serial_number (digest_input_content s2))
                                    /\ serial_number_available sn)
               [] Hown2)
    as (s3 & w3 & Hheap3 & Hown3 & Hmd3 & Hctx3 & [Hstop | (a3 & Ha3 & Hrec3 & Hgo)]).
  { destruct (cpid_get_serial_number_run (serial_number (digest_input_content s2)) w2)
      as (result & Hrun & Hcases).
    exists result. rewrite app_nil_r, world_eta. split; [ done | ].
    destruct Hcases as [? | (sn & -> & ? & ? & ?)]; [ by left | right ].
    eexists. split; [ reflexivity | ]. exists sn. by split. }
  { rewrite Hstop. eexists _, _, _. split; [ reflexivity | ].
    split; [ eassumption | done ]. }
  rewrite Hgo. clear Hgo.
  (* hardware UUID *)
  edestruct (query_step before h s3 w3 (cpid_get_hardware_uuid OutArray)
               set_hardware_uuid
               (fun a => exists text, hardware_uuid_available text a)
               [] Hown3)
    as (s4 & w4 & Hheap4 & Hown4 & Hmd4 & Hctx4 & [Hstop | (a4 & Ha4 & Hrec4 & Hgo)]).
  { destruct (cpid_get_hardware_uuid_run w3) as (result & Hrun & Hcases).
    exists result. rewrite app_nil_r, world_eta. split; [ done | ].
    destruct Hcases as [-> | (text & u & -> & ?)]; [ by left | right ].
    eexists. split; [ reflexivity | ]. by exists text. }
  { rewrite Hstop. eexists _, _, _. split; [ reflexivity | ].
    split; [ eassumption | done ]. }
  rewrite Hgo. clear Hgo.
  (* kernel task *)
  edestruct (query_step before h s4 w4
               (cpid_get_process_creation_time KERNEL_TASK_PID OutArray)
               set_kernel_task_creation_time
               (creation_time_available KERNEL_TASK_PID)
               (if MAX_PID <? KERNEL_TASK_PID then []
                else [SysctlProc (int_of_uint32 KERNEL_TASK_PID)]) Hown4)
    as (s5 & w5 & Hheap5 & Hown5 & Hmd5 & Hctx5 & [Hstop | (a5 & Ha5 & Hrec5 & Hgo)]).
  { destruct (cpid_get_process_creation_time_run KERNEL_TASK_PID w4)
      as (result & Hrun & Hcases).
    exists result. split; [ exact Hrun | ].
    destruct Hcases as [-> | (t & -> & ?)]; [ by left | right; eauto ]. }
  { rewrite Hstop. eexists _, _, _. split; [ reflexivity | ].
    split; [ eassumption | done ]. }
  rewrite Hgo. clear Hgo.
  (* launchd *)
  destruct (cpid_get_process_creation_time_run LAUNCHD_PID w5)
    as ([rc written] & Hrun & Hcases).
  rewrite (bind_run _ _ _ _ _ Hrun).
  destruct (write_back_owned before h s5
              (World (heap w5)
                 (trace w5 ++ if MAX_PID <? LAUNCHD_PID then []
                              else [SysctlProc (int_of_uint32 LAUNCHD_PID)]))
              written set_launchd_creation_time Hown5)
    as (s6 & Hwrite & Hown6 & Hmd6 & Hctx6 & Hrec6).
  rewrite (bind_run _ _ _ _ _ Hwrite). unfold ret.
  eexists _, _, s6. split; [ reflexivity | ]. split; [ exact Hown6 | ].
  intros ->. destruct Hcases as [[= ? _] | (t & [= ->] & Ht)]; [ done | ].
  destruct Ha3 as (sn & -> & Hsn). destruct Ha4 as (text & Htext).
  exists c, m, st, sn, text.
  rewrite Hctx6, Hctx5, Hctx4, Hctx3, Hmd6, Hmd5, Hmd4, Hmd3.
  rewrite Hrec6, Hrec5, Hrec4, Hrec3. cbn. split_and!; done.
Qed.

(** C6: [cpid_initialize] always returns.  When it returns a handle, every
    step has succeeded and every field is set; whenever a step fails
    (the allocation of the block, the algorithm fetch, the digest context,
    the serial number, the hardware UUID, the creation time of pid 0 or of
    pid 1), it returns [NULL] and the heap is exactly the heap it started
    from: everything acquired on the way has been released, and no
    partially populated handle is returned. *)
Theorem cpid_initialize_all_or_nothing w :
  exists r w',
    cpid_initialize w = Ret r w'
    /\ match r with
       | None => heap w' = heap w
       | Some h =>
           exists s c st m,
             heap w !! h = None /\ heap w !! c = None /\ heap w !! m = None
             /\ m <> h /\ c <> h /\ c <> m
             /\ heap w' = <[h := Handle s]>
                            (<[c := EvpMdCtx st]> (<[m := EvpMd]> (heap w)))
             /\ ready w' h s c st m
             /\ calloc_ok = true
             /\ fully_populated s
       end
    /\ (calloc_ok = false \/ md_fetch_ok = false \/ md_ctx_new = None
        \/ (forall sn, ~ serial_number_available sn)
        \/ (forall text u, ~ hardware_uuid_available text u)
        \/ (forall t, ~ creation_time_available KERNEL_TASK_PID t)
        \/ (forall t, ~ creation_time_available LAUNCHD_PID t) ->
        r = None /\ heap w' = heap w).
Proof.
  unfold cpid_initialize, calloc_cpid_struct.
  destruct calloc_ok eqn:Hcalloc.
  2:{ exists None, w. split; [ done | ]. split; [ done | ]. done. }
  destruct (alloc_run (Handle zeroed_cpid_struct) w) as (h & Hfresh & Halloc).
  rewrite bind_assoc, (bind_run _ _ _ _ _ Halloc), ret_run.
  destruct (cpid_initialize_block_run (heap w) h
              (World (<[h := Handle zeroed_cpid_struct]> (heap w)) (trace w))
              Hfresh eq_refl)
    as (rc & w1 & s & Hblock & Hown & Hfull).
  rewrite (bind_run _ _ _ _ _ Hblock).
  destruct (RETURN_SUCCESS =? rc) eqn:Hrc; cbn [negb].
  - apply Z.eqb_eq in Hrc. specialize (Hfull (eq_sym Hrc)).
    exists (Some h), w1. split; [ done | ].
    pose proof Hfull as (c & m & st & sn & text & Hc & Hm & Hfetch & Hnew & Hsn & _
                         & Htext & Hk & Hl).
    split.
    + destruct Hown as (_ & [(Hm' & _) | [(m' & _ & Hc' & _)
                              | (m' & c' & st' & Hm' & Hc' & ? & ? & ? & ? & ? & ? & Hheap)]]);
        try congruence.
      assert (m' = m) as -> by congruence. assert (c' = c) as -> by congruence.
      exists s, c, st', m. split_and!; try done.
      unfold ready. rewrite Hheap. split_and!; try done.
      * apply lookup_insert_eq.
      * by rewrite lookup_insert_ne, lookup_insert_eq by done.
      * by rewrite !lookup_insert_ne, lookup_insert_eq by done.
    + intros [? | [? | [? | [Hno | [Hno | [Hno | Hno]]]]]]; try congruence;
        exfalso; eapply Hno; eassumption.
  - rewrite (bind_run _ _ _ _ _ (cpid_finalize_owned _ _ _ _ Hown)).
    exists None, (World (heap w) (trace w1)). split; [ done | ]. split; done.
Qed.

End ReturnCodes.

(** * Further properties *)

(** ** Bytes and integers *)

Lemma Z_of_byte_of_Z z : Z_of_byte (byte_of_Z z) = z mod 256.
Proof.
  unfold Z_of_byte, byte_of_Z.
  assert (Hrange : 0 <= z mod 256 < 256) by (apply Z.mod_pos_bound; lia).
  destruct (Byte.of_N (Z.to_N (z mod 256))) as [b|] eqn:Hb.
  - apply Byte.to_of_N in Hb. rewrite Hb. apply Z2N.id. lia.
  - apply Byte.of_N_None_iff in Hb. lia.
Qed.

Lemma Z_of_byte_range b : 0 <= Z_of_byte b < 256.
Proof. destruct b; vm_compute; split; congruence. Qed.

Lemma le_value_step z m :
  0 < m -> z mod (256 * m) = z mod 256 + 256 * ((z / 256) mod m).
Proof. intros Hm. apply Z.rem_mul_r; lia. Qed.

Lemma le_value_le64 z : le_value (le64 z) = z mod 2 ^ 64.
Proof.
  unfold le64, le_value. cbn [map fold_right].
  rewrite !Z_of_byte_of_Z, !Z.shiftr_div_pow2 by lia.
  change (2 ^ 64) with (256 * (256 * (256 * (256 * (256 * (256 * (256 * 256))))))).
  rewrite !le_value_step by lia.
  change (8 * 0) with 0. rewrite Z.pow_0_r, Z.div_1_r.
  rewrite !Z.div_div by lia.
  change (2 ^ (8 * 1)) with 256. change (2 ^ (8 * 2)) with (256 * 256).
  change (2 ^ (8 * 3)) with (256 * 256 * 256).
  change (2 ^ (8 * 4)) with (256 * 256 * 256 * 256).
  change (2 ^ (8 * 5)) with (256 * 256 * 256 * 256 * 256).
  change (2 ^ (8 * 6)) with (256 * 256 * 256 * 256 * 256 * 256).
  change (2 ^ (8 * 7)) with (256 * 256 * 256 * 256 * 256 * 256 * 256).
  lia.
Qed.

Lemma le64_inj a b : is_uint64 a -> is_uint64 b -> le64 a = le64 b -> a = b.
Proof.
  unfold is_uint64. intros Ha Hb Heq.
  apply (f_equal le_value) in Heq. rewrite !le_value_le64 in Heq.
  by rewrite !Z.mod_small in Heq.
Qed.

(** ** Text of either case read back *)

Lemma hex_byte_value upper b :
  exists hi lo h l,
    hex_byte upper b = [hi; lo]
    /\ hex_value hi = Some h /\ hex_value lo = Some l
    /\ byte_of_Z (16 * h + l) = b
    /\ Byte.eqb hi x00 = false /\ Byte.eqb lo x00 = false.
Proof. destruct upper, b; by eexists _, _, _, _. Qed.

Lemma parse_hex_bytes_hex_bytes upper bs :
  parse_hex_bytes (hex_bytes upper bs) = Some bs.
Proof.
  unfold hex_bytes. induction bs as [ | b bs IH ]; [ done | ].
  destruct (hex_byte_value upper b) as (hi & lo & h & l & Hb & Hhi & Hlo & Hv & _).
  cbn [map concat]. rewrite Hb. cbn [app parse_hex_bytes].
  by rewrite Hhi, Hlo, IH, Hv.
Qed.

Lemma c_string_hex_bytes_any upper bs rest :
  c_string (hex_bytes upper bs ++ rest) = hex_bytes upper bs ++ c_string rest.
Proof.
  unfold hex_bytes. induction bs as [ | b bs IH ]; [ done | ].
  destruct (hex_byte_value upper b) as (hi & lo & h & l & Hb & _ & _ & _ & Hhi & Hlo).
  cbn [map concat]. rewrite Hb. cbn [c_string app]. by rewrite Hhi, Hlo, IH.
Qed.

Lemma c_string_uuid_text upper (u : uuid_t) rest :
  c_string (uuid_text upper (vec_to_list u) ++ x00 :: rest)
  = uuid_text upper (vec_to_list u).
Proof.
  unfold uuid_text. rewrite <- !app_assoc. cbn [app].
  do 4 rewrite c_string_hex_bytes_any, c_string_hyphen.
  rewrite c_string_hex_bytes_any. cbn [c_string Byte.eqb].
  by rewrite app_nil_r.
Qed.

Lemma memcpy_vec_to_list {n} (v dst : array n) : memcpy (vec_to_list v) dst = v.
Proof.
  apply vec_to_list_inj2. apply memcpy_full. apply length_vec_to_list.
Qed.

(** The digits of the text of a 16-byte value, as [uuid_parse] collects
    them, are the digits of its bytes in order. *)
Lemma uuid_text_digits upper (u : uuid_t) :
  let s := uuid_text upper (vec_to_list u) in
  is_hyphen (s !! 8%nat) && is_hyphen (s !! 13%nat)
  && is_hyphen (s !! 18%nat) && is_hyphen (s !! 23%nat) = true
  /\ take 8 s ++ take 4 (drop 9 s) ++ take 4 (drop 14 s) ++ take 4 (drop 19 s)
     ++ drop 24 s
     = hex_bytes upper (vec_to_list u).
Proof.
  unfold sizeof_uuid_t in u. cbv zeta. inv_vec u; intros.
  unfold uuid_text, hex_bytes. cbn [vec_to_list take drop map concat].
  repeat match goal with
         | |- context [hex_byte upper ?b] =>
             let Hb := fresh in
             destruct (hex_byte_value upper b) as (? & ? & ? & ? & Hb & _);
             rewrite Hb; clear Hb
         end.
  split; reflexivity.
Qed.

Lemma uuid_parse_uuid_text upper (u : uuid_t) rest :
  uuid_parse (uuid_text upper (vec_to_list u) ++ x00 :: rest) = Some u.
Proof.
  unfold uuid_parse. rewrite c_string_uuid_text, uuid_text_length.
  destruct (uuid_text_digits upper u) as [Hhyphens Hdigits].
  cbn [Nat.eqb andb]. rewrite Hhyphens, Hdigits, parse_hex_bytes_hex_bytes.
  by rewrite memcpy_vec_to_list.
Qed.

Lemma c_string_length buf : (length (c_string buf) <= length buf)%nat.
Proof.
  induction buf as [ | b buf IH ]; [ done | ].
  cbn [c_string]. destruct (Byte.eqb b x00); cbn [length]; lia.
Qed.

Lemma uuid_parse_length text u :
  uuid_parse text = Some u -> length (c_string text) = 36%nat.
Proof.
  unfold uuid_parse. destruct (length (c_string text) =? 36)%nat eqn:Hlen; [ | done ].
  intros _. by apply Nat.eqb_eq.
Qed.

Lemma c_string_app_nul s rest : c_string (s ++ x00 :: rest) = c_string s.
Proof.
  induction s as [ | b s IH ]; [ done | ].
  cbn [app c_string]. destruct (Byte.eqb b x00); [ done | by rewrite IH ].
Qed.

(** ** The two registry queries, in full *)

Lemma cpid_get_serial_number_available {n} (buffer : array n) sn w :
  platform_expert_ok = true -> platform_serial_number = Some sn ->
  (length sn < n)%nat ->
  cpid_get_serial_number (Some buffer) w
  = Ret (RETURN_SUCCESS, Some (memcpy (sn ++ [x00]) buffer)) w.
Proof.
  intros Hexpert Hserial Hfits. unfold cpid_get_serial_number.
  replace (n =? 0)%nat with false by (symmetry; apply Nat.eqb_neq; lia).
  unfold IOServiceGetMatchingService. rewrite Hexpert.
  destruct (alloc_run IoObject w) as (l & Hfresh & Halloc).
  rewrite bind_assoc, (bind_run _ _ _ _ _ Halloc), ret_run.
  match goal with
  | |- context [bind _ (fun p => bind (IOObjectRelease _) (fun _ => @?k p)) _] =>
      destruct (property_run platform_serial_number k w l Hfresh)
        as (cf & w2 & Hrun & Htr & Hcf)
  end.
  rewrite Hrun. clear Hrun. rewrite Hserial in Hcf.
  destruct Hcf as (l' & -> & Hfresh' & Hheap).
  assert (Hcf : heap w2 !! l' = Some (CfString sn))
    by (rewrite Hheap; apply lookup_insert_eq).
  assert (Hw : World (delete l' (heap w2)) (trace w2) = w).
  { rewrite Hheap, Htr, <- (world_eta w). f_equal. cbn [heap]. heap_eq. }
  rewrite (bind_run _ _ _ _ _ (CFStringGetCString_run _ _ _ buffer Hcf)).
  replace (length sn + 1 <=? n)%nat with true by (symmetry; apply Nat.leb_le; lia).
  by rewrite (bind_run _ _ _ _ _ (CFRelease_run _ _ _ Hcf)), Hw.
Qed.

Lemma cpid_get_hardware_uuid_available text u w :
  hardware_uuid_available text u ->
  cpid_get_hardware_uuid OutArray w = Ret (RETURN_SUCCESS, Some u) w.
Proof.
  intros (Hroot & Htext & Hfits & Hparse).
  unfold cpid_get_hardware_uuid. cbn [is_null_out].
  unfold IORegistryEntryFromPath. rewrite Hroot.
  destruct (alloc_run IoObject w) as (l & Hfresh & Halloc).
  rewrite bind_assoc, (bind_run _ _ _ _ _ Halloc), ret_run.
  match goal with
  | |- context [bind _ (fun p => bind (IOObjectRelease _) (fun _ => @?k p)) _] =>
      destruct (property_run platform_uuid k w l Hfresh)
        as (cf & w2 & Hrun & Htr & Hcf)
  end.
  rewrite Hrun. clear Hrun. rewrite Htext in Hcf.
  destruct Hcf as (l' & -> & Hfresh' & Hheap).
  assert (Hcf : heap w2 !! l' = Some (CfString text))
    by (rewrite Hheap; apply lookup_insert_eq).
  assert (Hw : World (delete l' (heap w2)) (trace w2) = w).
  { rewrite Hheap, Htr, <- (world_eta w). f_equal. cbn [heap]. heap_eq. }
  rewrite (bind_run _ _ _ _ _ (CFStringGetCString_run _ _ _ _ Hcf)).
  replace (length text + 1 <=? sizeof_uuid_string_t)%nat with true
    by (symmetry; apply Nat.leb_le; lia).
  rewrite (bind_run _ _ _ _ _ (CFRelease_run _ _ _ Hcf)), Hw. cbn [negb].
  by rewrite Hparse.
Qed.

(** X1: neither registry query leaves a trace in memory: for every argument
    and every answer of IOKit and CoreFoundation, [cpid_get_serial_number]
    and [cpid_get_hardware_uuid] return, and the registry entry and the
    string they acquired have been released; no other object is touched and
    no process-table query or digest call is made. *)
Theorem cpid_registry_queries_release_all :
  (forall n (serial_number : option (array n)) w,
     exists result, cpid_get_serial_number serial_number w = Ret result w)
  /\ (forall hardware_uuid w,
        exists result, cpid_get_hardware_uuid hardware_uuid w = Ret result w).
Proof.
  split.
  - intros n [buffer|] w; [ | by eexists ].
    destruct (cpid_get_serial_number_run buffer w) as (result & Hrun & _). eauto.
  - intros [ | ] w; [ by eexists | ].
    destruct (cpid_get_hardware_uuid_run w) as (result & Hrun & _). eauto.
Qed.

Lemma memcpy_terminated {n} (s : list byte) (buffer : array n) :
  (length s < n)%nat ->
  vec_to_list (memcpy (s ++ [x00]) buffer)
  = s ++ x00 :: drop (S (length s)) (vec_to_list buffer).
Proof.
  intros Hfits. rewrite memcpy_to_list.
  rewrite take_ge by (rewrite length_app; cbn; lia).
  rewrite length_app, <- app_assoc. cbn [length app].
  by replace (length s + 1)%nat with (S (length s)) by lia.
Qed.

(** The registry text of the hardware UUID survives the way through the
    37-byte receive buffer when it has exactly 36 characters. *)
Lemma hardware_uuid_text_length text u :
  hardware_uuid_available text u -> length text = 36%nat.
Proof.
  intros (_ & _ & Hfits & Hparse). apply uuid_parse_length in Hparse.
  rewrite memcpy_terminated in Hparse by done.
  rewrite c_string_app_nul in Hparse.
  pose proof (c_string_length text). unfold sizeof_uuid_string_t in Hfits. lia.
Qed.

(** X3: the hardware UUID is read back from its registry text: when the
    registry holds the text of a 16-byte value in the usual 8-4-4-4-12 form,
    in upper or in lower case, [cpid_get_hardware_uuid] succeeds and
    delivers exactly these 16 bytes. *)
Theorem cpid_get_hardware_uuid_round_trip upper (u : uuid_t) w :
  registry_root_ok = true ->
  platform_uuid = Some (uuid_text upper (vec_to_list u)) ->
  cpid_get_hardware_uuid OutArray w = Ret (RETURN_SUCCESS, Some u) w.
Proof.
  intros Hroot Htext. eapply cpid_get_hardware_uuid_available.
  split; [ done | ]. split; [ done | ].
  rewrite uuid_text_length. split; [ unfold sizeof_uuid_string_t; lia | ].
  rewrite memcpy_terminated by (rewrite uuid_text_length; unfold sizeof_uuid_string_t; lia).
  apply uuid_parse_uuid_text.
Qed.

(** X4: a registry value that is not 36 characters long is never accepted as
    the hardware UUID: the call returns [RETURN_ERROR] and writes nothing,
    whether the value is too long for the receive buffer or too short to
    parse. *)
Theorem cpid_get_hardware_uuid_wrong_length text hardware_uuid w :
  platform_uuid = Some text -> length text <> 36%nat ->
  cpid_get_hardware_uuid hardware_uuid w = Ret (RETURN_ERROR, None) w.
Proof.
  intros Htext Hlen. destruct hardware_uuid; [ done | ].
  destruct (cpid_get_hardware_uuid_run w) as (result & Hrun & Hcases).
  rewrite Hrun. destruct Hcases as [-> | (text' & u & -> & Havailable)]; [ done | ].
  pose proof (hardware_uuid_text_length _ _ Havailable) as Hlen'.
  destruct Havailable as (_ & Htext' & _). congruence.
Qed.

(** ** The creation time of a process *)

Lemma cpid_get_process_creation_time_available pid t w :
  creation_time_available pid t ->
  cpid_get_process_creation_time pid OutArray w
  = Ret (RETURN_SUCCESS, Some t)
      (World (heap w) (trace w ++ [SysctlProc (int_of_uint32 pid)])).
Proof.
  intros (Hp & Hrc & Hpid & Hsame & Hsec & Husec & ->).
  unfold cpid_get_process_creation_time, sysctl_kern_proc_pid, emit, bind, ret.
  replace (MAX_PID <? pid) with false by (symmetry; apply Z.ltb_ge; lia).
  cbn [orb is_null_out].
  destruct (process_table (int_of_uint32 pid)) as [rc info]. cbn [fst snd] in *.
  subst rc. cbn [Z.eqb negb].
  replace (p_pid info <? 0) with false by (symmetry; apply Z.ltb_ge; lia).
  rewrite Hsame, Z.eqb_refl. cbn [negb orb].
  replace (p_starttime_tv_sec info =? 0) with false by (symmetry; apply Z.eqb_neq; lia).
  replace (p_starttime_tv_sec info <? 0) with false by (symmetry; apply Z.ltb_ge; lia).
  replace (p_starttime_tv_usec info <? 0) with false by (symmetry; apply Z.ltb_ge; lia).
  reflexivity.
Qed.

Lemma cpid_get_process_creation_time_null pid w :
  cpid_get_process_creation_time pid OutNull w = Ret (RETURN_ERROR, None) w.
Proof.
  unfold cpid_get_process_creation_time. cbn [is_null_out]. by rewrite orb_true_r.
Qed.

(** The signed pid handed to [sysctl] is the pid asked for, thanks to the
    bound checked first. *)
Lemma int_of_uint32_small pid :
  MAX_PID < 2 ^ 31 -> pid <= MAX_PID -> int_of_uint32 pid = pid.
Proof.
  intros Hmax Hp. unfold int_of_uint32.
  by replace (pid <? 2 ^ 31) with true by (symmetry; apply Z.ltb_lt; lia).
Qed.

(** ** The life of a handle *)


Lemma cpid_make_uuid_in_use before h w pid seconds micros uuid :
  in_use before h (heap w) ->
  exists result w',
    cpid_make_uuid (Some h) pid seconds micros uuid w = Ret result w'
    /\ in_use before h (heap w').
Proof.
  intros Huse.
  destruct (cpid_make_uuid_valid_or_not (Some h) pid micros uuid)
    as [(h' & [= <-] & -> & Hp & Hm) | Hbad].
  - pose proof Huse as (s & c & st & m & ? & ? & ? & ? & ? & ? & Hc & Hmd & Hheap).
    assert (Hready : ready w h s c st m).
    { unfold ready. rewrite Hheap. split_and!; try done.
      - apply lookup_insert_eq.
      - by rewrite lookup_insert_ne, lookup_insert_eq by done.
      - by rewrite !lookup_insert_ne, lookup_insert_eq by done. }
    destruct (cpid_make_uuid_run _ _ _ _ _ _ _ seconds _ Hready Hp Hm)
      as (w' & Hrun & _ & s' & st' & Hheap' & Hc' & Hmd' & _).
    eexists _, w'. split; [ exact Hrun | ].
    exists s', c, st', m. split_and!; try done; try congruence.
    rewrite Hheap', Hheap. heap_eq.
  - rewrite (cpid_make_uuid_invalid _ _ seconds _ _ w Hbad). eauto.
Qed.

Lemma make_uuid_calls_in_use before h calls w :
  in_use before h (heap w) ->
  exists results w',
    make_uuid_calls h calls w = Ret results w'
    /\ length results = length calls
    /\ in_use before h (heap w').
Proof.
  revert w. induction calls as [ | [[[pid seconds] micros] uuid] calls IH ];
    intros w Huse.
  - exists [], w. done.
  - destruct (cpid_make_uuid_in_use before h w pid seconds micros uuid Huse)
      as (result & w1 & Hrun & Huse1).
    destruct (IH w1 Huse1) as (results & w' & Hruns & Hlen & Huse').
    exists (result :: results), w'. cbn [make_uuid_calls].
    rewrite (bind_run _ _ _ _ _ Hrun), (bind_run _ _ _ _ _ Hruns).
    split; [ done | ]. split; [ cbn [length]; lia | done ].
Qed.

Lemma cpid_finalize_in_use before h w :
  in_use before h (heap w) ->
  cpid_finalize (Some h) w = Ret tt (World before (trace w)).
Proof.
  intros (s & c & st & m & ? & ? & ? & ? & ? & ? & Hc & Hm & Hheap).
  assert (Hh : heap w !! h = Some (Handle s))
    by (rewrite Hheap; apply lookup_insert_eq).
  assert (Hlive : pointers_live w s).
  { split; intros l Hl.
    - assert (l = c) as -> by congruence. exists st. rewrite Hheap.
      by rewrite lookup_insert_ne, lookup_insert_eq by done.
    - assert (l = m) as -> by congruence. rewrite Hheap.
      by rewrite !lookup_insert_ne, lookup_insert_eq by done. }
  rewrite (cpid_finalize_run _ _ _ Hh Hlive), Hc, Hm, Hheap. cbn [release_ptr].
  f_equal. f_equal. heap_eq.
Qed.

(** Once released, a handle is gone: what used to be its block is no
    object any more. *)
Lemma cpid_finalize_releases_block h w u w' :
  cpid_finalize (Some h) w = Ret u w' -> heap w' !! h = None.
Proof.
  intros Hrun.
  destruct (cpid_finalize_inv _ _ _ _ Hrun) as (s & Hh & Hlive).
  rewrite (cpid_finalize_run _ _ _ Hh Hlive) in Hrun. injection Hrun as _ <-.
  cbn [heap]. apply lookup_delete_eq.
Qed.

Lemma cpid_make_uuid_dead h pid seconds micros w :
  heap w !! h = None -> pid <= MAX_PID -> micros <= MAX_MICROS_OFFSET ->
  cpid_make_uuid (Some h) pid seconds micros OutArray w = Fault.
Proof.
  intros Hh Hp Hm. unfold cpid_make_uuid.
  apply Z.ltb_ge in Hp. apply Z.ltb_ge in Hm. rewrite Hp, Hm.
  cbn [orb is_null_out]. unfold update_handle, load_handle, load, bind at 1 2 3.
  by rewrite Hh.
Qed.

Lemma cpid_get_uuid_string_of_uuid lh pid u w w' :
  cpid_get_uuid lh pid OutArray w = Ret (RETURN_SUCCESS, Some u) w' ->
  cpid_get_uuid_string lh pid OutArray w
  = Ret (RETURN_SUCCESS, Some (vmap tolower (uuid_unparse unparse_upper_case u))) w'.
Proof.
  intros Hget. unfold cpid_get_uuid_string.
  destruct lh as [h|]; [ | unfold cpid_get_uuid, ret in Hget; cbn in Hget; discriminate ].
  cbn [is_null is_null_out orb].
  rewrite (bind_run _ _ _ _ _ Hget). by rewrite Z.eqb_refl.
Qed.


(** X9: a released handle cannot be used again: after [cpid_finalize] has
    returned, a derivation on the same handle with a non-null output and
    arguments in range reads the released block, which C leaves undefined;
    this holds for [cpid_make_uuid] and, for a process whose creation time
    is found, for [cpid_get_uuid] and [cpid_get_uuid_string]. *)
Theorem cpid_use_after_finalize h w u w' pid seconds micros :
  cpid_finalize (Some h) w = Ret u w' ->
  pid <= MAX_PID ->
  (micros <= MAX_MICROS_OFFSET ->
   cpid_make_uuid (Some h) pid seconds micros OutArray w' = Fault)
  /\ (forall t, creation_time_available pid t ->
                uint32_of (micros_offset t) <= MAX_MICROS_OFFSET ->
                cpid_get_uuid (Some h) pid OutArray w' = Fault
                /\ cpid_get_uuid_string (Some h) pid OutArray w' = Fault).
Proof.
  intros Hdead%cpid_finalize_releases_block Hp.
  split; [ intros Hm; by apply cpid_make_uuid_dead | ].
  intros t Ht Hm.
  assert (Hget : cpid_get_uuid (Some h) pid OutArray w' = Fault).
  { unfold cpid_get_uuid. cbn [is_null is_null_out orb].
    rewrite (bind_run _ _ _ _ _ (cpid_get_process_creation_time_available _ _ w' Ht)).
    rewrite Z.eqb_refl. cbn [negb]. unfold bind at 1.
    by rewrite cpid_make_uuid_dead. }
  split; [ done | ].
  unfold cpid_get_uuid_string. cbn [is_null is_null_out orb].
  unfold bind at 1. by rewrite Hget.
Qed.

(** ** The record as a byte string *)

Lemma process_creation_time_bytes_length t :
  length (process_creation_time_bytes t) = 16%nat.
Proof. unfold process_creation_time_bytes. by rewrite length_app, !le64_length. Qed.

Lemma process_creation_time_bytes_inj t1 t2 rest1 rest2 :
  time_in_range t1 -> time_in_range t2 ->
  process_creation_time_bytes t1 ++ rest1 = process_creation_time_bytes t2 ++ rest2 ->
  t1 = t2 /\ rest1 = rest2.
Proof.
  intros [Hs1 Hm1] [Hs2 Hm2]. unfold process_creation_time_bytes.
  rewrite <- !app_assoc.
  intros [Hs Hrest]%app_inj_1; [ | by rewrite !le64_length ].
  apply app_inj_1 in Hrest as [Hm Hrest]; [ | by rewrite !le64_length ].
  apply le64_inj in Hs; [ | done | done ]. apply le64_inj in Hm; [ | done | done ].
  destruct t1, t2. cbn in *. by subst.
Qed.

(** X13: the record fed to the hash determines every one of its fields: two
    records whose integer members hold values of their type ([uint64_t]) and
    that differ in the serial number, the hardware UUID, one of the three
    creation times or the pid are different byte strings, so that different
    processes, or the same pid started at another time, never hash the same
    input. *)
Theorem digest_input_content_bytes_injective (r1 r2 : digest_input_content_t) :
  record_in_range r1 -> record_in_range r2 ->
  digest_input_content_bytes r1 = digest_input_content_bytes r2 ->
  r1 = r2.
Proof.
  intros (Hk1 & Hl1 & Hp1 & Hpid1) (Hk2 & Hl2 & Hp2 & Hpid2).
  unfold digest_input_content_bytes.
  intros [Hserial Hrest]%app_inj_1; [ | by rewrite !length_vec_to_list ].
  apply app_inj_1 in Hrest as [Huuid Hrest]; [ | by rewrite !length_vec_to_list ].
  apply process_creation_time_bytes_inj in Hrest as [Hk Hrest]; [ | done | done ].
  apply process_creation_time_bytes_inj in Hrest as [Hl Hrest]; [ | done | done ].
  apply process_creation_time_bytes_inj in Hrest as [Hp Hpid]; [ | done | done ].
  apply le64_inj in Hpid; [ | done | done ].
  apply vec_to_list_inj2 in Hserial, Huuid.
  destruct r1, r2. cbn in *. by subst.
Qed.

(** ** The first identifier of a fresh handle *)

Lemma memcpy_zeroed_terminated {n} (s : list byte) :
  (length s < n)%nat ->
  vec_to_list (memcpy (s ++ [x00]) (zeroed n)) = s ++ replicate (n - length s) x00.
Proof.
  intros Hfits. rewrite memcpy_terminated by done. f_equal.
  unfold zeroed. rewrite vec_to_list_replicate, drop_replicate.
  by replace (n - length s)%nat with (S (n - S (length s))) by lia.
Qed.

(** ** The identifier in its text *)

Lemma version_digit d :
  hex_byte false (spec_version_imprint d) !! 0%nat = Some "8"%byte.
Proof. by destruct d. Qed.

Lemma variant_digit d :
  exists digit, hex_byte false (spec_variant_imprint d) !! 0%nat = Some digit
                /\ digit ∈ ["8"; "9"; "a"; "b"]%byte.
Proof. destruct d; eexists; (split; [ reflexivity | ]); set_solver. Qed.

Lemma spec_identifier_bytes digest :
  length digest = 32%nat ->
  length (spec_identifier digest) = 16%nat
  /\ spec_identifier digest !! 6%nat = Some (spec_version_imprint (digest !!! 6%nat))
  /\ spec_identifier digest !! 8%nat = Some (spec_variant_imprint (digest !!! 8%nat)).
Proof.
  intros Hlen. unfold spec_identifier.
  rewrite !length_insert, length_take, Hlen. split; [ done | ].
  split.
  - rewrite list_lookup_insert_ne by done. apply list_lookup_insert_eq.
    rewrite length_take. lia.
  - apply list_lookup_insert_eq. rewrite length_insert, length_take. lia.
Qed.

(** In the text of 16 bytes, the characters at the offsets 14 and 19 are
    the first digits of the bytes 6 and 8. *)
Lemma uuid_text_digits_6_8 upper (u : uuid_t) b6 b8 :
  vec_to_list u !! 6%nat = Some b6 -> vec_to_list u !! 8%nat = Some b8 ->
  uuid_text upper (vec_to_list u) !! 14%nat = hex_byte upper b6 !! 0%nat
  /\ uuid_text upper (vec_to_list u) !! 19%nat = hex_byte upper b8 !! 0%nat.
Proof.
  unfold sizeof_uuid_t in u. inv_vec u; intros.
  cbn [vec_to_list] in *. simplify_eq/=.
  unfold uuid_text, hex_bytes. cbn [take drop map concat].
  repeat match goal with
         | |- context [hex_byte upper ?b] =>
             let Hb := fresh in
             destruct (hex_byte_value upper b) as (? & ? & ? & ? & Hb & _);
             rewrite Hb; clear Hb
         end.
  split; reflexivity.
Qed.

(** ** What [cpid_initialize] asks the process table *)

(** The steps of the block that make no observable call. *)
Lemma update_handle_trace l f w u w' :
  update_handle l f w = Ret u w' -> trace w' = trace w.
Proof. by intros (s & _ & ->)%update_handle_inv. Qed.

Lemma load_handle_trace l w s w' : load_handle l w = Ret s w' -> trace w' = trace w.
Proof. by intros [_ ->]%load_handle_inv. Qed.

Lemma EVP_MD_fetch_trace w p w' : EVP_MD_fetch w = Ret p w' -> trace w' = trace w.
Proof.
  unfold EVP_MD_fetch, alloc, bind, ret. destruct md_fetch_ok; by intros [= _ <-].
Qed.

Lemma EVP_MD_CTX_new_trace w p w' : EVP_MD_CTX_new w = Ret p w' -> trace w' = trace w.
Proof.
  unfold EVP_MD_CTX_new, alloc, bind, ret. destruct md_ctx_new; by intros [= _ <-].
Qed.

Lemma write_back_trace {A : Type} h (written : option A) set w u w' :
  write_back h written set w = Ret u w' -> trace w' = trace w.
Proof.
  destruct written; cbn [write_back]; [ apply update_handle_trace | by intros [= _ <-] ].
Qed.

Lemma cpid_get_serial_number_trace {n} (buffer : array n) w result w' :
  cpid_get_serial_number (Some buffer) w = Ret result w' -> trace w' = trace w.
Proof.
  destruct (cpid_get_serial_number_run buffer w) as (result' & -> & _).
  by intros [= _ <-].
Qed.

Lemma cpid_get_hardware_uuid_trace w result w' :
  cpid_get_hardware_uuid OutArray w = Ret result w' -> trace w' = trace w.
Proof.
  destruct (cpid_get_hardware_uuid_run w) as (result' & -> & _). by intros [= _ <-].
Qed.

Lemma cpid_finalize_trace h w u w' :
  cpid_finalize (Some h) w = Ret u w' -> trace w' = trace w.
Proof.
  intros Hrun. destruct (cpid_finalize_inv _ _ _ _ Hrun) as (s & Hh & Hlive).
  rewrite (cpid_finalize_run _ _ _ Hh Hlive) in Hrun. by injection Hrun as _ <-.
Qed.

Lemma calloc_cpid_struct_trace w p w' :
  calloc_cpid_struct w = Ret p w' -> trace w' = trace w.
Proof.
  unfold calloc_cpid_struct, alloc, bind, ret. destruct calloc_ok; by intros [= _ <-].
Qed.

(** ** The same process, asked about again *)



Section FurtherReturnCodes.

Hypothesis return_codes_differ : RETURN_SUCCESS <> RETURN_ERROR.

(** ** Further properties that need the two return codes to differ *)

(** X2: [cpid_get_serial_number] succeeds exactly when the buffer is not
    [NULL], the platform expert device is found, it has a serial number, and
    the serial number with its terminating NUL fits the buffer.  The buffer
    then holds the serial number, a NUL, and behind it the bytes it held
    before.  A serial number that fills the buffer to its last byte is an
    error, not a truncation. *)
Theorem cpid_get_serial_number_fits {n} (serial_number : option (array n)) w r out w' :
  cpid_get_serial_number serial_number w = Ret (r, out) w' ->
  (r = RETURN_SUCCESS
   <-> exists buffer sn,
         serial_number = Some buffer /\ platform_expert_ok = true
         /\ platform_serial_number = Some sn /\ (length sn < n)%nat)
  /\ (forall buffer sn,
        serial_number = Some buffer -> platform_expert_ok = true ->
        platform_serial_number = Some sn -> (length sn < n)%nat ->
        exists written,
          out = Some written
          /\ vec_to_list written
             = sn ++ x00 :: drop (S (length sn)) (vec_to_list buffer)
          /\ c_string (vec_to_list written) = c_string sn)
  /\ (forall sn, platform_serial_number = Some sn -> (n <= length sn)%nat ->
                 r = RETURN_ERROR).
Proof.
  intros Hrun.
  assert (Hgood : forall buffer sn,
    serial_number = Some buffer -> platform_expert_ok = true ->
    platform_serial_number = Some sn -> (length sn < n)%nat ->
    r = RETURN_SUCCESS /\ out = Some (memcpy (sn ++ [x00]) buffer)).
  { intros buffer sn -> Hexpert Hserial Hfits.
    rewrite (cpid_get_serial_number_available buffer sn w Hexpert Hserial Hfits) in Hrun.
    by injection Hrun as <- <- _. }
  assert (Hbad : r = RETURN_ERROR
                 \/ exists buffer sn,
                      serial_number = Some buffer /\ platform_expert_ok = true
                      /\ platform_serial_number = Some sn /\ (length sn < n)%nat).
  { destruct serial_number as [buffer|].
    - destruct (cpid_get_serial_number_run buffer w) as (result & Hrun' & Hcases).
      rewrite Hrun in Hrun'. injection Hrun' as <- _.
      destruct Hcases as [Hr | (sn & _ & ? & ? & ?)]; [ by left | right; eauto 10 ].
    - left. by injection Hrun as <- _ _. }
  split; [ split | split ].
  - intros ->. by destruct Hbad.
  - intros (buffer & sn & Hb & Hexpert & Hserial & Hfits).
    by destruct (Hgood buffer sn Hb Hexpert Hserial Hfits).
  - intros buffer sn Hb Hexpert Hserial Hfits.
    destruct (Hgood buffer sn Hb Hexpert Hserial Hfits) as [_ ->].
    eexists. split; [ done | ]. rewrite memcpy_terminated by done.
    split; [ done | apply c_string_app_nul ].
  - intros sn Hserial Hlong.
    destruct Hbad as [ | (buffer & sn' & _ & _ & Hserial' & Hfits) ]; [ done | ].
    rewrite Hserial in Hserial'. injection Hserial' as <-. lia.
Qed.

(** X5: [cpid_get_process_creation_time] never changes memory and asks the
    process table at most once: not at all for a [NULL] output or a pid
    above [MAX_PID], and, [MAX_PID] being below 2^31, for the very pid it
    was given otherwise.  It succeeds exactly when the table answers
    without error with an entry that carries this pid and a start time with
    positive seconds and non-negative microseconds, and then returns this
    start time; in every other case it returns [RETURN_ERROR] and writes
    nothing. *)
Theorem cpid_get_process_creation_time_lookup pid out w :
  exists result events,
    cpid_get_process_creation_time pid out w
    = Ret result (World (heap w) (trace w ++ events))
    /\ (events = []
        \/ (out = OutArray /\ pid <= MAX_PID
            /\ events = [SysctlProc (int_of_uint32 pid)]
            /\ (MAX_PID < 2 ^ 31 -> events = [SysctlProc pid])))
    /\ (result = (RETURN_ERROR, None)
        \/ exists t, result = (RETURN_SUCCESS, Some t)
                     /\ 0 < unix_epoch_seconds t /\ 0 <= micros_offset t)
    /\ (result.1 = RETURN_SUCCESS
        <-> out = OutArray /\ exists t, creation_time_available pid t)
    /\ (forall t, out = OutArray -> creation_time_available pid t ->
                  result = (RETURN_SUCCESS, Some t)).
Proof.
  destruct out.
  { exists (RETURN_ERROR, None), [].
    rewrite app_nil_r, world_eta.
    split; [ apply cpid_get_process_creation_time_null | ].
    split; [ by left | ]. split; [ by left | ].
    split; [ | done ]. cbn [fst]. split; [ done | by intros [? _] ]. }
  destruct (cpid_get_process_creation_time_run pid w) as (result & Hrun & Hcases).
  exists result, (if MAX_PID <? pid then [] else [SysctlProc (int_of_uint32 pid)]).
  split; [ exact Hrun | ].
  assert (Hgood : forall t, creation_time_available pid t ->
                            result = (RETURN_SUCCESS, Some t)).
  { intros t Ht.
    rewrite (cpid_get_process_creation_time_available _ _ w Ht) in Hrun.
    by injection Hrun as <- _. }
  split.
  { destruct (MAX_PID <? pid) eqn:Hp; [ by left | right ].
    apply Z.ltb_ge in Hp. split_and!; try done.
    intros Hmax. by rewrite int_of_uint32_small. }
  split.
  { destruct Hcases as [-> | (t & -> & Ht)]; [ by left | right ].
    exists t. split; [ done | ].
    destruct Ht as (_ & _ & _ & _ & ? & ? & ->). done. }
  split; [ | intros t _; apply Hgood ].
  split.
  - intros Hr. split; [ done | ].
    destruct Hcases as [-> | (t & _ & Ht)]; [ done | eauto ].
  - intros (_ & t & Ht). by rewrite (Hgood t Ht).
Qed.

(** ** [cpid_get_uuid] as a composition *)

(** X6: for a process whose creation time the process table reports,
    [cpid_get_uuid] is [cpid_make_uuid] called with this pid, the seconds
    and the microseconds of that time, after the one process-table query:
    same return code, same bytes written, same state afterwards, and the
    same undefined behaviour on a handle that is not live. *)
Theorem cpid_get_uuid_is_make_uuid h pid t w :
  creation_time_available pid t ->
  cpid_get_uuid (Some h) pid OutArray w
  = cpid_make_uuid (Some h) pid (unix_epoch_seconds t) (uint32_of (micros_offset t))
      OutArray (World (heap w) (trace w ++ [SysctlProc (int_of_uint32 pid)])).
Proof.
  intros Ht. unfold cpid_get_uuid. cbn [is_null is_null_out orb].
  rewrite (bind_run _ _ _ _ _ (cpid_get_process_creation_time_available _ _ w Ht)).
  rewrite Z.eqb_refl. cbn [negb]. unfold bind at 1.
  destruct (cpid_make_uuid _ _ _ _ _ _) as [[r out] w'|] eqn:Hmake; [ | done ].
  destruct (cpid_make_uuid_shape _ _ _ _ _ _ _ _ _ Hmake)
    as [[-> ->] | [-> (u & ->)]].
  - by rewrite success_eqb_error.
  - by rewrite Z.eqb_refl.
Qed.

Lemma cpid_get_uuid_unavailable lh pid uuid w :
  (forall t, ~ creation_time_available pid t) ->
  exists events,
    cpid_get_uuid lh pid uuid w
    = Ret (RETURN_ERROR, None) (World (heap w) (trace w ++ events))
    /\ (events = [] \/ events = [SysctlProc (int_of_uint32 pid)]).
Proof.
  intros Hnone. unfold cpid_get_uuid.
  destruct (is_null lh || is_null_out uuid).
  { exists []. rewrite app_nil_r, world_eta. auto. }
  destruct (cpid_get_process_creation_time_run pid w) as (result & Hrun & Hcases).
  rewrite (bind_run _ _ _ _ _ Hrun).
  destruct Hcases as [-> | (t & _ & Ht)]; [ | by destruct (Hnone t) ].
  rewrite (success_eqb_error return_codes_differ). cbn [negb].
  eexists. split; [ reflexivity | ]. destruct (MAX_PID <? pid); auto.
Qed.

(** X7: for a process the process table does not report (no entry, another
    pid in the entry, no start time), [cpid_get_uuid] and
    [cpid_get_uuid_string] return [RETURN_ERROR] and write nothing, whatever
    the handle: memory is unchanged, the handle is not even read, no digest
    call is made, and the process table has been asked at most once. *)
Theorem cpid_get_uuid_unknown_process lh pid uuid uuid_string w :
  (forall t, ~ creation_time_available pid t) ->
  exists events events',
    cpid_get_uuid lh pid uuid w
    = Ret (RETURN_ERROR, None) (World (heap w) (trace w ++ events))
    /\ cpid_get_uuid_string lh pid uuid_string w
       = Ret (RETURN_ERROR, None) (World (heap w) (trace w ++ events'))
    /\ (events = [] \/ events = [SysctlProc (int_of_uint32 pid)])
    /\ (events' = [] \/ events' = [SysctlProc (int_of_uint32 pid)]).
Proof.
  intros Hnone.
  destruct (cpid_get_uuid_unavailable lh pid uuid w Hnone) as (events & Hget & Hevents).
  exists events.
  unfold cpid_get_uuid_string.
  destruct (is_null lh || is_null_out uuid_string).
  { exists []. rewrite (app_nil_r (trace w)), world_eta. auto. }
  destruct (cpid_get_uuid_unavailable lh pid OutArray w Hnone)
    as (events' & Hget' & Hevents').
  exists events'. rewrite (bind_run _ _ _ _ _ Hget').
  rewrite (success_eqb_error return_codes_differ). auto.
Qed.

Lemma cpid_initialize_success w h w' :
  cpid_initialize w = Ret (Some h) w' ->
  exists s c st m,
    heap w !! h = None /\ heap w !! c = None /\ heap w !! m = None
    /\ m <> h /\ c <> h /\ c <> m
    /\ digest_context s = Some c /\ sha256 s = Some m
    /\ md_ctx_new = Some st
    /\ heap w' = <[h := Handle s]> (<[c := EvpMdCtx st]> (<[m := EvpMd]> (heap w)))
    /\ fully_populated s.
Proof.
  unfold cpid_initialize, calloc_cpid_struct.
  destruct calloc_ok; [ | intros [=] ].
  destruct (alloc_run (Handle zeroed_cpid_struct) w) as (h' & Hfresh & Halloc).
  rewrite bind_assoc, (bind_run _ _ _ _ _ Halloc), ret_run.
  destruct (cpid_initialize_block_run return_codes_differ (heap w) h'
              (World (<[h' := Handle zeroed_cpid_struct]> (heap w)) (trace w))
              Hfresh eq_refl)
    as (rc & w1 & s & Hblock & Hown & Hfull).
  rewrite (bind_run _ _ _ _ _ Hblock).
  destruct (RETURN_SUCCESS =? rc) eqn:Hrc; cbn [negb].
  - intros [= <- <-]. apply Z.eqb_eq in Hrc. specialize (Hfull (eq_sym Hrc)).
    pose proof Hfull as (c & m & st & sn & text & Hc & Hm & _).
    destruct Hown as (_ & [(Hm' & _) | [(m' & _ & Hc' & _)
                            | (m' & c' & st' & Hm' & Hc' & ? & ? & ? & ? & ? & ? & Hheap)]]);
      try congruence.
    assert (m' = m) as -> by congruence. assert (c' = c) as -> by congruence.
    exists s, c, st', m. split_and!; done.
  - rewrite (bind_run _ _ _ _ _ (cpid_finalize_owned _ _ _ _ Hown)). intros [=].
Qed.

Lemma cpid_initialize_in_use w h w' :
  cpid_initialize w = Ret (Some h) w' -> in_use (heap w) h (heap w').
Proof.
  intros (s & c & st & m & Hrest)%cpid_initialize_success.
  exists s, c, st, m. destruct Hrest as (? & ? & ? & ? & ? & ? & ? & ? & _ & ? & _).
  split_and!; done.
Qed.

(** X8: a handle's whole life leaves no trace in memory: after
    [cpid_initialize] has returned a handle, any sequence of
    [cpid_make_uuid] calls on it returns, whatever the arguments and
    whether the calls succeed or fail, and [cpid_finalize] then returns and
    gives back exactly the heap [cpid_initialize] started from: the block,
    the algorithm object and the digest context are released, and nothing
    else has been allocated, changed or released in between. *)
Theorem cpid_life_cycle_restores_heap calls w h w1 :
  cpid_initialize w = Ret (Some h) w1 ->
  exists results w2,
    make_uuid_calls h calls w1 = Ret results w2
    /\ length results = length calls
    /\ cpid_finalize (Some h) w2 = Ret tt (World (heap w) (trace w2)).
Proof.
  intros Huse%cpid_initialize_in_use.
  destruct (make_uuid_calls_in_use (heap w) h calls w1 Huse)
    as (results & w2 & Hruns & Hlen & Huse2).
  exists results, w2. split; [ done | ]. split; [ done | ].
  by apply cpid_finalize_in_use.
Qed.

(** X10: the first identifier of a fresh handle, end to end: the handle
    [cpid_initialize] returns holds the serial number padded with NUL to 16
    bytes, the hardware UUID parsed from its registry text and the creation
    times of the processes 0 and 1, so that the first derivation on it
    hands OpenSSL, on the new digest context, the 88 bytes made of these and
    of the call's seconds, microseconds and pid as little-endian 64-bit
    integers; the call returns, with the identifier made from the digest
    when OpenSSL delivers 32 bytes and with an error when a digest call
    fails. *)
Theorem cpid_first_identifier w h w1 pid seconds micros :
  cpid_initialize w = Ret (Some h) w1 ->
  pid <= MAX_PID -> micros <= MAX_MICROS_OFFSET ->
  exists sn text u tk tl st result w2,
    serial_number_available sn /\ hardware_uuid_available text u
    /\ creation_time_available KERNEL_TASK_PID tk
    /\ creation_time_available LAUNCHD_PID tl
    /\ md_ctx_new = Some st
    /\ let data :=
         (sn ++ replicate (MACOS_SERIAL_NUMBER_BUFFER_SIZE - length sn) x00)
         ++ vec_to_list u
         ++ (le64 (unix_epoch_seconds tk) ++ le64 (micros_offset tk))
         ++ (le64 (unix_epoch_seconds tl) ++ le64 (micros_offset tl))
         ++ (le64 seconds ++ le64 micros)
         ++ le64 pid in
       cpid_make_uuid (Some h) pid seconds micros OutArray w1 = Ret result w2
       /\ length data = 88%nat
       /\ trace w2 = trace w1 ++ digest_events st data
       /\ (forall digest,
             openssl_digest st data = Some digest -> length digest = 32%nat ->
             exists identifier,
               result = (RETURN_SUCCESS, Some identifier)
               /\ vec_to_list identifier = spec_identifier digest)
       /\ (openssl_digest st data = None -> result = (RETURN_ERROR, None)).
Proof.
  intros (s & c & st & m & Hrest)%cpid_initialize_success Hp Hm.
  destruct Hrest as (? & ? & ? & ? & ? & ? & Hc & Hmd & Hnew & Hheap & Hfull).
  assert (Hready : ready w1 h s c st m).
  { unfold ready. rewrite Hheap. split_and!; try done.
    - apply lookup_insert_eq.
    - by rewrite lookup_insert_ne, lookup_insert_eq by done.
    - by rewrite !lookup_insert_ne, lookup_insert_eq by done. }
  destruct Hfull as (c' & m' & st' & sn & text & _ & _ & _ & _ & Hsn & Hserial
                     & Huuid & Hk & Hl).
  destruct (cpid_make_uuid_run _ _ _ _ _ _ _ seconds _ Hready Hp Hm)
    as (w2 & Hrun & Htrace & _).
  assert (Hdata :
    digest_input_content_bytes (set_process pid seconds micros (digest_input_content s))
    = (sn ++ replicate (MACOS_SERIAL_NUMBER_BUFFER_SIZE - length sn) x00)
      ++ vec_to_list (hardware_uuid (digest_input_content s))
      ++ (le64 (unix_epoch_seconds (kernel_task_creation_time (digest_input_content s)))
          ++ le64 (micros_offset (kernel_task_creation_time (digest_input_content s))))
      ++ (le64 (unix_epoch_seconds (launchd_creation_time (digest_input_content s)))
          ++ le64 (micros_offset (launchd_creation_time (digest_input_content s))))
      ++ (le64 seconds ++ le64 micros)
      ++ le64 pid).
  { destruct Hsn as (_ & _ & Hfits).
    rewrite <- (memcpy_zeroed_terminated sn Hfits), <- Hserial.
    by destruct (digest_input_content s). }
  cbv zeta in Hrun, Htrace. rewrite Hdata in Hrun, Htrace.
  eexists sn, text, (hardware_uuid (digest_input_content s)),
    (kernel_task_creation_time (digest_input_content s)),
    (launchd_creation_time (digest_input_content s)), st, _, w2.
  do 5 (split; [ done | ]). cbv zeta.
  split; [ exact Hrun | ]. split; [ | split; [ exact Htrace | split ] ].
  - rewrite <- Hdata. apply digest_input_content_bytes_length.
  - intros digest Hdigest Hlen. unfold make_uuid_answer, SHA256_BUFFER_SIZE.
    rewrite Hdigest, Hlen. cbn [Z.of_nat Pos.of_succ_nat Z.eqb Pos.eqb].
    eexists. split; [ reflexivity | by apply copy_out_imprint ].
  - intros Hdigest. unfold make_uuid_answer. by rewrite Hdigest.
Qed.

(** ** The callers of [cpid_make_uuid], read backwards *)

Lemma cpid_get_uuid_inv lh pid uuid w out w' :
  cpid_get_uuid lh pid uuid w = Ret (RETURN_SUCCESS, out) w' ->
  exists t,
    creation_time_available pid t
    /\ cpid_make_uuid lh pid (unix_epoch_seconds t) (uint32_of (micros_offset t)) uuid
         (World (heap w) (trace w ++ [SysctlProc (int_of_uint32 pid)]))
       = Ret (RETURN_SUCCESS, out) w'.
Proof.
  pose proof (success_eqb_error return_codes_differ) as Hne.
  unfold cpid_get_uuid.
  destruct (is_null lh || is_null_out uuid); [ intros [= ? _ _]; done | ].
  intros ([rc t] & w1 & Htime & Hrun)%bind_inv.
  destruct (cpid_get_process_creation_time_run pid w) as (result & Hrun1 & Hcases).
  rewrite Htime in Hrun1. injection Hrun1 as <- ->.
  destruct Hcases as [[= -> ->] | (t' & [= -> ->] & Ht)].
  - rewrite Hne in Hrun. cbn in Hrun. injection Hrun as ? _ _. done.
  - exists t'. split; [ done | ].
    rewrite Z.eqb_refl in Hrun. cbn [negb] in Hrun.
    apply bind_inv in Hrun as ([rc written] & w2 & Hmake & Hrun).
    destruct Ht as (Hp & _). apply Z.ltb_ge in Hp. rewrite Hp in Hmake.
    rewrite Hmake.
    apply cpid_make_uuid_shape in Hmake as [[-> ->] | [-> (u & ->)]].
    + rewrite Hne in Hrun. cbn in Hrun. injection Hrun as ? _ _. done.
    + rewrite Z.eqb_refl in Hrun. cbn in Hrun. by injection Hrun as <- <-.
Qed.

Lemma cpid_get_uuid_string_inv lh pid uuid_string w out w' :
  cpid_get_uuid_string lh pid uuid_string w = Ret (RETURN_SUCCESS, out) w' ->
  exists u,
    cpid_get_uuid lh pid OutArray w = Ret (RETURN_SUCCESS, Some u) w'
    /\ out = Some (vmap tolower (uuid_unparse unparse_upper_case u)).
Proof.
  pose proof (success_eqb_error return_codes_differ) as Hne.
  unfold cpid_get_uuid_string.
  destruct (is_null lh || is_null_out uuid_string); [ intros [= ? _ _]; done | ].
  intros ([rc uo] & w1 & Hget & Hrun)%bind_inv.
  destruct (cpid_get_uuid_shape return_codes_differ _ _ _ _ _ _ _ Hget)
    as [[-> ->] | [-> (u & ->)]].
  - rewrite Hne in Hrun. cbn in Hrun. injection Hrun as ? _ _. done.
  - rewrite Z.eqb_refl in Hrun. cbn in Hrun. injection Hrun as <- <-. eauto.
Qed.

(** X11: every identifier string shows its version and variant: in every string
    [cpid_get_uuid_string] delivers, the character at offset 14 (the first
    of the third group) is [8], and the character at offset 19 (the first of
    the fourth group) is one of [8], [9], [a] and [b]. *)
Theorem cpid_get_uuid_string_version_variant lh pid uuid_string w str w' :
  cpid_get_uuid_string lh pid uuid_string w = Ret (RETURN_SUCCESS, Some str) w' ->
  vec_to_list str !! 14%nat = Some "8"%byte
  /\ exists digit, vec_to_list str !! 19%nat = Some digit
                   /\ digit ∈ ["8"; "9"; "a"; "b"]%byte.
Proof.
  intros (u & Hget & [= ->])%cpid_get_uuid_string_inv.
  apply cpid_get_uuid_inv in Hget as (t & _ & Hmake).
  apply (cpid_make_uuid_success return_codes_differ) in Hmake
    as (h & s & c & st & m & u' & digest & _ & _ & [= <-] & _ & Hlen & Hu & _).
  destruct (spec_identifier_bytes digest Hlen) as (_ & H6 & H8).
  rewrite <- Hu in H6, H8.
  destruct (uuid_text_digits_6_8 false u _ _ H6 H8) as [H14 H19].
  rewrite lowercase_uuid_unparse.
  rewrite !lookup_app_l by (rewrite uuid_text_length; lia).
  rewrite H14, H19. split; [ apply version_digit | apply variant_digit ].
Qed.

(** X12: the string is the identifier: whenever [cpid_get_uuid_string] succeeds,
    [uuid_parse] reads the 16 bytes [cpid_get_uuid] delivers for the same
    call back from the string, so that two identifiers with the same string
    are the same identifier. *)
Theorem cpid_get_uuid_string_parses_back lh pid uuid_string w out w' :
  cpid_get_uuid_string lh pid uuid_string w = Ret (RETURN_SUCCESS, out) w' ->
  exists u str,
    out = Some str
    /\ cpid_get_uuid lh pid OutArray w = Ret (RETURN_SUCCESS, Some u) w'
    /\ uuid_parse (vec_to_list str) = Some u
    /\ (forall u' : uuid_t,
          uuid_text false (vec_to_list u') = c_string (vec_to_list str) -> u' = u).
Proof.
  intros (u & Hget & ->)%cpid_get_uuid_string_inv.
  eexists u, _. split; [ done | ]. split; [ done | ].
  rewrite lowercase_uuid_unparse.
  split; [ apply uuid_parse_uuid_text | ].
  intros u' Htext. rewrite c_string_uuid_text in Htext.
  pose proof (uuid_parse_uuid_text false u' []) as Hparse'.
  rewrite Htext, uuid_parse_uuid_text in Hparse'. congruence.
Qed.

(** A creation-time query of the block: one entry of the process table is
    asked for when the query succeeds, at most one when it fails. *)
Lemma cpid_get_process_creation_time_trace pid w rc written w' :
  cpid_get_process_creation_time pid OutArray w = Ret (rc, written) w' ->
  (rc = RETURN_SUCCESS /\ trace w' = trace w ++ [SysctlProc (int_of_uint32 pid)])
  \/ (rc = RETURN_ERROR
      /\ (trace w' = trace w
          \/ trace w' = trace w ++ [SysctlProc (int_of_uint32 pid)])).
Proof.
  destruct (cpid_get_process_creation_time_run pid w) as (result & -> & Hcases).
  intros [= -> <-]. cbn [trace].
  destruct Hcases as [[= -> ->] | (t & [= -> ->] & Hp & _)].
  - right. split; [ done | ]. destruct (MAX_PID <? pid); [ left | by right ].
    apply app_nil_r.
  - left. split; [ done | ].
    by replace (MAX_PID <? pid) with false by (symmetry; apply Z.ltb_ge; lia).
Qed.

Lemma cpid_initialize_block_trace h w rc w' :
  cpid_initialize_block h w = Ret rc w' ->
  (rc = RETURN_SUCCESS
   /\ trace w' = trace w ++ [SysctlProc KERNEL_TASK_PID; SysctlProc LAUNCHD_PID])
  \/ (rc <> RETURN_SUCCESS
      /\ (trace w' = trace w
          \/ trace w' = trace w ++ [SysctlProc KERNEL_TASK_PID]
          \/ trace w' = trace w ++ [SysctlProc KERNEL_TASK_PID; SysctlProc LAUNCHD_PID])).
Proof.
  pose proof (success_eqb_error return_codes_differ) as Hne.
  assert (Herr : RETURN_ERROR <> RETURN_SUCCESS) by congruence.
  unfold cpid_initialize_block.
  intros (md & w1 & Htr & Hrun)%bind_inv.
  apply EVP_MD_fetch_trace in Htr. rewrite <- Htr. clear Htr.
  apply bind_inv in Hrun as (u1 & w2 & Htr & Hrun).
  apply update_handle_trace in Htr. rewrite <- Htr. clear Htr.
  destruct (is_null md); [ injection Hrun as <- <-; right; auto | ].
  apply bind_inv in Hrun as (ctx & w3 & Htr & Hrun).
  apply EVP_MD_CTX_new_trace in Htr. rewrite <- Htr. clear Htr.
  apply bind_inv in Hrun as (u2 & w4 & Htr & Hrun).
  apply update_handle_trace in Htr. rewrite <- Htr. clear Htr.
  destruct (is_null ctx); [ injection Hrun as <- <-; right; auto | ].
  apply bind_inv in Hrun as (s & w5 & Htr & Hrun).
  apply load_handle_trace in Htr. rewrite <- Htr. clear Htr.
  (* serial number *)
  apply bind_inv in Hrun as ([rc1 written1] & w6 & Htr & Hrun).
  apply cpid_get_serial_number_trace in Htr. rewrite <- Htr. clear Htr.
  apply bind_inv in Hrun as (u3 & w7 & Htr & Hrun).
  apply write_back_trace in Htr. rewrite <- Htr. clear Htr.
  destruct (RETURN_SUCCESS =? rc1) eqn:Hrc1; cbn [negb] in Hrun.
  2:{ injection Hrun as <- <-. apply Z.eqb_neq in Hrc1. right. split; [ congruence | auto ]. }
  (* hardware UUID *)
  apply bind_inv in Hrun as ([rc2 written2] & w8 & Htr & Hrun).
  apply cpid_get_hardware_uuid_trace in Htr. rewrite <- Htr. clear Htr.
  apply bind_inv in Hrun as (u4 & w9 & Htr & Hrun).
  apply write_back_trace in Htr. rewrite <- Htr. clear Htr.
  destruct (RETURN_SUCCESS =? rc2) eqn:Hrc2; cbn [negb] in Hrun.
  2:{ injection Hrun as <- <-. apply Z.eqb_neq in Hrc2. right. split; [ congruence | auto ]. }
  (* kernel task *)
  apply bind_inv in Hrun as ([rc3 written3] & w10 & Hk & Hrun).
  apply cpid_get_process_creation_time_trace in Hk.
  apply bind_inv in Hrun as (u5 & w11 & Htr & Hrun).
  apply write_back_trace in Htr. rewrite <- Htr in Hk. clear Htr.
  change (int_of_uint32 KERNEL_TASK_PID) with KERNEL_TASK_PID in Hk.
  destruct Hk as [[-> Hk] | [-> Hk]].
  2:{ rewrite Hne in Hrun. cbn [negb] in Hrun. injection Hrun as <- <-.
      right. split; [ done | ]. destruct Hk as [-> | ->]; auto. }
  rewrite Z.eqb_refl in Hrun. cbn [negb] in Hrun.
  (* launchd *)
  apply bind_inv in Hrun as ([rc4 written4] & w12 & Hl & Hrun).
  apply cpid_get_process_creation_time_trace in Hl.
  apply bind_inv in Hrun as (u6 & w13 & Htr & Hrun).
  apply write_back_trace in Htr. rewrite <- Htr in Hl. clear Htr.
  change (int_of_uint32 LAUNCHD_PID) with LAUNCHD_PID in Hl.
  injection Hrun as <- <-. rewrite Hk, <- !app_assoc in Hl. cbn [app] in Hl.
  destruct Hl as [[-> Hl] | [-> [Hl | Hl]]].
  - left. auto.
  - right. split; [ done | ]. right; left. congruence.
  - right. split; [ done | ]. right; right. done.
Qed.

(** X14: [cpid_initialize] asks the process table about the processes 0 and 1
    and about no other: once about each, in this order, when it returns a
    handle; when it returns [NULL], about none, about 0 only, or about 0
    and then 1.  It makes no digest call. *)
Theorem cpid_initialize_queries w r w' :
  cpid_initialize w = Ret r w' ->
  exists events,
    trace w' = trace w ++ events
    /\ (events = [] \/ events = [SysctlProc KERNEL_TASK_PID]
        \/ events = [SysctlProc KERNEL_TASK_PID; SysctlProc LAUNCHD_PID])
    /\ (r <> None -> events = [SysctlProc KERNEL_TASK_PID; SysctlProc LAUNCHD_PID]).
Proof.
  unfold cpid_initialize.
  intros ([h|] & w1 & Htr0 & Hrun)%bind_inv.
  all: apply calloc_cpid_struct_trace in Htr0; rewrite <- Htr0; clear Htr0.
  2:{ injection Hrun as <- <-. exists []. rewrite app_nil_r.
      split; [ done | ]. split; [ auto | done ]. }
  apply bind_inv in Hrun as (rc & w2 & Hblock & Hrun).
  apply cpid_initialize_block_trace in Hblock.
  destruct Hblock as [[-> Htr] | [Hrc Htr]].
  - rewrite Z.eqb_refl in Hrun. cbn [negb] in Hrun. injection Hrun as <- <-.
    eexists. split; [ exact Htr | auto ].
  - rewrite Z_eqb_neq_false in Hrun by congruence. cbn [negb] in Hrun.
    apply bind_inv in Hrun as (u & w3 & Hfin & Hrun).
    apply cpid_finalize_trace in Hfin. injection Hrun as <- <-. rewrite Hfin.
    destruct Htr as [Htr | [Htr | Htr]].
    + exists []. rewrite app_nil_r. split; [ done | ]. split; [ auto | done ].
    + eexists. split; [ exact Htr | ]. split; [ auto | done ].
    + eexists. split; [ exact Htr | ]. split; [ auto | done ].
Qed.



End FurtherReturnCodes.

End Properties.

(** * The model at work *)

#[local] Existing Instance example_constants.
#[local] Existing Instance example_platform.

(** ** SHA-256 test vectors (FIPS 180-4, NIST examples) *)

Example sha256_empty :
  SHA256.sha256 []
  = [xe3; xb0; xc4; x42; x98; xfc; x1c; x14; x9a; xfb; xf4; xc8; x99; x6f; xb9; x24;
     x27; xae; x41; xe4; x64; x9b; x93; x4c; xa4; x95; x99; x1b; x78; x52; xb8; x55].
Proof. vm_compute. reflexivity. Qed.

Example sha256_abc :
  SHA256.sha256 ["a"; "b"; "c"]%byte
  = [xba; x78; x16; xbf; x8f; x01; xcf; xea; x41; x41; x40; xde; x5d; xae; x22; x23;
     xb0; x03; x61; xa3; x96; x17; x7a; x9c; xb4; x10; xff; x61; xf2; x00; x15; xad].
Proof. vm_compute. reflexivity. Qed.

(** ** The reference host *)

Lemma example_codes_differ : RETURN_SUCCESS <> RETURN_ERROR.
Proof. discriminate. Qed.

Lemma example_initialize :
  cpid_initialize (empty_world example_platform) = Ret (Some 1%positive) example_world.
Proof. reflexivity. Qed.

Lemma example_ready :
  ready example_world 1%positive example_handle 3%positive [] 2%positive.
Proof. repeat split; reflexivity. Qed.

Lemma short_digest_ready :
  ready (platform := short_digest_platform)
    short_digest_world 1%positive example_handle 3%positive [] 2%positive.
Proof. repeat split; reflexivity. Qed.

Lemma example_computes_sha256 : openssl_computes SHA256.sha256.
Proof.
  intros st data digest. unfold openssl_digest. cbn. intros [= <-]. reflexivity.
Qed.

(** The scenario of the specification: the identifier of process 4321
    started at (1700000000, 500000), and of the same pid started one
    microsecond later. *)
Example example_identifier :
  observe (cpid_make_uuid (Some 1%positive) 4321 1700000000 500000 OutArray example_world)
  = Some (0, Some [xf8; x42; xdc; x71; xd2; xb5; x81; x7a;
                   x89; x6d; xed; xa2; xc3; x8e; x67; x32]).
Proof. vm_compute. reflexivity. Qed.

Example example_identifier_next_microsecond :
  observe (cpid_make_uuid (Some 1%positive) 4321 1700000000 500001 OutArray example_world)
  <> observe (cpid_make_uuid (Some 1%positive) 4321 1700000000 500000 OutArray example_world).
Proof. vm_compute. discriminate. Qed.

(** ** Instances of the statements *)

Lemma cpid_make_uuid_digest_prefix_witness :
  (exists u w',
     cpid_make_uuid (Some 1%positive) 4321 1700000000 500000 OutArray example_world
     = Ret (0, Some u) w'
     /\ vec_to_list u
        = spec_identifier
            (SHA256.sha256
               (digest_input_content_bytes
                  (set_process 4321 1700000000 500000 example_record))))
  /\ (exists w',
        cpid_make_uuid (platform := short_digest_platform)
          (Some 1%positive) 4321 1700000000 500000 OutArray short_digest_world
        = Ret (-1, None) w').
Proof.
  split.
  - destruct (cpid_make_uuid_digest_prefix example_codes_differ
                example_world 1%positive example_handle 3%positive [] 2%positive
                4321 1700000000 500000 example_ready
                ltac:(vm_compute; discriminate) ltac:(vm_compute; discriminate))
      as (_ & _ & result & w' & Hrun & _ & _ & Hok & _).
    destruct (Hok (SHA256.sha256
                     (digest_input_content_bytes
                        (set_process 4321 1700000000 500000 example_record)))
                eq_refl (sha256_length _)) as (u & Hresult & Hu).
    exists u, w'. rewrite Hresult in Hrun. split; [ exact Hrun | exact Hu ].
  - destruct (cpid_make_uuid_digest_prefix (platform := short_digest_platform)
                example_codes_differ
                short_digest_world 1%positive example_handle 3%positive [] 2%positive
                4321 1700000000 500000 short_digest_ready
                ltac:(vm_compute; discriminate) ltac:(vm_compute; discriminate))
      as (_ & _ & result & w' & Hrun & _ & _ & _ & Hshort & _).
    rewrite (Hshort (take 20 (SHA256.sha256
                                (digest_input_content_bytes
                                   (set_process 4321 1700000000 500000 example_record))))
               eq_refl) in Hrun.
    + exists w'. exact Hrun.
    + rewrite length_take, sha256_length. discriminate.
Defined.

Lemma example_digest (s : cpid_struct) (st : list byte) pid seconds micros :
  openssl_digest st
    (digest_input_content_bytes (set_process pid seconds micros (digest_input_content s)))
  = Some (SHA256.sha256
            (digest_input_content_bytes
               (set_process pid seconds micros (digest_input_content s)))).
Proof. reflexivity. Qed.

Lemma cpid_make_uuid_version_variant_witness :
  exists u w',
    cpid_make_uuid (Some 1%positive) 4321 1700000000 500000 OutArray example_world
    = Ret (0, Some u) w'
    /\ Z.shiftr (Z_of_byte (u !!! 6%fin)) 4 = 8
    /\ Z.shiftr (Z_of_byte (u !!! 8%fin)) 6 = 2.
Proof.
  destruct (cpid_make_uuid_succeeds (constants := example_constants) example_world 1%positive example_handle
              3%positive [] 2%positive 4321 1700000000 500000 _ example_ready
              ltac:(vm_compute; discriminate) ltac:(vm_compute; discriminate)
              (example_digest _ _ _ _ _) (sha256_length _))
    as (u & w' & Hrun & _).
  destruct (cpid_make_uuid_version_variant example_codes_differ _ _ _ _ _ _ _ _ Hrun)
    as (h & s & c & st & m & u' & digest & _ & _ & Hu & _ & _ & H6 & _ & H8 & _).
  injection Hu as <-. exists u, w'. split; [ exact Hrun | ]. split; [ exact H6 | exact H8 ].
Defined.

Lemma cpid_make_uuid_invalid_argument_witness :
  cpid_make_uuid (Some 1%positive) 2147483648 1700000000 500000 OutArray example_world
  = Ret (-1, None) example_world
  /\ cpid_make_uuid (Some 1%positive) 4321 1700000000 1000000 OutArray example_world
     = Ret (-1, None) example_world
  /\ cpid_make_uuid None 4321 1700000000 500000 OutArray example_world
     = Ret (-1, None) example_world.
Proof.
  split; [ | split ].
  - refine (cpid_make_uuid_invalid_argument (constants := example_constants)
              (Some 1%positive) 2147483648 1700000000 500000 OutArray example_world _).
    right; left. vm_compute. reflexivity.
  - refine (cpid_make_uuid_invalid_argument (constants := example_constants)
              (Some 1%positive) 4321 1700000000 1000000 OutArray example_world _).
    right; right; left. vm_compute. reflexivity.
  - refine (cpid_make_uuid_invalid_argument (constants := example_constants)
              None 4321 1700000000 500000 OutArray example_world _).
    left. reflexivity.
Defined.

Lemma cpid_make_uuid_deterministic_witness :
  exists out1 w1 out2 w2,
    cpid_make_uuid (Some 1%positive) 4321 1700000000 500000 OutArray example_world
    = Ret (0, out1) w1
    /\ cpid_make_uuid (Some 1%positive) 4321 1700000000 500000 OutArray w1
       = Ret (0, out2) w2
    /\ out1 = out2.
Proof.
  destruct (cpid_make_uuid_succeeds (constants := example_constants) example_world 1%positive example_handle
              3%positive [] 2%positive 4321 1700000000 500000 _ example_ready
              ltac:(vm_compute; discriminate) ltac:(vm_compute; discriminate)
              (example_digest _ _ _ _ _) (sha256_length _))
    as (u1 & w1 & Hrun1 & _ & Hpost).
  destruct (make_uuid_post_ready _ _ _ _ _ _ _ _ _ _ example_ready Hpost)
    as (s' & st' & Hready' & _).
  destruct (cpid_make_uuid_succeeds (constants := example_constants) w1 1%positive s' 3%positive st' 2%positive
              4321 1700000000 500000 _ Hready'
              ltac:(vm_compute; discriminate) ltac:(vm_compute; discriminate)
              (example_digest _ _ _ _ _) (sha256_length _))
    as (u2 & w2 & Hrun2 & _).
  exists (Some u1), w1, (Some u2), w2. split; [ exact Hrun1 | ]. split; [ exact Hrun2 | ].
  exact (proj2 (cpid_make_uuid_deterministic example_codes_differ SHA256.sha256
                  4321 1700000000 500000 example_computes_sha256)
           _ _ _ _ _ _ _ _ Hrun1 Hrun2).
Defined.

Lemma cpid_initialize_all_or_nothing_witness :
  (exists w',
     cpid_initialize (platform := no_uuid_platform) (empty_world no_uuid_platform)
     = Ret None w'
     /\ heap w' = ∅)
  /\ exists r w',
       cpid_initialize (empty_world example_platform) = Ret r w'
       /\ r = Some 1%positive.
Proof.
  split.
  - destruct (cpid_initialize_all_or_nothing (platform := no_uuid_platform)
                example_codes_differ (empty_world no_uuid_platform))
      as (r & w' & Hrun & _ & Hfail).
    destruct Hfail as [Hr Hheap].
    { do 4 right; left. intros text u (_ & Hnone & _).
      change (None = Some text) in Hnone. discriminate Hnone. }
    exists w'. rewrite Hr in Hrun. split; [ exact Hrun | exact Hheap ].
  - destruct (cpid_initialize_all_or_nothing example_codes_differ
                (empty_world example_platform))
      as (r & w' & Hrun & _ & _).
    exists r, w'. split; [ exact Hrun | ].
    rewrite example_initialize in Hrun. injection Hrun as <- _. reflexivity.
Defined.

Lemma example_pointers_live : pointers_live example_world example_handle.
Proof.
  split; intros l Hl; injection Hl as <-; [ exists [] | ]; reflexivity.
Qed.

Lemma cpid_finalize_releases_once_witness :
  cpid_finalize None example_world = Ret tt example_world
  /\ cpid_finalize (Some 1%positive) example_world
     = Ret tt (World ∅ [SysctlProc 0; SysctlProc 1])
  /\ cpid_finalize (Some 1%positive) (World ∅ [SysctlProc 0; SysctlProc 1]) = Fault.
Proof.
  destruct (cpid_finalize_releases_once (platform := example_platform))
    as (Hnull & Hlive & Htwice).
  pose proof (Hlive example_world 1%positive example_handle eq_refl example_pointers_live)
    as Hrun.
  split; [ apply Hnull | ]. split; [ exact Hrun | ].
  exact (proj2 (Htwice _ _ _ Hrun)).
Defined.

(** The handle of the reference host, finalized twice: the second call
    finds the block released. *)
Lemma cpid_finalize_twice_faults :
  cpid_initialize (empty_world example_platform) = Ret (Some 1%positive) example_world
  /\ cpid_finalize (Some 1%positive) example_world
     = Ret tt (World ∅ [SysctlProc 0; SysctlProc 1])
  /\ cpid_finalize (Some 1%positive) (World ∅ [SysctlProc 0; SysctlProc 1]) = Fault.
Proof. repeat split; reflexivity. Qed.

Lemma cpid_make_uuid_constant_fields_witness :
  exists results w' s' st',
    make_uuid_calls 1%positive example_calls example_world = Ret results w'
    /\ length results = 5%nat
    /\ ready w' 1%positive s' 3%positive st' 2%positive
    /\ constant_fields (digest_input_content s') = constant_fields example_record.
Proof.
  destruct (cpid_make_uuid_constant_fields example_calls example_world 1%positive
              example_handle 3%positive [] 2%positive example_ready)
    as (results & w' & s' & st' & Hrun & Hlen & Hready & _ & _ & Hsn & Hhw & Hk & Hl & _).
  exists results, w', s', st'. split; [ exact Hrun | ]. split; [ exact Hlen | ].
  split; [ exact Hready | ].
  unfold constant_fields. rewrite Hsn, Hhw, Hk, Hl. reflexivity.
Defined.

Lemma example_start_available : creation_time_available 4321 example_start.
Proof. repeat split; vm_compute; congruence. Qed.

Lemma cpid_get_uuid_string_lowercase_witness :
  exists str w',
    cpid_get_uuid_string (Some 1%positive) 4321 OutArray example_world
    = Ret (0, Some str) w'
    /\ matches_uuid_grammar (c_string (vec_to_list str)) = true.
Proof.
  destruct (cpid_get_uuid_succeeds (constants := example_constants) example_world 1%positive example_handle
              3%positive [] 2%positive 4321 example_start _ example_ready
              example_start_available ltac:(vm_compute; discriminate)
              (example_digest _ _ _ _ _) (sha256_length _))
    as (u & w' & Hget & _).
  destruct (cpid_get_uuid_string_lowercase example_codes_differ (Some 1%positive) 4321
              example_world) as (Hok & _ & _).
  destruct (Hok u w' Hget) as (str & Hrun & _ & _ & Hgrammar).
  exists str, w'. split; [ exact Hrun | exact Hgrammar ].
Defined.

Example example_identifier_string :
  observe_string
    (cpid_get_uuid_string (Some 1%positive) 4321 OutArray example_world)
  = Some (0, Some (uuid_text false [xf8; x42; xdc; x71; xd2; xb5; x81; x7a;
                                    x89; x6d; xed; xa2; xc3; x8e; x67; x32])).
Proof. vm_compute. reflexivity. Qed.

Lemma cpid_get_uuid_pid_out_of_range_witness :
  cpid_get_uuid (Some 1%positive) 2147483648 OutArray example_world
  = Ret (-1, None) example_world
  /\ cpid_get_uuid_string (Some 1%positive) 2147483648 OutArray example_world
     = Ret (-1, None) example_world.
Proof.
  destruct (cpid_get_uuid_pid_out_of_range example_codes_differ (Some 1%positive)
              2147483648 OutArray OutArray OutArray example_world
              ltac:(vm_compute; reflexivity))
    as (_ & Hget & Hstring).
  split; [ exact Hget | exact Hstring ].
Defined.

(** ** Instances of the further statements *)

Lemma example_serial_number_run :
  cpid_get_serial_number (Some (zeroed MACOS_SERIAL_NUMBER_BUFFER_SIZE))
    (empty_world example_platform)
  = Ret (0, Some (memcpy (example_serial_number ++ [x00])
                    (zeroed MACOS_SERIAL_NUMBER_BUFFER_SIZE)))
      (empty_world example_platform).
Proof.
  apply (cpid_get_serial_number_available (constants := example_constants)
           (platform := example_platform));
    [ reflexivity | reflexivity | vm_compute; lia ].
Qed.

Lemma cpid_get_serial_number_fits_witness :
  exists written,
    cpid_get_serial_number (Some (zeroed MACOS_SERIAL_NUMBER_BUFFER_SIZE))
      (empty_world example_platform)
    = Ret (0, Some written) (empty_world example_platform)
    /\ c_string (vec_to_list written) = example_serial_number.
Proof.
  destruct (cpid_get_serial_number_fits (constants := example_constants)
              (platform := example_platform) example_codes_differ
              _ _ _ _ _ example_serial_number_run) as (_ & Hcontent & _).
  destruct (Hcontent (zeroed MACOS_SERIAL_NUMBER_BUFFER_SIZE) example_serial_number
              eq_refl eq_refl eq_refl ltac:(vm_compute; lia))
    as (written & Hout & _ & Hstring).
  exists written. injection Hout as <-.
  split; [ exact example_serial_number_run | exact Hstring ].
Defined.

Lemma cpid_get_hardware_uuid_round_trip_witness :
  cpid_get_hardware_uuid OutArray (empty_world example_platform)
  = Ret (0, Some (hardware_uuid example_record)) (empty_world example_platform).
Proof.
  exact (cpid_get_hardware_uuid_round_trip (constants := example_constants)
           (platform := example_platform) true (hardware_uuid example_record)
           (empty_world example_platform) eq_refl eq_refl).
Defined.

Lemma cpid_get_hardware_uuid_wrong_length_witness :
  cpid_get_hardware_uuid (platform := short_uuid_platform) OutArray
    (empty_world short_uuid_platform)
  = Ret (-1, None) (empty_world short_uuid_platform).
Proof.
  refine (cpid_get_hardware_uuid_wrong_length (constants := example_constants)
            (platform := short_uuid_platform) (take 35 example_uuid_text) OutArray
            (empty_world short_uuid_platform) eq_refl _).
  vm_compute. lia.
Defined.

Lemma cpid_get_process_creation_time_lookup_witness :
  exists events,
    cpid_get_process_creation_time 4321 OutArray example_world
    = Ret (0, Some example_start)
        (World (heap example_world) (trace example_world ++ events)).
Proof.
  destruct (cpid_get_process_creation_time_lookup (constants := example_constants)
              (platform := example_platform) example_codes_differ
              4321 OutArray example_world)
    as (result & events & Hrun & _ & _ & _ & Hgood).
  rewrite (Hgood example_start eq_refl example_start_available) in Hrun.
  exists events. exact Hrun.
Defined.

Lemma cpid_get_uuid_is_make_uuid_witness :
  cpid_get_uuid (Some 1%positive) 4321 OutArray example_world
  = cpid_make_uuid (Some 1%positive) 4321 1700000000 500000 OutArray
      (World (heap example_world) (trace example_world ++ [SysctlProc 4321])).
Proof.
  exact (cpid_get_uuid_is_make_uuid (constants := example_constants)
           (platform := example_platform) example_codes_differ
           1%positive 4321 example_start example_world example_start_available).
Defined.

(** The reference host has no process 5. *)
Lemma example_no_process_5 : forall t, ~ creation_time_available 5 t.
Proof. intros t (_ & _ & _ & Hpid & _). vm_compute in Hpid. discriminate. Qed.

Lemma cpid_get_uuid_unknown_process_witness :
  exists events events',
    cpid_get_uuid (Some 1%positive) 5 OutArray example_world
    = Ret (-1, None) (World (heap example_world) (trace example_world ++ events))
    /\ cpid_get_uuid_string (Some 1%positive) 5 OutArray example_world
       = Ret (-1, None) (World (heap example_world) (trace example_world ++ events')).
Proof.
  destruct (cpid_get_uuid_unknown_process (constants := example_constants)
              (platform := example_platform) example_codes_differ
              (Some 1%positive) 5 OutArray OutArray example_world example_no_process_5)
    as (events & events' & Hget & Hstring & _).
  exists events, events'. split; [ exact Hget | exact Hstring ].
Defined.

Lemma cpid_life_cycle_restores_heap_witness :
  exists results w2,
    make_uuid_calls 1%positive example_calls example_world = Ret results w2
    /\ length results = 5%nat
    /\ cpid_finalize (Some 1%positive) w2 = Ret tt (World ∅ (trace w2)).
Proof.
  exact (cpid_life_cycle_restores_heap (constants := example_constants)
           (platform := example_platform) example_codes_differ
           example_calls (empty_world example_platform) 1%positive example_world
           example_initialize).
Defined.

Lemma cpid_use_after_finalize_witness :
  cpid_make_uuid (Some 1%positive) 4321 1700000000 500000 OutArray
    (World ∅ [SysctlProc 0; SysctlProc 1])
  = Fault.
Proof.
  refine (proj1 (cpid_use_after_finalize (constants := example_constants)
                   (platform := example_platform)
                   1%positive example_world tt (World ∅ [SysctlProc 0; SysctlProc 1])
                   4321 1700000000 500000 eq_refl _) _);
    vm_compute; discriminate.
Defined.

Lemma cpid_first_identifier_witness :
  exists result w2,
    cpid_make_uuid (Some 1%positive) 4321 1700000000 500000 OutArray example_world
    = Ret result w2.
Proof.
  destruct (cpid_first_identifier (constants := example_constants)
              (platform := example_platform) example_codes_differ
              (empty_world example_platform) 1%positive example_world
              4321 1700000000 500000 example_initialize
              ltac:(vm_compute; discriminate) ltac:(vm_compute; discriminate))
    as (sn & text & u & tk & tl & st & result & w2 & _ & _ & _ & _ & _ & Hrun & _).
  exists result, w2. exact Hrun.
Defined.

Lemma example_string_run :
  exists u w',
    cpid_get_uuid_string (Some 1%positive) 4321 OutArray example_world
    = Ret (0, Some (vmap tolower (uuid_unparse true u))) w'.
Proof.
  destruct (cpid_get_uuid_succeeds (constants := example_constants) example_world
              1%positive example_handle 3%positive [] 2%positive 4321 example_start _
              example_ready example_start_available ltac:(vm_compute; discriminate)
              (example_digest _ _ _ _ _) (sha256_length _))
    as (u & w' & Hget & _).
  exists u, w'. exact (cpid_get_uuid_string_of_uuid _ _ _ _ _ Hget).
Qed.

Lemma cpid_get_uuid_string_version_variant_witness :
  exists str w',
    cpid_get_uuid_string (Some 1%positive) 4321 OutArray example_world
    = Ret (0, Some str) w'
    /\ vec_to_list str !! 14%nat = Some "8"%byte.
Proof.
  destruct example_string_run as (u & w' & Hrun).
  exists (vmap tolower (uuid_unparse true u)), w'. split; [ exact Hrun | ].
  exact (proj1 (cpid_get_uuid_string_version_variant (constants := example_constants)
                  (platform := example_platform) example_codes_differ
                  _ _ _ _ _ _ Hrun)).
Defined.

Lemma cpid_get_uuid_string_parses_back_witness :
  exists u str w',
    cpid_get_uuid_string (Some 1%positive) 4321 OutArray example_world
    = Ret (0, Some str) w'
    /\ uuid_parse (vec_to_list str) = Some u.
Proof.
  destruct example_string_run as (u0 & w' & Hrun).
  destruct (cpid_get_uuid_string_parses_back (constants := example_constants)
              (platform := example_platform) example_codes_differ
              _ _ _ _ _ _ Hrun) as (u & str & Hout & _ & Hparse & _).
  exists u, str, w'. injection Hout as <-. split; [ exact Hrun | exact Hparse ].
Defined.

Lemma example_process_record_in_range : record_in_range example_process_record.
Proof. repeat split; vm_compute; congruence. Qed.

Lemma digest_input_content_bytes_injective_witness :
  digest_input_content_bytes (set_process 4321 1700000000 500001 example_record)
  <> digest_input_content_bytes example_process_record.
Proof.
  intros Heq.
  assert (Hrange : record_in_range (set_process 4321 1700000000 500001 example_record))
    by (repeat split; vm_compute; congruence).
  pose proof (digest_input_content_bytes_injective _ _
                Hrange example_process_record_in_range Heq) as Hsame.
  apply (f_equal (fun r => micros_offset (process_creation_time r))) in Hsame.
  discriminate Hsame.
Defined.

Lemma cpid_initialize_queries_witness :
  trace example_world
  = trace (empty_world example_platform)
    ++ [SysctlProc KERNEL_TASK_PID; SysctlProc LAUNCHD_PID].
Proof.
  destruct (cpid_initialize_queries (constants := example_constants)
              (platform := example_platform) example_codes_differ
              _ _ _ example_initialize) as (events & Htrace & _ & Hevents).
  rewrite (Hevents ltac:(discriminate)) in Htrace. exact Htrace.
Defined.


